(** * Duty-cycling MAC for leaf nodes (gnrc_netdev2_duty_leaf.c)

    A shallow embedding of
    [sys/net/gnrc/link_layer/dutymac/gnrc_netdev2_duty_leaf.c]:
    the sleep-interval back-off, the FIFO packet queue, the timer
    callback [dutycycle_cb], the driver callback [_event_cb] and the
    message loop of [_gnrc_netdev2_duty_thread].

    Conventions.
    - The module-level globals of the C file are the fields of [state].
    - [uint8_t] and [uint32_t] values are [Z] with the wrap-around written
      out ([u8], [u32]).
    - [pkt_queue] is the C array of [NETDEV2_PKT_QUEUE_SIZE] slots, a list
      read with [!!] and written with [<[_:=_]>]; a read past the end of
      the array is the fault [OUT_OF_BOUNDS].
    - A failing [assert] is the fault [ASSERT_FAILED].
    - Calls that leave the file (packet buffer, radio driver, retry/CSMA
      helpers, [msg_reply], [DEBUG]) are appended to the trace [out];
      [msg_send] to the MAC thread appends to its mailbox [mbox] and is
      taken to succeed, as is the driver call inside [is_receiving].
    - What the outside world answers ([is_receiving], the random number,
      the return values of the driver and of the retry/CSMA helpers, the
      events the driver raises inside [isr]) comes in an [oracle]. *)

From Stdlib Require Import ZArith Lia Bool.
From stdpp Require Import base list.

Local Open Scope Z_scope.

(** ** Machine integers *)

Definition u8 (z : Z) : Z := z mod 256.
Definition u32 (z : Z) : Z := z mod 2 ^ 32.

(** ** Faults: a small error monad *)

Inductive fault := ASSERT_FAILED | OUT_OF_BOUNDS.

Inductive result (A : Type) :=
| Ok (a : A)
| Fault (f : fault).
Arguments Ok {A} a.
Arguments Fault {A} f.

Definition bind {A B : Type} (r : result A) (k : A -> result B) : result B :=
  match r with
  | Ok a => k a
  | Fault f => Fault f
  end.

Notation "'do' x <- r ; k" := (bind r (fun x => k))
  (at level 10, x name, r at level 100, k at level 200).

Definition assert (b : bool) : result unit :=
  if b then Ok tt else Fault ASSERT_FAILED.

(** ** Types of the C file and of the headers it uses *)

Inductive netopt_enable_t := NETOPT_DISABLE | NETOPT_ENABLE.

Inductive netopt_state_t := NETOPT_STATE_SLEEP | NETOPT_STATE_IDLE | NETOPT_STATE_RX.

Inductive dutycycle_state_t :=
| DUTY_INIT
| DUTY_SLEEP
| DUTY_TX_BEACON
| DUTY_TX_DATA
| DUTY_TX_DATA_BEFORE_BEACON
| DUTY_LISTEN.

Inductive netdev2_event_t :=
| NETDEV2_EVENT_ISR
| NETDEV2_EVENT_RX_PENDING
| NETDEV2_EVENT_RX_COMPLETE
| NETDEV2_EVENT_TX_COMPLETE_PENDING
| NETDEV2_EVENT_TX_COMPLETE
| NETDEV2_EVENT_TX_MEDIUM_BUSY
| NETDEV2_EVENT_TX_NOACK
| NETDEV2_EVENT_OTHER.

(** [msg_t] as the queue stores it: the three fields [msg_queue_add]
    copies.  A pointer is a [Z]; [NULL] is 0. *)
Record msg_t := { sender_pid : Z; type : Z; content_ptr : Z }.

Definition NULL : Z := 0.

(** A [GNRC_NETAPI_MSG_TYPE_SET] request: either the option
    [NETOPT_DUTYCYCLE], whose data is a [netopt_enable_t], or any other
    option, passed to the driver as it is. *)
Inductive set_request :=
| SET_DUTYCYCLE (e : netopt_enable_t)
| SET_OTHER (opt : Z) (data : Z).

(** The messages the MAC thread dispatches on ([switch (msg.type)]). *)
Inductive mac_msg :=
| M_EVENT                          (* GNRC_NETDEV2_DUTYCYCLE_MSG_TYPE_EVENT *)
| M_REMOVE_QUEUE                   (* ..._MSG_TYPE_REMOVE_QUEUE *)
| M_CHECK_QUEUE                    (* ..._MSG_TYPE_CHECK_QUEUE *)
| M_NETDEV_EVENT                   (* NETDEV2_MSG_TYPE_EVENT *)
| M_SND (sender : Z) (pkt : Z)     (* GNRC_NETAPI_MSG_TYPE_SND *)
| M_SET (sender : Z) (req : set_request)
| M_GET (sender : Z) (opt : Z)
| M_LINK_RETRANSMIT (pkt : Z)      (* ..._MSG_TYPE_LINK_RETRANSMIT *)
| M_OTHER (t : Z).

Inductive debug_msg :=
| DBG_QUEUE_LOSS            (* "Queue loss at netdev2" *)
| DBG_PENDING_NUMBER_ERROR  (* "NETDEV2: Pending number error" *)
| DBG_SOMETHING_IS_WRONG    (* "gnrc_netdev2: SOMETHING IS WRONG" *)
| DBG_UNHANDLED_EVENT
| DBG_UNKNOWN_COMMAND.

(** Calls that leave the file, in the order they are made. *)
Inductive action :=
| A_pktbuf_release (pkt : Z)
| A_send_with_retries (pkt : Z)
| A_driver_set_state (st : netopt_state_t)
| A_driver_set_src_len
| A_driver_set (opt data : Z)
| A_driver_get_state
| A_driver_get (opt : Z)
| A_driver_send_beacon
| A_driver_send (pkt : Z)
| A_driver_resend (pkt : Z)
| A_msg_reply (to res : Z)
| A_csma_send_succeeded
| A_csma_send_failed
| A_retry_send_succeeded
| A_retry_send_failed
| A_dispatch_receive (pkt : Z)
| A_DEBUG (d : debug_msg).

(** The globals of the file, the mailbox of the MAC thread and the trace. *)
Record state := {
  sleep_interval_shift : Z;
  dutycycling : netopt_enable_t;
  dutycycle_state : dutycycle_state_t;
  timer : option Z;
  pending_num : Z;
  radio_busy : bool;
  additional_wakeup : bool;
  retry_rexmit : bool;
  sending_beacon : bool;
  irq_pending : bool;
  beacon_pending : bool;
  pkt_queue : list msg_t;
  mbox : list mac_msg;
  out : list action
}.

Definition set_sleep_interval_shift (v : Z) (s : state) : state :=
  {| sleep_interval_shift := v; dutycycling := dutycycling s;
     dutycycle_state := dutycycle_state s; timer := timer s;
     pending_num := pending_num s; radio_busy := radio_busy s;
     additional_wakeup := additional_wakeup s; retry_rexmit := retry_rexmit s;
     sending_beacon := sending_beacon s; irq_pending := irq_pending s;
     beacon_pending := beacon_pending s; pkt_queue := pkt_queue s;
     mbox := mbox s; out := out s |}.

Definition set_dutycycling (v : netopt_enable_t) (s : state) : state :=
  {| sleep_interval_shift := sleep_interval_shift s; dutycycling := v;
     dutycycle_state := dutycycle_state s; timer := timer s;
     pending_num := pending_num s; radio_busy := radio_busy s;
     additional_wakeup := additional_wakeup s; retry_rexmit := retry_rexmit s;
     sending_beacon := sending_beacon s; irq_pending := irq_pending s;
     beacon_pending := beacon_pending s; pkt_queue := pkt_queue s;
     mbox := mbox s; out := out s |}.

Definition set_dutycycle_state (v : dutycycle_state_t) (s : state) : state :=
  {| sleep_interval_shift := sleep_interval_shift s; dutycycling := dutycycling s;
     dutycycle_state := v; timer := timer s;
     pending_num := pending_num s; radio_busy := radio_busy s;
     additional_wakeup := additional_wakeup s; retry_rexmit := retry_rexmit s;
     sending_beacon := sending_beacon s; irq_pending := irq_pending s;
     beacon_pending := beacon_pending s; pkt_queue := pkt_queue s;
     mbox := mbox s; out := out s |}.

Definition set_timer (v : option Z) (s : state) : state :=
  {| sleep_interval_shift := sleep_interval_shift s; dutycycling := dutycycling s;
     dutycycle_state := dutycycle_state s; timer := v;
     pending_num := pending_num s; radio_busy := radio_busy s;
     additional_wakeup := additional_wakeup s; retry_rexmit := retry_rexmit s;
     sending_beacon := sending_beacon s; irq_pending := irq_pending s;
     beacon_pending := beacon_pending s; pkt_queue := pkt_queue s;
     mbox := mbox s; out := out s |}.

Definition set_pending_num (v : Z) (s : state) : state :=
  {| sleep_interval_shift := sleep_interval_shift s; dutycycling := dutycycling s;
     dutycycle_state := dutycycle_state s; timer := timer s;
     pending_num := v; radio_busy := radio_busy s;
     additional_wakeup := additional_wakeup s; retry_rexmit := retry_rexmit s;
     sending_beacon := sending_beacon s; irq_pending := irq_pending s;
     beacon_pending := beacon_pending s; pkt_queue := pkt_queue s;
     mbox := mbox s; out := out s |}.

Definition set_radio_busy (v : bool) (s : state) : state :=
  {| sleep_interval_shift := sleep_interval_shift s; dutycycling := dutycycling s;
     dutycycle_state := dutycycle_state s; timer := timer s;
     pending_num := pending_num s; radio_busy := v;
     additional_wakeup := additional_wakeup s; retry_rexmit := retry_rexmit s;
     sending_beacon := sending_beacon s; irq_pending := irq_pending s;
     beacon_pending := beacon_pending s; pkt_queue := pkt_queue s;
     mbox := mbox s; out := out s |}.

Definition set_additional_wakeup (v : bool) (s : state) : state :=
  {| sleep_interval_shift := sleep_interval_shift s; dutycycling := dutycycling s;
     dutycycle_state := dutycycle_state s; timer := timer s;
     pending_num := pending_num s; radio_busy := radio_busy s;
     additional_wakeup := v; retry_rexmit := retry_rexmit s;
     sending_beacon := sending_beacon s; irq_pending := irq_pending s;
     beacon_pending := beacon_pending s; pkt_queue := pkt_queue s;
     mbox := mbox s; out := out s |}.

Definition set_retry_rexmit (v : bool) (s : state) : state :=
  {| sleep_interval_shift := sleep_interval_shift s; dutycycling := dutycycling s;
     dutycycle_state := dutycycle_state s; timer := timer s;
     pending_num := pending_num s; radio_busy := radio_busy s;
     additional_wakeup := additional_wakeup s; retry_rexmit := v;
     sending_beacon := sending_beacon s; irq_pending := irq_pending s;
     beacon_pending := beacon_pending s; pkt_queue := pkt_queue s;
     mbox := mbox s; out := out s |}.

Definition set_sending_beacon (v : bool) (s : state) : state :=
  {| sleep_interval_shift := sleep_interval_shift s; dutycycling := dutycycling s;
     dutycycle_state := dutycycle_state s; timer := timer s;
     pending_num := pending_num s; radio_busy := radio_busy s;
     additional_wakeup := additional_wakeup s; retry_rexmit := retry_rexmit s;
     sending_beacon := v; irq_pending := irq_pending s;
     beacon_pending := beacon_pending s; pkt_queue := pkt_queue s;
     mbox := mbox s; out := out s |}.

Definition set_irq_pending (v : bool) (s : state) : state :=
  {| sleep_interval_shift := sleep_interval_shift s; dutycycling := dutycycling s;
     dutycycle_state := dutycycle_state s; timer := timer s;
     pending_num := pending_num s; radio_busy := radio_busy s;
     additional_wakeup := additional_wakeup s; retry_rexmit := retry_rexmit s;
     sending_beacon := sending_beacon s; irq_pending := v;
     beacon_pending := beacon_pending s; pkt_queue := pkt_queue s;
     mbox := mbox s; out := out s |}.

Definition set_beacon_pending (v : bool) (s : state) : state :=
  {| sleep_interval_shift := sleep_interval_shift s; dutycycling := dutycycling s;
     dutycycle_state := dutycycle_state s; timer := timer s;
     pending_num := pending_num s; radio_busy := radio_busy s;
     additional_wakeup := additional_wakeup s; retry_rexmit := retry_rexmit s;
     sending_beacon := sending_beacon s; irq_pending := irq_pending s;
     beacon_pending := v; pkt_queue := pkt_queue s;
     mbox := mbox s; out := out s |}.

Definition set_pkt_queue (v : list msg_t) (s : state) : state :=
  {| sleep_interval_shift := sleep_interval_shift s; dutycycling := dutycycling s;
     dutycycle_state := dutycycle_state s; timer := timer s;
     pending_num := pending_num s; radio_busy := radio_busy s;
     additional_wakeup := additional_wakeup s; retry_rexmit := retry_rexmit s;
     sending_beacon := sending_beacon s; irq_pending := irq_pending s;
     beacon_pending := beacon_pending s; pkt_queue := v;
     mbox := mbox s; out := out s |}.

Definition set_mbox (v : list mac_msg) (s : state) : state :=
  {| sleep_interval_shift := sleep_interval_shift s; dutycycling := dutycycling s;
     dutycycle_state := dutycycle_state s; timer := timer s;
     pending_num := pending_num s; radio_busy := radio_busy s;
     additional_wakeup := additional_wakeup s; retry_rexmit := retry_rexmit s;
     sending_beacon := sending_beacon s; irq_pending := irq_pending s;
     beacon_pending := beacon_pending s; pkt_queue := pkt_queue s;
     mbox := v; out := out s |}.

Definition set_out (v : list action) (s : state) : state :=
  {| sleep_interval_shift := sleep_interval_shift s; dutycycling := dutycycling s;
     dutycycle_state := dutycycle_state s; timer := timer s;
     pending_num := pending_num s; radio_busy := radio_busy s;
     additional_wakeup := additional_wakeup s; retry_rexmit := retry_rexmit s;
     sending_beacon := sending_beacon s; irq_pending := irq_pending s;
     beacon_pending := beacon_pending s; pkt_queue := pkt_queue s;
     mbox := mbox s; out := v |}.

(** [msg_send(&msg, pid)] to the MAC thread and [msg_send_to_self]. *)
Definition msg_send (m : mac_msg) (s : state) : state :=
  set_mbox (mbox s ++ [m]) s.

(** A call that leaves the file. *)
Definition emit (a : action) (s : state) : state :=
  set_out (out s ++ [a]) s.

Definition xtimer_set (v : Z) (s : state) : state := set_timer (Some v) s.
Definition xtimer_remove (s : state) : state := set_timer None s.

Definition dutycycle_state_eqb (a b : dutycycle_state_t) : bool :=
  match a, b with
  | DUTY_INIT, DUTY_INIT | DUTY_SLEEP, DUTY_SLEEP
  | DUTY_TX_BEACON, DUTY_TX_BEACON | DUTY_TX_DATA, DUTY_TX_DATA
  | DUTY_TX_DATA_BEFORE_BEACON, DUTY_TX_DATA_BEFORE_BEACON
  | DUTY_LISTEN, DUTY_LISTEN => true
  | _, _ => false
  end.

Lemma dutycycle_state_eqb_eq a b : dutycycle_state_eqb a b = true <-> a = b.
Proof. destruct a, b; simpl; split; (reflexivity || discriminate). Qed.

(** ** Compile-time configuration

    [DUTYCYCLE_SLEEP_INTERVAL_MIN], [DUTYCYCLE_SLEEP_INTERVAL_MAX],
    [DUTYCYCLE_WAKEUP_INTERVAL] and the number [GNRC_NETAPI_MSG_TYPE_SND]
    are defined outside the file; they are parameters here. *)
Record config := {
  DUTYCYCLE_SLEEP_INTERVAL_MIN : Z;
  DUTYCYCLE_SLEEP_INTERVAL_MAX : Z;
  DUTYCYCLE_WAKEUP_INTERVAL : Z;
  GNRC_NETAPI_MSG_TYPE_SND : Z
}.

Definition NETDEV2_PKT_QUEUE_SIZE : Z := 128.

Section DutyLeaf.

Variable cfg : config.

(** ** Sleep-interval back-off *)

(** [uint32_t interval = (DUTYCYCLE_SLEEP_INTERVAL_MIN << sleep_interval_shift)] *)
Definition shifted_interval (s : state) : Z :=
  u32 (Z.shiftl (DUTYCYCLE_SLEEP_INTERVAL_MIN cfg) (sleep_interval_shift s)).

Definition reset_sleep_interval (s : state) : state :=
  set_sleep_interval_shift 0 s.

Definition backoff_sleep_interval (s : state) : result state :=
  let interval := shifted_interval s in
  if interval <? DUTYCYCLE_SLEEP_INTERVAL_MAX cfg then
    do _ <- assert (u32 (Z.shiftl interval 1) >=? interval);
    Ok (set_sleep_interval_shift (u8 (sleep_interval_shift s + 1)) s)
  else Ok s.

Definition get_sleep_interval (s : state) : Z :=
  let interval := shifted_interval s in
  if interval >? DUTYCYCLE_SLEEP_INTERVAL_MAX cfg
  then DUTYCYCLE_SLEEP_INTERVAL_MAX cfg
  else interval.

(** ** The retry layer's callback *)

(** [send_packet]: called by the retry/CSMA layer once per attempt. *)
Definition send_packet (pkt : Z) (retransmission : bool) (s : state) : state :=
  msg_send (M_LINK_RETRANSMIT pkt) (set_retry_rexmit retransmission s).

(** ** FIFO queue *)

Definition msg_queue_add (msg : msg_t) (s : state) : Z * state :=
  if pending_num s <? NETDEV2_PKT_QUEUE_SIZE then
    let q := <[Z.to_nat (pending_num s) :=
                 {| sender_pid := sender_pid msg; type := type msg;
                    content_ptr := content_ptr msg |}]> (pkt_queue s) in
    (1, set_pending_num (u8 (pending_num s + 1)) (set_pkt_queue q s))
  else
    (0, emit (A_DEBUG DBG_QUEUE_LOSS) s).

(** The body of [for (int i=0; i<pending_num; i++)] in
    [msg_queue_remove_head]: [n] iterations are left, [i] is the index. *)
Fixpoint shift_forward (n i : nat) (q : list msg_t) : result (list msg_t) :=
  match n with
  | O => Ok q
  | S n' =>
      match q !! S i with
      | None => Fault OUT_OF_BOUNDS
      | Some m =>
          let q' := <[i := m]> q in
          if (sender_pid m =? 0) && (type m =? 0) then Ok q'
          else shift_forward n' (S i) q'
      end
  end.

Definition msg_queue_remove_head (s : state) : result state :=
  match pkt_queue s !! 0%nat with
  | None => Fault OUT_OF_BOUNDS
  | Some hd =>
      let s := emit (A_pktbuf_release (content_ptr hd)) s in
      let s := set_pending_num (u8 (pending_num s - 1)) s in
      let s := if pending_num s <? 0
               then emit (A_DEBUG DBG_PENDING_NUMBER_ERROR) s else s in
      if negb (pending_num s =? 0) then
        do q <- shift_forward (Z.to_nat (pending_num s)) 0 (pkt_queue s);
        Ok (set_pkt_queue q s)
      else Ok s
  end.

Definition msg_queue_send (s : state) : result state :=
  match pkt_queue s !! 0%nat with
  | None => Fault OUT_OF_BOUNDS
  | Some hd =>
      let pkt := content_ptr hd in
      let s := set_radio_busy true s in
      let s := set_sending_beacon false s in
      Ok (emit (A_send_with_retries pkt) s)
  end.

(** ** The timer callback *)

Definition dutycycle_cb (s : state) : state :=
  match dutycycle_state s with
  | DUTY_INIT => s
  | DUTY_SLEEP =>
      let s := if negb (pending_num s =? 0)
               then set_dutycycle_state DUTY_TX_DATA_BEFORE_BEACON s
               else set_dutycycle_state DUTY_TX_BEACON s in
      msg_send M_EVENT s
  | DUTY_LISTEN =>
      if pending_num s >? 0 then
        let s := xtimer_set (get_sleep_interval s) s in
        let s := set_dutycycle_state DUTY_TX_DATA s in
        msg_send M_CHECK_QUEUE s
      else
        let s := set_dutycycle_state DUTY_SLEEP s in
        msg_send M_EVENT s
  | DUTY_TX_DATA => set_dutycycle_state DUTY_TX_DATA_BEFORE_BEACON s
  | _ => s
  end.

(** ** The driver's event callback *)

(** What the helpers called from [_event_cb] answer: the return values of
    [csma_send_failed] and [retry_send_failed], the packet [recv] returns
    ([NULL] for none) and whether [gnrc_netapi_dispatch_receive] found a
    receiver. *)
Record cb_oracle := {
  csma_will_retry : bool;
  retry_will_retry : bool;
  recv_pkt : Z;
  dispatch_ok : bool
}.

Definition _pass_on_packet (o : cb_oracle) (pkt : Z) (s : state) : state :=
  let s := emit (A_dispatch_receive pkt) s in
  if negb (dispatch_ok o) then emit (A_pktbuf_release pkt) s else s.

(** The part the cases [NETDEV2_EVENT_TX_MEDIUM_BUSY] (after the
    fallthrough) and [NETDEV2_EVENT_TX_NOACK] share once
    [retry_send_failed] has returned false. *)
Definition tx_failed_final (s : state) : result state :=
  let s := set_radio_busy false s in
  if negb (dutycycle_state_eqb (dutycycle_state s) DUTY_INIT) then
    if dutycycle_state_eqb (dutycycle_state s) DUTY_TX_BEACON then
      let s := xtimer_remove s in
      let s := set_dutycycle_state DUTY_SLEEP s in
      Ok (msg_send M_EVENT s)
    else if pending_num s >? 0 then
      do s <- (if negb (dutycycle_state_eqb (dutycycle_state s) DUTY_TX_DATA) then
                 do _ <- assert (negb (dutycycle_state_eqb (dutycycle_state s) DUTY_SLEEP));
                 Ok (xtimer_remove s)
               else Ok s);
      Ok (msg_send M_REMOVE_QUEUE s)
    else if dutycycle_state_eqb (dutycycle_state s) DUTY_TX_DATA then
      Ok (msg_send M_EVENT s)
    else Ok s
  else Ok s.

Definition tx_noack_tail (o : cb_oracle) (s : state) : result state :=
  let s := emit A_retry_send_failed s in
  if retry_will_retry o then Ok s else tx_failed_final s.

Definition _event_cb (event : netdev2_event_t) (o : cb_oracle) (s : state)
  : result state :=
  match event with
  | NETDEV2_EVENT_ISR =>
      let s := set_irq_pending true s in
      Ok (msg_send M_NETDEV_EVENT s)
  | NETDEV2_EVENT_RX_PENDING =>
      Ok (set_additional_wakeup true s)
  | NETDEV2_EVENT_RX_COMPLETE =>
      let pkt := recv_pkt o in
      let s := xtimer_remove s in
      let s :=
        if additional_wakeup s then
          let s := set_dutycycle_state DUTY_LISTEN s in
          let s := set_additional_wakeup false s in
          msg_send M_EVENT s
        else if pending_num s =? 0 then
          let s := set_dutycycle_state DUTY_SLEEP s in
          msg_send M_EVENT s
        else
          let s := xtimer_set (get_sleep_interval s) s in
          let s := set_dutycycle_state DUTY_TX_DATA s in
          msg_send M_CHECK_QUEUE s in
      Ok (if negb (pkt =? NULL) then _pass_on_packet o pkt s else s)
  | NETDEV2_EVENT_TX_COMPLETE_PENDING =>
      let s := emit A_csma_send_succeeded s in
      let s := emit A_retry_send_succeeded s in
      let s := set_radio_busy false s in
      let s := reset_sleep_interval s in
      if negb (dutycycle_state_eqb (dutycycle_state s) DUTY_INIT) then
        let s := if negb (dutycycle_state_eqb (dutycycle_state s) DUTY_TX_BEACON)
                 then emit (A_DEBUG DBG_SOMETHING_IS_WRONG) s else s in
        let s := xtimer_remove s in
        let s := set_dutycycle_state DUTY_LISTEN s in
        Ok (msg_send M_EVENT s)
      else Ok s
  | NETDEV2_EVENT_TX_COMPLETE =>
      let s := emit A_csma_send_succeeded s in
      let s := emit A_retry_send_succeeded s in
      let s := set_radio_busy false s in
      if negb (dutycycle_state_eqb (dutycycle_state s) DUTY_INIT) then
        if dutycycle_state_eqb (dutycycle_state s) DUTY_TX_BEACON then
          let s := xtimer_remove s in
          do s <- backoff_sleep_interval s;
          let s := set_dutycycle_state DUTY_SLEEP s in
          Ok (msg_send M_EVENT s)
        else if pending_num s >? 0 then
          let s := reset_sleep_interval s in
          do s <- (if negb (dutycycle_state_eqb (dutycycle_state s) DUTY_TX_DATA) then
                     do _ <- assert (negb (dutycycle_state_eqb (dutycycle_state s) DUTY_SLEEP));
                     Ok (xtimer_remove s)
                   else Ok s);
          Ok (msg_send M_REMOVE_QUEUE s)
        else if dutycycle_state_eqb (dutycycle_state s) DUTY_TX_DATA then
          Ok (msg_send M_EVENT s)
        else Ok s
      else Ok s
  | NETDEV2_EVENT_TX_MEDIUM_BUSY =>
      let s := emit A_csma_send_failed s in
      if csma_will_retry o then Ok s
      else tx_noack_tail o s
  | NETDEV2_EVENT_TX_NOACK =>
      let s := emit A_csma_send_succeeded s in
      tx_noack_tail o s
  | NETDEV2_EVENT_OTHER =>
      Ok (emit (A_DEBUG DBG_UNHANDLED_EVENT) s)
  end.
(** ** The MAC thread *)

(** What the outside world answers while the thread handles one message:
    [is_receiving(dev)], [random_uint32_range], the return value of the
    driver call the handler makes, the events the driver raises inside
    [isr] (each with what the helpers answer), and the helpers' answers
    for the [_event_cb] call of the LINK_RETRANSMIT case. *)
Record oracle := {
  rx : bool;
  rnd : Z;
  drv_res : Z;
  isr_events : list (netdev2_event_t * cb_oracle);
  cb : cb_oracle
}.

Definition send_beacon_safely (o : oracle) (s : state) : state :=
  if radio_busy s || irq_pending s || rx o then
    set_beacon_pending true s
  else
    let s := set_radio_busy true s in
    let s := set_sending_beacon true s in
    emit (A_send_with_retries NULL) s.

(** [dev->driver->isr(dev)]: the driver calls [_event_cb] zero or more times. *)
Fixpoint driver_isr (evs : list (netdev2_event_t * cb_oracle)) (s : state)
  : result state :=
  match evs with
  | [] => Ok s
  | (e, o) :: evs' => do s <- _event_cb e o s; driver_isr evs' s
  end.

(** [!radio_busy && !irq_pending && !is_receiving(dev)] *)
Definition may_submit (o : oracle) (s : state) : bool :=
  negb (radio_busy s) && negb (irq_pending s) && negb (rx o).

Definition handle_EVENT (o : oracle) (s : state) : result state :=
  match dutycycling s with
  | NETOPT_ENABLE =>
      match dutycycle_state s with
      | DUTY_INIT =>
          let s := set_dutycycling NETOPT_ENABLE s in
          let s := set_dutycycle_state DUTY_SLEEP s in
          let s := emit (A_driver_set_state NETOPT_STATE_SLEEP) s in
          let s := emit A_driver_set_src_len s in
          Ok (xtimer_set (rnd o) s)
      | DUTY_TX_BEACON =>
          let s := xtimer_remove s in
          Ok (send_beacon_safely o s)
      | DUTY_TX_DATA =>
          let s := set_dutycycle_state DUTY_SLEEP s in
          Ok (emit (A_driver_set_state NETOPT_STATE_SLEEP) s)
      | DUTY_TX_DATA_BEFORE_BEACON =>
          let s := xtimer_remove s in
          if may_submit o s then msg_queue_send s else Ok s
      | DUTY_LISTEN =>
          let s := emit A_driver_get_state s in
          let s := emit (A_driver_set_state NETOPT_STATE_IDLE) s in
          Ok (xtimer_set (DUTYCYCLE_WAKEUP_INTERVAL cfg) s)
      | DUTY_SLEEP =>
          let s := emit (A_driver_set_state NETOPT_STATE_SLEEP) s in
          Ok (xtimer_set (get_sleep_interval s) s)
      end
  | NETOPT_DISABLE => Ok (emit (A_DEBUG DBG_SOMETHING_IS_WRONG) s)
  end.

Definition handle_REMOVE_QUEUE (o : oracle) (s : state) : result state :=
  do s <- msg_queue_remove_head s;
  if negb (pending_num s =? 0) then
    if may_submit o s then msg_queue_send s else Ok s
  else
    if dutycycle_state_eqb (dutycycle_state s) DUTY_TX_DATA_BEFORE_BEACON then
      let s := set_dutycycle_state DUTY_TX_BEACON s in
      Ok (send_beacon_safely o s)
    else if dutycycle_state_eqb (dutycycle_state s) DUTY_TX_DATA then
      let s := set_dutycycle_state DUTY_SLEEP s in
      Ok (emit (A_driver_set_state NETOPT_STATE_SLEEP) s)
    else Ok s.

Definition handle_CHECK_QUEUE (o : oracle) (s : state) : result state :=
  if negb (dutycycle_state_eqb (dutycycle_state s) DUTY_LISTEN)
     && negb (pending_num s =? 0) && may_submit o s then
    let s := if dutycycle_state_eqb (dutycycle_state s) DUTY_SLEEP
             then set_dutycycle_state DUTY_TX_DATA s else s in
    msg_queue_send s
  else Ok s.

Definition handle_NETDEV_EVENT (o : oracle) (s : state) : result state :=
  let s := set_irq_pending false s in
  do s <- driver_isr (isr_events o) s;
  let s :=
    if beacon_pending s && negb (radio_busy s) then
      let s := set_beacon_pending false s in
      let s := set_radio_busy true s in
      let s := set_sending_beacon true s in
      emit (A_send_with_retries NULL) s
    else s in
  Ok (msg_send M_CHECK_QUEUE s).

Definition handle_SND (sender pkt : Z) (o : oracle) (s : state) : result state :=
  let msg := {| sender_pid := sender; type := GNRC_NETAPI_MSG_TYPE_SND cfg;
                content_ptr := pkt |} in
  let s := snd (msg_queue_add msg s) in
  if dutycycle_state_eqb (dutycycle_state s) DUTY_INIT then
    msg_queue_send s
  else if (pending_num s >? 1) || radio_busy s then Ok s
  else if may_submit o s && dutycycle_state_eqb (dutycycle_state s) DUTY_SLEEP then
    let s := set_dutycycle_state DUTY_TX_DATA s in
    msg_queue_send s
  else Ok s.

Definition handle_SET (sender : Z) (req : set_request) (o : oracle) (s : state)
  : result state :=
  let s :=
    match req with
    | SET_DUTYCYCLE e =>
        let s := set_dutycycling e s in
        let s := xtimer_remove s in
        let s :=
          match dutycycling s with
          | NETOPT_ENABLE =>
              let s := set_dutycycle_state DUTY_SLEEP s in
              xtimer_set (rnd o) s
          | NETOPT_DISABLE => set_dutycycle_state DUTY_INIT s
          end in
        let s := emit A_driver_set_src_len s in
        emit (A_driver_set_state NETOPT_STATE_SLEEP) s
    | SET_OTHER opt data => emit (A_driver_set opt data) s
    end in
  Ok (emit (A_msg_reply sender (drv_res o)) s).

Definition handle_GET (sender opt : Z) (o : oracle) (s : state) : result state :=
  let s := emit (A_driver_get opt) s in
  Ok (emit (A_msg_reply sender (drv_res o)) s).

Definition handle_LINK_RETRANSMIT (pkt : Z) (o : oracle) (s : state)
  : result state :=
  do s <-
    (if negb (irq_pending s) && negb (rx o) then
       let s :=
         if sending_beacon s then emit A_driver_send_beacon s
         else if retry_rexmit s then emit (A_driver_resend pkt) s
         else emit (A_driver_send pkt) s in
       if drv_res o <? 0 then _event_cb NETDEV2_EVENT_TX_MEDIUM_BUSY (cb o) s
       else Ok s
     else Ok (msg_send (M_LINK_RETRANSMIT pkt) s));
  Ok (emit (A_DEBUG DBG_UNKNOWN_COMMAND) s).

(** The body of [while (1)] after [msg_receive(&msg)]. *)
Definition thread_dispatch (m : mac_msg) (o : oracle) (s : state) : result state :=
  match m with
  | M_EVENT => handle_EVENT o s
  | M_REMOVE_QUEUE => handle_REMOVE_QUEUE o s
  | M_CHECK_QUEUE => handle_CHECK_QUEUE o s
  | M_NETDEV_EVENT => handle_NETDEV_EVENT o s
  | M_SND sender pkt => handle_SND sender pkt o s
  | M_SET sender req => handle_SET sender req o s
  | M_GET sender opt => handle_GET sender opt o s
  | M_LINK_RETRANSMIT pkt => handle_LINK_RETRANSMIT pkt o s
  | M_OTHER _ => Ok (emit (A_DEBUG DBG_UNKNOWN_COMMAND) s)
  end.

(** ** The system: the MAC thread and what surrounds it *)

Inductive input :=
| IN_TIMER                                (* the xtimer expires *)
| IN_IRQ                                  (* the radio raises its interrupt *)
| IN_SND (sender pkt : Z)                 (* gnrc_netapi_send *)
| IN_SET (sender : Z) (req : set_request) (* gnrc_netapi_set *)
| IN_GET (sender opt : Z)                 (* gnrc_netapi_get *)
| IN_SEND_PACKET (pkt : Z) (rexmit : bool) (* the retry layer calls send_packet *)
| IN_THREAD (o : oracle).                 (* the thread handles its next message *)

Definition step (i : input) (s : state) : result state :=
  match i with
  | IN_TIMER =>
      (* one-shot: the timer fires only if armed and is disarmed by firing *)
      match timer s with
      | Some _ => Ok (dutycycle_cb (set_timer None s))
      | None => Ok s
      end
  | IN_IRQ =>
      _event_cb NETDEV2_EVENT_ISR
        {| csma_will_retry := false; retry_will_retry := false;
           recv_pkt := NULL; dispatch_ok := false |} s
  | IN_SND sender pkt => Ok (msg_send (M_SND sender pkt) s)
  | IN_SET sender req => Ok (msg_send (M_SET sender req) s)
  | IN_GET sender opt => Ok (msg_send (M_GET sender opt) s)
  | IN_SEND_PACKET pkt rexmit => Ok (send_packet pkt rexmit s)
  | IN_THREAD o =>
      match mbox s with
      | [] => Ok s
      | m :: rest => thread_dispatch m o (set_mbox rest s)
      end
  end.

Fixpoint run (ins : list input) (s : state) : result state :=
  match ins with
  | [] => Ok s
  | i :: ins' => do s <- step i s; run ins' s
  end.

(** The globals as initialised, and [pkt_queue] after the start-up loop
    of the thread. *)
Definition init : state :=
  {| sleep_interval_shift := 0; dutycycling := NETOPT_DISABLE;
     dutycycle_state := DUTY_INIT; timer := None; pending_num := 0;
     radio_busy := false; additional_wakeup := false; retry_rexmit := false;
     sending_beacon := false; irq_pending := false; beacon_pending := false;
     pkt_queue := replicate (Z.to_nat NETDEV2_PKT_QUEUE_SIZE)
                    {| sender_pid := 0; type := 0; content_ptr := NULL |};
     mbox := []; out := [] |}.

Definition reachable (s : state) : Prop :=
  exists ins, run ins init = Ok s.

End DutyLeaf.

Arguments reachable cfg s : clear implicits.

(** * Vocabulary of the statements *)

(** A slot as the start-up loop leaves it: [sender_pid == 0 && type == 0],
    the test on which the shifting loop of [msg_queue_remove_head] stops. *)
Definition unused_slot (m : msg_t) : bool :=
  (sender_pid m =? 0) && (type m =? 0).

(** The queue holds at least one packet: the array has its 128 slots,
    [pending_num] is between 1 and 128 and the slots behind the head that
    are in use do not look unused. *)
Definition queue_holds (s : state) : Prop :=
  length (pkt_queue s) = 128%nat
  /\ 1 <= pending_num s <= 128
  /\ forall (j : nat) (m : msg_t),
       (1 <= j < Z.to_nat (pending_num s))%nat ->
       pkt_queue s !! j = Some m -> unused_slot m = false.

(** A TX failure is final when [retry_send_failed] returns false; for
    TX_MEDIUM_BUSY this is asked only after [csma_send_failed] has
    returned false. *)
Definition terminal_failure (ev : netdev2_event_t) (o : cb_oracle) : Prop :=
  retry_will_retry o = false
  /\ (ev = NETDEV2_EVENT_TX_NOACK
      \/ (ev = NETDEV2_EVENT_TX_MEDIUM_BUSY /\ csma_will_retry o = false)).

(** The two helper notifications a final failure makes. *)
Definition failure_notices (ev : netdev2_event_t) : list action :=
  match ev with
  | NETDEV2_EVENT_TX_NOACK => [A_csma_send_succeeded; A_retry_send_failed]
  | _ => [A_csma_send_failed; A_retry_send_failed]
  end.

(** The invariant behind the bound: the shift is 0, or the interval one
    step below it was under the maximum and the interval at it still fits
    32 bits. *)
Definition shift_inv (cfg : config) (s : state) : Prop :=
  0 <= sleep_interval_shift s
  /\ (sleep_interval_shift s = 0
      \/ (DUTYCYCLE_SLEEP_INTERVAL_MIN cfg * 2 ^ (sleep_interval_shift s - 1)
            < DUTYCYCLE_SLEEP_INTERVAL_MAX cfg
          /\ DUTYCYCLE_SLEEP_INTERVAL_MIN cfg * 2 ^ sleep_interval_shift s < 2 ^ 32)).

(** * Concrete runs *)

(** A configuration whose maximum is not the minimum times a power of
    two; the SND message type is RIOT's 0x0202. *)
Definition cfg_3_10 : config :=
  {| DUTYCYCLE_SLEEP_INTERVAL_MIN := 3; DUTYCYCLE_SLEEP_INTERVAL_MAX := 10;
     DUTYCYCLE_WAKEUP_INTERVAL := 1; GNRC_NETAPI_MSG_TYPE_SND := 514 |}.

Definition cb_final : cb_oracle :=
  {| csma_will_retry := false; retry_will_retry := false;
     recv_pkt := NULL; dispatch_ok := true |}.

(** [csma_send_failed] gives up, [retry_send_failed] will try again. *)
Definition cb_retry_again : cb_oracle :=
  {| csma_will_retry := false; retry_will_retry := true;
     recv_pkt := NULL; dispatch_ok := true |}.

(** The radio is idle and the driver raises no event. *)
Definition quiet : oracle :=
  {| rx := false; rnd := 7; drv_res := 0; isr_events := []; cb := cb_final |}.

(** The radio is receiving and the driver raises no event. *)
Definition receiving : oracle :=
  {| rx := true; rnd := 7; drv_res := 0; isr_events := []; cb := cb_final |}.

(** The driver raises the one event [ev] inside [isr]. *)
Definition isr_raises (ev : netdev2_event_t) : oracle :=
  {| rx := false; rnd := 7; drv_res := 0; isr_events := [(ev, cb_final)];
     cb := cb_final |}.

(** The application enables duty-cycling and the thread handles the SET. *)
Definition enable_dutycycle : list input :=
  [IN_SET 5 (SET_DUTYCYCLE NETOPT_ENABLE); IN_THREAD quiet].

(** One wake-up with an empty queue: the timer fires, the thread submits
    the beacon, the retry layer hands it to the driver, the radio reports
    TX_COMPLETE, and the thread handles the EVENT and CHECK_QUEUE
    messages that follow. *)
Definition beacon_cycle : list input :=
  [IN_TIMER; IN_THREAD quiet; IN_SEND_PACKET NULL false; IN_THREAD quiet;
   IN_IRQ; IN_THREAD (isr_raises NETDEV2_EVENT_TX_COMPLETE);
   IN_THREAD quiet; IN_THREAD quiet].

(** [n] packets sent by the application, each followed by the thread
    handling the SND message. *)
Definition flood (n : nat) : list input :=
  concat (replicate n [IN_SND 5 1001; IN_THREAD quiet]).

Definition state_of (r : result state) : state :=
  match r with Ok s => s | Fault _ => init end.

Definition is_msg_reply (a : action) : bool :=
  match a with A_msg_reply _ _ => true | _ => false end.

(** Duty-cycling enabled, the node asleep, nothing queued. *)
Definition asleep : state :=
  Eval vm_compute in state_of (run cfg_3_10 enable_dutycycle init).

(** Two beacon cycles after enabling duty-cycling. *)
Definition backed_off_twice : state :=
  Eval vm_compute in
    state_of (run cfg_3_10 (enable_dutycycle ++ beacon_cycle ++ beacon_cycle) init).

(** A beacon is in flight and one packet has been queued meanwhile. *)
Definition beacon_in_flight_one_queued : state :=
  Eval vm_compute in
    state_of (run cfg_3_10
                (enable_dutycycle ++
                 [IN_TIMER; IN_THREAD quiet; IN_SND 5 1001; IN_THREAD quiet])
                init).

(** Two packets queued in [DUTY_TX_DATA], the first in flight. *)
Definition two_queued : state :=
  Eval vm_compute in
    state_of (run cfg_3_10
                (enable_dutycycle ++
                 [IN_SND 5 1001; IN_THREAD quiet; IN_SND 5 1002; IN_THREAD quiet])
                init).

(** The last data frame has been acknowledged in
    [DUTY_TX_DATA_BEFORE_BEACON], REMOVE_QUEUE is the next message, and
    the radio has raised another interrupt that the thread has not yet
    handled. *)
Definition drained_irq_pending : state :=
  Eval vm_compute in
    state_of (run cfg_3_10
                (enable_dutycycle ++
                 [IN_SND 5 1001; IN_THREAD quiet; IN_TIMER; IN_IRQ;
                  IN_THREAD (isr_raises NETDEV2_EVENT_TX_COMPLETE); IN_IRQ])
                init).

(** The queue is full: 128 packets sent while the first is in flight. *)
Definition queue_full : state :=
  Eval vm_compute in
    state_of (run cfg_3_10 (enable_dutycycle ++ flood 128) init).

(** Duty-cycling has been disabled again with one packet still queued. *)
Definition disabled_one_queued : state :=
  Eval vm_compute in
    state_of (run cfg_3_10
                [IN_SND 5 1001; IN_THREAD quiet;
                 IN_SET 5 (SET_DUTYCYCLE NETOPT_DISABLE); IN_THREAD quiet]
                init).

(** Two packets queued, the first acknowledged: REMOVE_QUEUE is the next
    message and the radio is free. *)
Definition two_queued_acked : state :=
  Eval vm_compute in
    state_of (run cfg_3_10
                [IN_IRQ; IN_THREAD (isr_raises NETDEV2_EVENT_TX_COMPLETE)]
                two_queued).

(** The beacon of [beacon_in_flight_one_queued] acknowledged. *)
Definition beacon_acked : state :=
  Eval vm_compute in
    state_of (_event_cb cfg_3_10 NETDEV2_EVENT_TX_COMPLETE cb_final
                beacon_in_flight_one_queued).

(** * Initialisation

    [gnrc_netdev2_dutymac_init]: the calls it makes and the value it
    returns.  [gnrc_netdev2] is [None] for a NULL pointer and otherwise
    carries its [dev] field ([NULL] or not); [thread_create_res] is what
    [thread_create] returns; [ENODEV] and [EINVAL] are the errno
    numbers. *)

Inductive init_call := CALL_retry_init | CALL_csma_init | CALL_thread_create.

Definition gnrc_netdev2_dutymac_init (ENODEV EINVAL : Z)
    (gnrc_netdev2 : option Z) (thread_create_res : Z) : Z * list init_call :=
  let calls := [CALL_retry_init; CALL_csma_init] in
  match gnrc_netdev2 with
  | None => (- ENODEV, calls)
  | Some dev =>
      if dev =? NULL then (- ENODEV, calls)
      else
        let res := thread_create_res in
        let calls := calls ++ [CALL_thread_create] in
        if res <=? 0 then (- EINVAL, calls) else (res, calls)
  end.

(** * Vocabulary of the further properties *)

(** The packets the queue holds, head first: the first [pending_num]
    slots of the array. *)
Definition queue_contents (s : state) : list msg_t :=
  take (Z.to_nat (pending_num s)) (pkt_queue s).

Definition is_send_with_retries (a : action) : bool :=
  match a with A_send_with_retries _ => true | _ => false end.

Definition is_pktbuf_release (a : action) : bool :=
  match a with A_pktbuf_release _ => true | _ => false end.

(** The calls [_event_cb] can make: the notifications to the retry and
    CSMA helpers, the hand-over of a received packet (with its release
    when nobody takes it) and DEBUG. *)
Definition callback_action (a : action) : bool :=
  match a with
  | A_csma_send_succeeded | A_csma_send_failed
  | A_retry_send_succeeded | A_retry_send_failed
  | A_dispatch_receive _ | A_pktbuf_release _ | A_DEBUG _ => true
  | _ => false
  end.

(** The messages [_event_cb] can post to the MAC thread. *)
Definition callback_posted (m : mac_msg) : bool :=
  match m with
  | M_EVENT | M_REMOVE_QUEUE | M_CHECK_QUEUE | M_NETDEV_EVENT => true
  | _ => false
  end.

Definition no_set_msg (m : mac_msg) : bool :=
  match m with M_SET _ _ => false | _ => true end.

(** Duty-cycling is switched off and idle: the state is [DUTY_INIT], the
    switch is [NETOPT_DISABLE], the timer is disarmed and no SET message
    is waiting in the mailbox. *)
Definition disabled_idle (s : state) : Prop :=
  dutycycle_state s = DUTY_INIT
  /\ dutycycling s = NETOPT_DISABLE
  /\ timer s = None
  /\ forallb no_set_msg (mbox s) = true.

Definition not_rx_complete (e : netdev2_event_t * cb_oracle) : bool :=
  match fst e with NETDEV2_EVENT_RX_COMPLETE => false | _ => true end.

(** An input that is neither a SET request nor a thread step in which
    the driver raises RX_COMPLETE. *)
Definition leaves_init_alone (i : input) : bool :=
  match i with
  | IN_SET _ _ => false
  | IN_THREAD o => forallb not_rx_complete (isr_events o)
  | _ => true
  end.

(** The three calls that hand a frame to the radio driver. *)
Definition is_driver_tx (a : action) : bool :=
  match a with
  | A_driver_send_beacon | A_driver_send _ | A_driver_resend _ => true
  | _ => false
  end.

Definition used_slot (m : msg_t) : bool := negb (unused_slot m).

(** The queue is being drained before the beacon: the state is
    [DUTY_TX_DATA_BEFORE_BEACON], the packets [ms] are queued with the
    head in flight, no interrupt or message is waiting. *)
Definition draining (ms : list msg_t) (s : state) : Prop :=
  dutycycle_state s = DUTY_TX_DATA_BEFORE_BEACON
  /\ radio_busy s = true
  /\ irq_pending s = false
  /\ beacon_pending s = false
  /\ mbox s = []
  /\ length (pkt_queue s) = 128%nat
  /\ pending_num s = Z.of_nat (length ms)
  /\ (1 <= length ms <= 128)%nat
  /\ queue_contents s = ms
  /\ forallb used_slot ms = true.

(** The radio acknowledges the frame in flight and the thread handles
    the three messages that follow: NETDEV2_MSG_TYPE_EVENT, REMOVE_QUEUE
    and CHECK_QUEUE. *)
Definition drain_one : list input :=
  [IN_IRQ; IN_THREAD (isr_raises NETDEV2_EVENT_TX_COMPLETE);
   IN_THREAD quiet; IN_THREAD quiet].

(** The calls made while the packets [ms] are drained: for each packet
    the two success notifications, its release and the submission of the
    next packet, the beacon after the last. *)
Fixpoint drain_trace (ms : list msg_t) : list action :=
  match ms with
  | [] => []
  | m :: rest =>
      [A_csma_send_succeeded; A_retry_send_succeeded;
       A_pktbuf_release (content_ptr m);
       A_send_with_retries
         (match rest with [] => NULL | m' :: _ => content_ptr m' end)]
      ++ drain_trace rest
  end.

(** The node sleeps with duty-cycling on, an empty queue and the wake-up
    timer armed; nothing is in flight or waiting. *)
Definition sleeping_idle (s : state) : Prop :=
  dutycycling s = NETOPT_ENABLE
  /\ dutycycle_state s = DUTY_SLEEP
  /\ pending_num s = 0
  /\ radio_busy s = false
  /\ irq_pending s = false
  /\ beacon_pending s = false
  /\ mbox s = []
  /\ exists d, timer s = Some d.

(** A wake-up whose beacon is acknowledged with the frame-pending bit:
    as [beacon_cycle], with TX_COMPLETE_PENDING. *)
Definition beacon_cycle_pending : list input :=
  [IN_TIMER; IN_THREAD quiet; IN_SEND_PACKET NULL false; IN_THREAD quiet;
   IN_IRQ; IN_THREAD (isr_raises NETDEV2_EVENT_TX_COMPLETE_PENDING);
   IN_THREAD quiet; IN_THREAD quiet].

(** The listen window runs out: the timer fires and the thread handles
    the EVENT message. *)
Definition listen_timeout : list input := [IN_TIMER; IN_THREAD quiet].

(** Two states that differ at most in the trace. *)
Definition same_but_trace (s1 s2 : state) : Prop :=
  set_out [] s1 = set_out [] s2.

Definition no_set_no_remove (m : mac_msg) : bool :=
  match m with M_SET _ _ | M_REMOVE_QUEUE => false | _ => true end.

(** Duty-cycling is switched off, and neither a SET nor a REMOVE_QUEUE
    message is waiting; the queue counter is within the array. *)
Definition disabled_queueing (s : state) : Prop :=
  dutycycle_state s = DUTY_INIT
  /\ dutycycling s = NETOPT_DISABLE
  /\ forallb no_set_no_remove (mbox s) = true
  /\ 0 <= pending_num s <= 128.

(** ** Concrete states for the further properties *)

(** The counter has wrapped: the head of an empty queue was removed. *)
Definition wrapped_counter : state :=
  Eval vm_compute in state_of (msg_queue_remove_head init).

(** Two packets queued and the sleep timer has fired during the
    transmission of the first. *)
Definition draining_two : state :=
  Eval vm_compute in state_of (run cfg_3_10 [IN_TIMER] two_queued).

(** The queue has just been drained while an interrupt was pending: the
    beacon is deferred and NETDEV2_MSG_TYPE_EVENT is the next message. *)
Definition beacon_deferred : state :=
  Eval vm_compute in
    state_of (run cfg_3_10 [IN_THREAD quiet; IN_THREAD quiet] drained_irq_pending).

(** Duty-cycling switched off on a fresh node. *)
Definition switched_off : state :=
  Eval vm_compute in
    state_of (run cfg_3_10
                [IN_SET 5 (SET_DUTYCYCLE NETOPT_DISABLE); IN_THREAD quiet] init).

(** What a switched-off node is put through: a packet to send, its
    transmission and acknowledgement, a timer expiry. *)
Definition off_traffic : list input :=
  [IN_SND 5 1001; IN_THREAD quiet; IN_SEND_PACKET 1001 false; IN_THREAD quiet;
   IN_IRQ; IN_THREAD (isr_raises NETDEV2_EVENT_TX_COMPLETE); IN_THREAD quiet;
   IN_TIMER].

(** A beacon has been submitted and the retry layer asks for its
    transmission. *)
Definition beacon_submitted : state :=
  Eval vm_compute in
    state_of (run cfg_3_10
                (enable_dutycycle ++ [IN_TIMER; IN_THREAD quiet]) init).

(** * Properties *)

(** Reading a field of an updated state. *)
Ltac sstate :=
  cbv zeta in *;
  cbn [sleep_interval_shift dutycycling dutycycle_state timer pending_num
       radio_busy additional_wakeup retry_rexmit sending_beacon irq_pending
       beacon_pending pkt_queue mbox out
       set_sleep_interval_shift set_dutycycling set_dutycycle_state set_timer
       set_pending_num set_radio_busy set_additional_wakeup set_retry_rexmit
       set_sending_beacon set_irq_pending set_beacon_pending set_pkt_queue
       set_mbox set_out emit msg_send xtimer_set xtimer_remove
       reset_sleep_interval bind assert] in *.

(** ** Machine integers *)

Lemma u8_range z : 0 <= u8 z < 256.
Proof. unfold u8. apply Z.mod_pos_bound. lia. Qed.

Lemma u8_small z : 0 <= z < 256 -> u8 z = z.
Proof. intros H. unfold u8. apply Z.mod_small. exact H. Qed.

Lemma u32_small z : 0 <= z < 2 ^ 32 -> u32 z = z.
Proof. intros H. unfold u32. apply Z.mod_small. exact H. Qed.

Lemma u8_guard_never z : (u8 z <? 0) = false.
Proof. apply Z.ltb_ge. apply u8_range. Qed.

(** ** The timer callback in DUTY_SLEEP *)

(** C8. A timer expiry delivered while [dutycycle_state] is [DUTY_SLEEP]
    moves to [DUTY_TX_DATA_BEFORE_BEACON] when the queue holds a packet
    and to [DUTY_TX_BEACON] when it is empty; in both cases one EVENT
    message is posted to the MAC thread, and nothing else changes. *)
Theorem dutycycle_cb_sleep (cfg : config) (s : state) :
  dutycycle_state s = DUTY_SLEEP ->
  let s' := dutycycle_cb cfg s in
  dutycycle_state s' =
    (if pending_num s =? 0 then DUTY_TX_BEACON else DUTY_TX_DATA_BEFORE_BEACON)
  /\ mbox s' = mbox s ++ [M_EVENT]
  /\ pending_num s' = pending_num s
  /\ pkt_queue s' = pkt_queue s
  /\ radio_busy s' = radio_busy s
  /\ out s' = out s.
Proof.
  intros Hst. unfold dutycycle_cb. rewrite Hst.
  destruct (pending_num s =? 0); simpl; repeat split; reflexivity.
Qed.

(** ** TX_COMPLETE_PENDING *)

(** C9. On TX_COMPLETE_PENDING the callback always succeeds, clears
    [radio_busy] and resets [sleep_interval_shift]; in [DUTY_INIT] nothing
    else changes and no message is posted; in every other state the timer
    is removed, the state becomes [DUTY_LISTEN] and one EVENT message is
    posted. *)
Theorem tx_complete_pending_any_state (cfg : config) (o : cb_oracle) (s : state) :
  exists s',
    _event_cb cfg NETDEV2_EVENT_TX_COMPLETE_PENDING o s = Ok s'
    /\ radio_busy s' = false
    /\ sleep_interval_shift s' = 0
    /\ pending_num s' = pending_num s
    /\ pkt_queue s' = pkt_queue s
    /\ match dutycycle_state s with
       | DUTY_INIT =>
           dutycycle_state s' = DUTY_INIT
           /\ timer s' = timer s
           /\ mbox s' = mbox s
           /\ dutycycling s' = dutycycling s
           /\ additional_wakeup s' = additional_wakeup s
           /\ retry_rexmit s' = retry_rexmit s
           /\ sending_beacon s' = sending_beacon s
           /\ irq_pending s' = irq_pending s
           /\ beacon_pending s' = beacon_pending s
           /\ out s' = out s ++ [A_csma_send_succeeded; A_retry_send_succeeded]
       | _ =>
           dutycycle_state s' = DUTY_LISTEN
           /\ timer s' = None
           /\ mbox s' = mbox s ++ [M_EVENT]
       end.
Proof.
  unfold _event_cb. simpl.
  destruct (dutycycle_state s) eqn:Hst; simpl;
    eexists; (split; [reflexivity |]); simpl; rewrite ?Hst; repeat split;
    rewrite <- app_assoc; reflexivity.
Qed.

(** ** The FIFO queue *)

(** The loop runs to its end when no slot it copies is an unused one:
    every slot moves one place forward, the others keep their content. *)
Lemma shift_forward_full (n : nat) :
  forall (i : nat) (q : list msg_t),
    (i + n < length q)%nat ->
    (forall j m, (i < j <= i + n)%nat -> q !! j = Some m -> unused_slot m = false) ->
    exists q',
      shift_forward n i q = Ok q'
      /\ length q' = length q
      /\ (forall k, (i <= k < i + n)%nat -> q' !! k = q !! S k)
      /\ (forall k, (k < i \/ i + n <= k)%nat -> q' !! k = q !! k).
Proof.
  induction n as [|n IH]; intros i q Hlen Hused.
  - exists q. simpl. repeat split; intros; try reflexivity. lia.
  - simpl.
    destruct (lookup_lt_is_Some_2 q (S i)) as [m Hm]; [lia |].
    rewrite Hm.
    assert (Hu : unused_slot m = false) by (apply (Hused (S i)); [lia | exact Hm]).
    unfold unused_slot in Hu. rewrite Hu.
    destruct (IH (S i) (<[i:=m]> q)) as (q' & Hq' & Hl & Hin & Hout).
    + rewrite length_insert. lia.
    + intros j mj Hj Hlk. rewrite list_lookup_insert_ne in Hlk by lia.
      apply (Hused j); [lia | exact Hlk].
    + exists q'. split; [exact Hq' |]. split; [rewrite Hl; apply length_insert |].
      split.
      * intros k Hk. destruct (decide (k = i)) as [-> | Hne].
        -- rewrite Hout by lia. rewrite list_lookup_insert_eq by lia.
           symmetry. exact Hm.
        -- rewrite Hin by lia. apply list_lookup_insert_ne. lia.
      * intros k Hk. rewrite Hout by lia. apply list_lookup_insert_ne. lia.
Qed.

(** The loop stops without leaving the array when an unused slot lies
    within its reach. *)
Lemma shift_forward_break (n : nat) :
  forall (i j : nat) (q : list msg_t) (m : msg_t),
    (i < j <= i + n)%nat ->
    q !! j = Some m ->
    unused_slot m = true ->
    exists q', shift_forward n i q = Ok q'.
Proof.
  induction n as [|n IH]; intros i j q m Hj Hm Hu; [lia |].
  simpl.
  destruct (lookup_lt_is_Some_2 q (S i)) as [m' Hm'].
  { apply lookup_lt_Some in Hm. lia. }
  rewrite Hm'.
  destruct ((sender_pid m' =? 0) && (type m' =? 0)) eqn:Hu'; [eauto |].
  assert (j <> S i).
  { intros ->. rewrite Hm in Hm'. injection Hm' as ->.
    unfold unused_slot in Hu. congruence. }
  apply (IH (S i) j _ m); [lia | | exact Hu].
  rewrite list_lookup_insert_ne by lia. exact Hm.
Qed.

(** The guard [pending_num < 0] of [msg_queue_remove_head] is false for
    every value of the counter. *)
Lemma msg_queue_remove_head_no_report (s s' : state) :
  msg_queue_remove_head s = Ok s' ->
  exists hd, pkt_queue s !! 0%nat = Some hd
             /\ out s' = out s ++ [A_pktbuf_release (content_ptr hd)]
             /\ pending_num s' = u8 (pending_num s - 1).
Proof.
  unfold msg_queue_remove_head.
  destruct (pkt_queue s !! 0%nat) as [hd|]; [| discriminate].
  sstate. rewrite u8_guard_never. sstate.
  destruct (negb (u8 (pending_num s - 1) =? 0)).
  - destruct (shift_forward _ _ _); sstate; [| intros H; discriminate H].
    intros [= <-]. exists hd. sstate. auto.
  - intros [= <-]. exists hd. sstate. auto.
Qed.

(** C10. [msg_queue_remove_head] on an empty queue ([pending_num = 0]):
    the 8-bit counter wraps to 255, and the only call made is the release
    of slot 0; the branch guarded by [pending_num < 0] is not taken, so
    nothing reports the drop.  (The loop that follows stops at the first
    unused slot.)  And whatever the counter, a call that returns has made
    the release and nothing else: the guard is never taken. *)
Theorem msg_queue_remove_head_empty_wraps (s : state) (hd : msg_t) :
  pending_num s = 0 ->
  pkt_queue s !! 0%nat = Some hd ->
  (exists j m, (1 <= j <= 255)%nat /\ pkt_queue s !! j = Some m
               /\ unused_slot m = true) ->
  (exists s',
     msg_queue_remove_head s = Ok s'
     /\ pending_num s' = 255
     /\ out s' = out s ++ [A_pktbuf_release (content_ptr hd)])
  /\ (forall t t',
         msg_queue_remove_head t = Ok t' ->
         exists h, pkt_queue t !! 0%nat = Some h
                   /\ out t' = out t ++ [A_pktbuf_release (content_ptr h)]
                   /\ pending_num t' = u8 (pending_num t - 1)).
Proof.
  intros Hn Hhd (j & m & Hj & Hm & Hu).
  split; [| exact msg_queue_remove_head_no_report].
  unfold msg_queue_remove_head. rewrite Hhd. sstate.
  rewrite Hn. change (u8 (0 - 1)) with 255. cbn [Z.ltb Z.compare].
  sstate. cbn [Z.eqb negb].
  destruct (shift_forward_break (Z.to_nat 255) 0 j (pkt_queue s) m) as [q' Hq'];
    [lia | exact Hm | exact Hu |].
  rewrite Hq'. sstate. eexists. split; [reflexivity |]. sstate.
  repeat split.
Qed.


(** Dropping the head of a queue that holds a packet: the head's buffer
    is released and the slots behind it move one place forward. *)
Lemma msg_queue_remove_head_fifo (s : state) (hd : msg_t) :
  queue_holds s ->
  pkt_queue s !! 0%nat = Some hd ->
  exists q',
    msg_queue_remove_head s =
      Ok (set_pkt_queue q'
            (set_pending_num (pending_num s - 1)
               (emit (A_pktbuf_release (content_ptr hd)) s)))
    /\ length q' = 128%nat
    /\ (forall k : nat, (k < Z.to_nat (pending_num s - 1))%nat ->
                        q' !! k = pkt_queue s !! S k).
Proof.
  intros (Hlen & Hn & Hused) Hhd.
  unfold msg_queue_remove_head. rewrite Hhd. sstate.
  rewrite u8_guard_never. sstate.
  rewrite (u8_small (pending_num s - 1)) by lia.
  destruct (pending_num s - 1 =? 0) eqn:Hz; cbn [negb].
  - apply Z.eqb_eq in Hz. exists (pkt_queue s). rewrite Hz.
    split; [| split; [exact Hlen | intros k Hk; simpl in Hk; lia]].
    reflexivity.
  - apply Z.eqb_neq in Hz.
    destruct (shift_forward_full (Z.to_nat (pending_num s - 1)) 0 (pkt_queue s))
      as (q' & Hq' & Hl & Hin & _).
    + rewrite Hlen. lia.
    + intros j m Hj Hm. apply (Hused j); [lia | exact Hm].
    + rewrite Hq'. sstate. exists q'. split; [reflexivity |].
      split; [congruence |]. intros k Hk. apply Hin. lia.
Qed.

(** C7 (amended). REMOVE_QUEUE on a queue that holds a packet releases
    the head and moves the rest one place forward.  If packets remain,
    the new head is submitted when the submission policy holds, and
    nothing more happens otherwise.  If the queue became empty in
    [DUTY_TX_DATA_BEFORE_BEACON], the state becomes [DUTY_TX_BEACON] and
    the beacon is submitted when the policy holds, and recorded in
    [beacon_pending] otherwise.  If it became empty in [DUTY_TX_DATA],
    the state becomes [DUTY_SLEEP] and the radio is put to sleep. *)
Theorem handle_REMOVE_QUEUE_spec (o : oracle) (s : state) (hd : msg_t) :
  queue_holds s ->
  pkt_queue s !! 0%nat = Some hd ->
  exists s',
    handle_REMOVE_QUEUE o s = Ok s'
    /\ pending_num s' = pending_num s - 1
    /\ length (pkt_queue s') = 128%nat
    /\ (forall k : nat, (k < Z.to_nat (pending_num s - 1))%nat ->
                        pkt_queue s' !! k = pkt_queue s !! S k)
    /\ if pending_num s =? 1 then
         match dutycycle_state s with
         | DUTY_TX_DATA_BEFORE_BEACON =>
             dutycycle_state s' = DUTY_TX_BEACON
             /\ if may_submit o s then
                  radio_busy s' = true /\ sending_beacon s' = true
                  /\ beacon_pending s' = beacon_pending s
                  /\ out s' = out s ++ [A_pktbuf_release (content_ptr hd);
                                        A_send_with_retries NULL]
                else
                  beacon_pending s' = true /\ radio_busy s' = radio_busy s
                  /\ out s' = out s ++ [A_pktbuf_release (content_ptr hd)]
         | DUTY_TX_DATA =>
             dutycycle_state s' = DUTY_SLEEP
             /\ out s' = out s ++ [A_pktbuf_release (content_ptr hd);
                                   A_driver_set_state NETOPT_STATE_SLEEP]
         | _ =>
             dutycycle_state s' = dutycycle_state s
             /\ out s' = out s ++ [A_pktbuf_release (content_ptr hd)]
         end
       else
         dutycycle_state s' = dutycycle_state s
         /\ if may_submit o s then
              exists nh, pkt_queue s !! 1%nat = Some nh
                /\ radio_busy s' = true /\ sending_beacon s' = false
                /\ out s' = out s ++ [A_pktbuf_release (content_ptr hd);
                                      A_send_with_retries (content_ptr nh)]
            else
              radio_busy s' = radio_busy s
              /\ out s' = out s ++ [A_pktbuf_release (content_ptr hd)].
Proof.
  intros Hq Hhd.
  destruct (msg_queue_remove_head_fifo s hd Hq Hhd) as (q' & Hrm & Hl & Hfifo).
  destruct Hq as (Hlen & Hn & _).
  unfold handle_REMOVE_QUEUE. rewrite Hrm. sstate.
  unfold may_submit, send_beacon_safely. sstate.
  destruct (pending_num s =? 1) eqn:H1.
  - apply Z.eqb_eq in H1. rewrite H1. change (1 - 1) with 0. cbn [Z.eqb negb].
    destruct (dutycycle_state s) eqn:Hst; cbn [dutycycle_state_eqb];
      destruct (radio_busy s) eqn:Hb; destruct (irq_pending s) eqn:Hi;
      destruct (rx o) eqn:Hr; cbn [orb negb andb];
      (eexists; split; [reflexivity |]; sstate; rewrite <- ?app_assoc;
       repeat split; try assumption; intros k Hk; simpl in Hk; lia).
  - apply Z.eqb_neq in H1.
    assert (Hz : (pending_num s - 1 =? 0) = false) by (apply Z.eqb_neq; lia).
    rewrite Hz. cbn [negb].
    destruct (negb (radio_busy s) && negb (irq_pending s) && negb (rx o)) eqn:Hpol.
    + unfold msg_queue_send. sstate.
      destruct (lookup_lt_is_Some_2 (pkt_queue s) 1) as [nh Hnh]; [lia |].
      rewrite (Hfifo 0%nat) by lia. rewrite Hnh. sstate.
      eexists. split; [reflexivity |]. sstate. rewrite <- app_assoc.
      repeat split; try assumption. exists nh. repeat split.
    + eexists. split; [reflexivity |]. sstate. repeat split; assumption.
Qed.

(** ** Final TX failures *)

(** C6 (amended). On a final TX failure the callback clears [radio_busy],
    releases nothing and replies to nobody (its only calls are the two
    helper notifications), leaves [sleep_interval_shift] as it is, and
    changes [dutycycle_state], the timer and the mailbox exactly as
    TX_COMPLETE does from the same state: a beacon goes to [DUTY_SLEEP]
    with an EVENT message, a data frame has REMOVE_QUEUE posted. *)
Theorem tx_failure_final_like_tx_complete
    (cfg : config) (ev : netdev2_event_t) (o : cb_oracle) (s s1 : state) :
  terminal_failure ev o ->
  _event_cb cfg NETDEV2_EVENT_TX_COMPLETE o s = Ok s1 ->
  exists s2,
    _event_cb cfg ev o s = Ok s2
    /\ radio_busy s2 = false
    /\ dutycycle_state s2 = dutycycle_state s1
    /\ timer s2 = timer s1
    /\ mbox s2 = mbox s1
    /\ pending_num s2 = pending_num s /\ pkt_queue s2 = pkt_queue s
    /\ sleep_interval_shift s2 = sleep_interval_shift s
    /\ out s2 = out s ++ failure_notices ev
    /\ match dutycycle_state s with
       | DUTY_INIT => dutycycle_state s2 = DUTY_INIT /\ mbox s2 = mbox s
       | DUTY_TX_BEACON =>
           dutycycle_state s2 = DUTY_SLEEP /\ mbox s2 = mbox s ++ [M_EVENT]
           /\ timer s2 = None
       | st =>
           dutycycle_state s2 = st
           /\ mbox s2 = mbox s ++
                (if pending_num s >? 0 then [M_REMOVE_QUEUE]
                 else match st with DUTY_TX_DATA => [M_EVENT] | _ => [] end)
       end.
Proof.
  intros [Hr Hev] Hok.
  unfold _event_cb in Hok. sstate.
  assert (Hfin : exists s2,
             tx_failed_final (emit A_retry_send_failed
                                (emit (hd A_csma_send_failed (failure_notices ev)) s))
             = Ok s2
             /\ radio_busy s2 = false
             /\ dutycycle_state s2 = dutycycle_state s1
             /\ timer s2 = timer s1
             /\ mbox s2 = mbox s1
             /\ pending_num s2 = pending_num s /\ pkt_queue s2 = pkt_queue s
             /\ sleep_interval_shift s2 = sleep_interval_shift s
             /\ out s2 = (out s ++ [hd A_csma_send_failed (failure_notices ev)])
                         ++ [A_retry_send_failed]
             /\ match dutycycle_state s with
                | DUTY_INIT => dutycycle_state s2 = DUTY_INIT /\ mbox s2 = mbox s
                | DUTY_TX_BEACON =>
                    dutycycle_state s2 = DUTY_SLEEP
                    /\ mbox s2 = mbox s ++ [M_EVENT] /\ timer s2 = None
                | st =>
                    dutycycle_state s2 = st
                    /\ mbox s2 = mbox s ++
                         (if pending_num s >? 0 then [M_REMOVE_QUEUE]
                          else match st with DUTY_TX_DATA => [M_EVENT] | _ => [] end)
                end).
  { unfold tx_failed_final. sstate. unfold backoff_sleep_interval in Hok.
    destruct (dutycycle_state s) eqn:Hst; cbn [dutycycle_state_eqb negb] in *; sstate;
      rewrite ?Hst in *; cbn [dutycycle_state_eqb negb] in *; sstate;
      try destruct (pending_num s >? 0) eqn:Hp; sstate;
      try destruct (shifted_interval _ _ <? _); sstate;
      try destruct (_ >=? _); sstate;
      try discriminate Hok;
      injection Hok as <-; eexists; (split; [reflexivity |]); sstate;
      rewrite ?app_nil_r; repeat split; assumption. }
  destruct Hfin as (s2 & Hs2 & Hrest).
  exists s2. split.
  - unfold _event_cb, tx_noack_tail.
    destruct Hev as [-> | [-> Hc]]; sstate; rewrite ?Hc, Hr; exact Hs2.
  - destruct Hrest as (? & ? & ? & ? & ? & ? & ? & Hout & ?).
    repeat split; try assumption.
    rewrite Hout, <- app_assoc.
    destruct Hev as [-> | [-> Hc]]; reflexivity.
Qed.

(** ** Enqueueing on NETAPI SND *)

(** After [msg_queue_add], the SND case either leaves the state alone or
    calls [msg_queue_send]; it makes no other call. *)
Lemma handle_SND_calls (cfg : config) (sender pkt : Z) (o : oracle) (s : state) :
  pkt_queue s <> [] ->
  exists s',
    handle_SND cfg sender pkt o s = Ok s'
    /\ pkt_queue s' = pkt_queue (snd (msg_queue_add
                         {| sender_pid := sender;
                            type := GNRC_NETAPI_MSG_TYPE_SND cfg;
                            content_ptr := pkt |} s))
    /\ pending_num s' = pending_num (snd (msg_queue_add
                         {| sender_pid := sender;
                            type := GNRC_NETAPI_MSG_TYPE_SND cfg;
                            content_ptr := pkt |} s))
    /\ mbox s' = mbox s
    /\ forall a, In a (out s') ->
                 In a (out s) \/ a = A_DEBUG DBG_QUEUE_LOSS
                 \/ exists p, a = A_send_with_retries p.
Proof.
  intros Hne. unfold handle_SND.
  set (s1 := snd (msg_queue_add _ s)).
  assert (Hq1 : exists hd, pkt_queue s1 !! 0%nat = Some hd).
  { apply lookup_lt_is_Some_2. subst s1. unfold msg_queue_add.
    destruct (pending_num s <? NETDEV2_PKT_QUEUE_SIZE); sstate; cbn [snd]; sstate;
      rewrite ?length_insert; destruct (pkt_queue s); simpl; [congruence | lia | congruence | lia]. }
  assert (Ho1 : forall a, In a (out s1) -> In a (out s) \/ a = A_DEBUG DBG_QUEUE_LOSS).
  { subst s1. unfold msg_queue_add.
    destruct (pending_num s <? NETDEV2_PKT_QUEUE_SIZE); cbn [snd]; sstate;
      intros a; rewrite ?in_app_iff; simpl; intuition auto. }
  assert (Hm1 : mbox s1 = mbox s).
  { subst s1. unfold msg_queue_add.
    destruct (pending_num s <? NETDEV2_PKT_QUEUE_SIZE); reflexivity. }
  destruct Hq1 as [hd Hhd]. unfold msg_queue_send. sstate. rewrite Hhd.
  destruct (dutycycle_state_eqb (dutycycle_state s1) DUTY_INIT);
    [| destruct ((pending_num s1 >? 1) || radio_busy s1);
       [| destruct (may_submit o s1 && dutycycle_state_eqb (dutycycle_state s1) DUTY_SLEEP)]];
    eexists; (split; [reflexivity |]); sstate; repeat split; try assumption;
    intros a; rewrite ?in_app_iff; simpl;
    intros Ha; try (destruct Ha as [Ha | [<- | []]]; [| eauto]);
    destruct (Ho1 a Ha); auto.
Qed.

(** C4 (amended). [msg_queue_add] on a full queue ([pending_num] is 128)
    stores nothing, releases nothing, leaves the queue as it is and
    returns 0; below 128 it writes the message into slot [pending_num],
    increments [pending_num] and returns 1.  The SND case of the thread
    drops that return value: it makes no [msg_reply] and no release, so
    neither the overflow nor the success reaches the sender. *)
Theorem snd_enqueue_result_dropped
    (cfg : config) (sender pkt : Z) (o : oracle) (s : state) :
  length (pkt_queue s) = 128%nat ->
  0 <= pending_num s <= 128 ->
  let msg := {| sender_pid := sender; type := GNRC_NETAPI_MSG_TYPE_SND cfg;
                content_ptr := pkt |} in
  let r := msg_queue_add msg s in
  (if pending_num s <? 128 then
     fst r = 1
     /\ pending_num (snd r) = pending_num s + 1
     /\ pkt_queue (snd r) !! Z.to_nat (pending_num s) = Some msg
     /\ (forall k : nat, k <> Z.to_nat (pending_num s) ->
                         pkt_queue (snd r) !! k = pkt_queue s !! k)
     /\ out (snd r) = out s
   else
     fst r = 0
     /\ pending_num (snd r) = pending_num s
     /\ pkt_queue (snd r) = pkt_queue s
     /\ out (snd r) = out s ++ [A_DEBUG DBG_QUEUE_LOSS])
  /\ exists s',
       handle_SND cfg sender pkt o s = Ok s'
       /\ pkt_queue s' = pkt_queue (snd r)
       /\ pending_num s' = pending_num (snd r)
       /\ forall a, In a (out s') ->
                    In a (out s) \/ a = A_DEBUG DBG_QUEUE_LOSS
                    \/ exists p, a = A_send_with_retries p.
Proof.
  intros Hlen Hn msg r. split.
  - subst r. unfold msg_queue_add, NETDEV2_PKT_QUEUE_SIZE.
    destruct (pending_num s <? 128) eqn:Hlt; cbn [fst snd]; sstate.
    + apply Z.ltb_lt in Hlt. repeat split.
      * apply u8_small. lia.
      * apply list_lookup_insert_eq. lia.
      * intros k Hk. apply list_lookup_insert_ne. congruence.
    + repeat split.
  - destruct (handle_SND_calls cfg sender pkt o s) as (s' & H1 & H2 & H3 & _ & H4).
    + intros Hnil. rewrite Hnil in Hlen. discriminate Hlen.
    + exists s'. auto.
Qed.

(** ** Who changes [sleep_interval_shift] *)

(** Case analysis on the run of a handler that returned [Ok]. *)
Ltac run_cases :=
  repeat (sstate;
          match goal with
          | H : Fault _ = Ok _ |- _ => discriminate H
          | H : context [bind ?r _] |- _ => destruct r eqn:?
          | H : context [match ?x with _ => _ end] |- _ => destruct x eqn:?
          | H : Ok _ = Ok _ |- _ => injection H as <-
          end);
  sstate.

Lemma msg_queue_remove_head_shift (s s' : state) :
  msg_queue_remove_head s = Ok s' ->
  sleep_interval_shift s' = sleep_interval_shift s.
Proof.
  unfold msg_queue_remove_head.
  destruct (pkt_queue s !! 0%nat); [| intros H; discriminate H].
  sstate. rewrite u8_guard_never. intros H. run_cases; reflexivity.
Qed.

Lemma msg_queue_send_shift (s s' : state) :
  msg_queue_send s = Ok s' ->
  sleep_interval_shift s' = sleep_interval_shift s.
Proof.
  unfold msg_queue_send. intros H. run_cases; reflexivity.
Qed.

Lemma tx_failed_final_shift (s s' : state) :
  tx_failed_final s = Ok s' ->
  sleep_interval_shift s' = sleep_interval_shift s.
Proof.
  unfold tx_failed_final. intros H. run_cases; reflexivity.
Qed.

(** The three ways [_event_cb] can leave [sleep_interval_shift]: as it
    was, reset to 0, or incremented by [backoff_sleep_interval], which
    happens on TX_COMPLETE in [DUTY_TX_BEACON] only, and only while the
    shifted interval is below the maximum and doubling it does not
    overflow. *)
Lemma _event_cb_shift (cfg : config) (ev : netdev2_event_t) (o : cb_oracle)
    (s s' : state) :
  _event_cb cfg ev o s = Ok s' ->
  sleep_interval_shift s' = sleep_interval_shift s
  \/ sleep_interval_shift s' = 0
  \/ (ev = NETDEV2_EVENT_TX_COMPLETE
      /\ dutycycle_state s = DUTY_TX_BEACON
      /\ shifted_interval cfg s < DUTYCYCLE_SLEEP_INTERVAL_MAX cfg
      /\ u32 (Z.shiftl (shifted_interval cfg s) 1) >= shifted_interval cfg s
      /\ sleep_interval_shift s' = u8 (sleep_interval_shift s + 1)).
Proof.
  intros H. destruct ev; unfold _event_cb in H.
  - run_cases; auto.
  - run_cases; auto.
  - unfold _pass_on_packet in H. run_cases; auto.
  - run_cases; auto.
  - sstate.
    destruct (dutycycle_state s) eqn:Hst; cbn [dutycycle_state_eqb negb] in H;
      try (run_cases; auto; fail).
    unfold backoff_sleep_interval, shifted_interval in *. sstate.
    destruct (u32 (Z.shiftl (DUTYCYCLE_SLEEP_INTERVAL_MIN cfg) (sleep_interval_shift s))
              <? DUTYCYCLE_SLEEP_INTERVAL_MAX cfg) eqn:Hlt; sstate.
    + destruct (u32 (Z.shiftl (u32 (Z.shiftl (DUTYCYCLE_SLEEP_INTERVAL_MIN cfg)
                                       (sleep_interval_shift s))) 1)
                >=? u32 (Z.shiftl (DUTYCYCLE_SLEEP_INTERVAL_MIN cfg)
                                  (sleep_interval_shift s))) eqn:Hge; sstate;
        [| discriminate H].
      injection H as <-. sstate. right. right.
      apply Z.ltb_lt in Hlt. apply Z.geb_le in Hge. repeat split; auto. lia.
    + injection H as <-. auto.
  - unfold tx_noack_tail in H. sstate.
    destruct (csma_will_retry o); [injection H as <-; auto |].
    destruct (retry_will_retry o); [injection H as <-; auto |].
    apply tx_failed_final_shift in H. auto.
  - unfold tx_noack_tail in H. sstate.
    destruct (retry_will_retry o); [injection H as <-; auto |].
    apply tx_failed_final_shift in H. auto.
  - run_cases; auto.
Qed.

Lemma dutycycle_cb_shift (cfg : config) (s : state) :
  sleep_interval_shift (dutycycle_cb cfg s) = sleep_interval_shift s.
Proof.
  unfold dutycycle_cb.
  destruct (dutycycle_state s); sstate; try reflexivity;
    match goal with |- context [if ?b then _ else _] => destruct b end;
    reflexivity.
Qed.

Lemma send_beacon_safely_shift (o : oracle) (s : state) :
  sleep_interval_shift (send_beacon_safely o s) = sleep_interval_shift s.
Proof.
  unfold send_beacon_safely.
  destruct (radio_busy s || irq_pending s || rx o); reflexivity.
Qed.

(** Every message but NETDEV2_MSG_TYPE_EVENT is handled without touching
    [sleep_interval_shift]. *)
Lemma thread_dispatch_shift (cfg : config) (m : mac_msg) (o : oracle) (s s' : state) :
  m <> M_NETDEV_EVENT ->
  thread_dispatch cfg m o s = Ok s' ->
  sleep_interval_shift s' = sleep_interval_shift s.
Proof.
  intros Hm H. destruct m; [| | | congruence | | | | |]; cbn [thread_dispatch] in H.
  - unfold handle_EVENT in H.
    destruct (dutycycling s); [injection H as <-; reflexivity |].
    destruct (dutycycle_state s); sstate;
      try (injection H as <-; sstate; rewrite ?send_beacon_safely_shift; reflexivity).
    destruct (may_submit o _); [| injection H as <-; reflexivity].
    apply msg_queue_send_shift in H. exact H.
  - unfold handle_REMOVE_QUEUE in H.
    destruct (msg_queue_remove_head s) as [s1|] eqn:Hrm; [| discriminate H].
    apply msg_queue_remove_head_shift in Hrm. sstate. rewrite <- Hrm.
    destruct (negb (pending_num s1 =? 0)).
    + destruct (may_submit o s1); [| injection H as <-; reflexivity].
      apply msg_queue_send_shift in H. exact H.
    + destruct (dutycycle_state_eqb (dutycycle_state s1) DUTY_TX_DATA_BEFORE_BEACON).
      * injection H as <-. rewrite send_beacon_safely_shift. reflexivity.
      * destruct (dutycycle_state_eqb (dutycycle_state s1) DUTY_TX_DATA);
          injection H as <-; reflexivity.
  - unfold handle_CHECK_QUEUE in H.
    destruct (_ && _ && _); [| injection H as <-; reflexivity].
    apply msg_queue_send_shift in H. rewrite H.
    destruct (dutycycle_state_eqb (dutycycle_state s) DUTY_SLEEP); reflexivity.
  - unfold handle_SND in H.
    set (s1 := snd (msg_queue_add _ s)) in H.
    assert (H1 : sleep_interval_shift s1 = sleep_interval_shift s).
    { subst s1. unfold msg_queue_add.
      destruct (pending_num s <? NETDEV2_PKT_QUEUE_SIZE); reflexivity. }
    rewrite <- H1.
    destruct (dutycycle_state_eqb (dutycycle_state s1) DUTY_INIT).
    + apply msg_queue_send_shift in H. exact H.
    + destruct ((pending_num s1 >? 1) || radio_busy s1);
        [injection H as <-; reflexivity |].
      destruct (may_submit o s1 && _); [| injection H as <-; reflexivity].
      apply msg_queue_send_shift in H. exact H.
  - unfold handle_SET in H. injection H as <-.
    destruct req as [[] |]; reflexivity.
  - unfold handle_GET in H. injection H as <-. reflexivity.
  - unfold handle_LINK_RETRANSMIT in H.
    destruct (negb (irq_pending s) && negb (rx o)).
    + destruct (drv_res o <? 0).
      * unfold _event_cb, tx_noack_tail in H. sstate.
        destruct (sending_beacon s), (retry_rexmit s), (csma_will_retry (cb o)),
          (retry_will_retry (cb o)); sstate;
          try (injection H as <-; reflexivity);
          (destruct (tx_failed_final _) as [s1|] eqn:Hf; [| discriminate H]);
          sstate; injection H as <-; apply tx_failed_final_shift in Hf; exact Hf.
      * sstate. injection H as <-.
        destruct (sending_beacon s), (retry_rexmit s); reflexivity.
    + sstate. injection H as <-. reflexivity.
  - injection H as <-. reflexivity.
Qed.

(** NETDEV2_MSG_TYPE_EVENT changes [sleep_interval_shift] only inside the
    [_event_cb] calls the driver makes from [isr]. *)
Lemma handle_NETDEV_EVENT_shift (cfg : config) (o : oracle) (s s' : state) :
  handle_NETDEV_EVENT cfg o s = Ok s' ->
  exists s1,
    driver_isr cfg (isr_events o) (set_irq_pending false s) = Ok s1
    /\ sleep_interval_shift s' = sleep_interval_shift s1.
Proof.
  unfold handle_NETDEV_EVENT. intros H. sstate.
  destruct (driver_isr cfg (isr_events o) (set_irq_pending false s)) as [s1|];
    [| discriminate H].
  sstate. injection H as <-. exists s1. split; [reflexivity |].
  destruct (beacon_pending s1 && negb (radio_busy s1)); reflexivity.
Qed.

Lemma get_sleep_interval_le_max (cfg : config) (s : state) :
  get_sleep_interval cfg s <= DUTYCYCLE_SLEEP_INTERVAL_MAX cfg.
Proof.
  unfold get_sleep_interval. sstate.
  destruct (shifted_interval cfg s >? DUTYCYCLE_SLEEP_INTERVAL_MAX cfg) eqn:H.
  - lia.
  - rewrite Z.gtb_ltb in H. apply Z.ltb_ge in H. exact H.
Qed.

(** C2 (amended). [sleep_interval_shift] is incremented only by
    [_event_cb] on TX_COMPLETE while [dutycycle_state] is
    [DUTY_TX_BEACON], whatever the queue holds, and only while the shifted
    interval is below [DUTYCYCLE_SLEEP_INTERVAL_MAX]; any other change
    [_event_cb] makes is the reset to 0.  The timer callback,
    [send_packet] and the handlers of all messages other than
    NETDEV2_MSG_TYPE_EVENT leave it alone, and that handler changes it
    only through the [_event_cb] calls of the driver's [isr].  The
    interval actually slept, [get_sleep_interval], never exceeds the
    maximum. *)
Theorem backoff_only_on_beacon_tx_complete (cfg : config) :
  (forall ev o s s',
      _event_cb cfg ev o s = Ok s' ->
      sleep_interval_shift s' = sleep_interval_shift s
      \/ sleep_interval_shift s' = 0
      \/ (ev = NETDEV2_EVENT_TX_COMPLETE
          /\ dutycycle_state s = DUTY_TX_BEACON
          /\ shifted_interval cfg s < DUTYCYCLE_SLEEP_INTERVAL_MAX cfg
          /\ sleep_interval_shift s' = u8 (sleep_interval_shift s + 1)))
  /\ (forall s, sleep_interval_shift (dutycycle_cb cfg s) = sleep_interval_shift s)
  /\ (forall pkt rexmit s,
         sleep_interval_shift (send_packet pkt rexmit s) = sleep_interval_shift s)
  /\ (forall m o s s',
         m <> M_NETDEV_EVENT ->
         thread_dispatch cfg m o s = Ok s' ->
         sleep_interval_shift s' = sleep_interval_shift s)
  /\ (forall o s s',
         handle_NETDEV_EVENT cfg o s = Ok s' ->
         exists s1,
           driver_isr cfg (isr_events o) (set_irq_pending false s) = Ok s1
           /\ sleep_interval_shift s' = sleep_interval_shift s1)
  /\ (forall s, get_sleep_interval cfg s <= DUTYCYCLE_SLEEP_INTERVAL_MAX cfg).
Proof.
  split; [| split; [| split; [| split; [| split]]]].
  - intros ev o s s' H.
    destruct (_event_cb_shift cfg ev o s s' H) as [E | [E | (E1 & E2 & E3 & _ & E5)]];
      [left; exact E | right; left; exact E | right; right; repeat split; assumption].
  - apply dutycycle_cb_shift.
  - reflexivity.
  - apply thread_dispatch_shift.
  - apply handle_NETDEV_EVENT_shift.
  - apply get_sleep_interval_le_max.
Qed.

(** ** The bound on [sleep_interval_shift] *)

Lemma shift_inv_same (cfg : config) (s s' : state) :
  sleep_interval_shift s' = sleep_interval_shift s ->
  shift_inv cfg s -> shift_inv cfg s'.
Proof. unfold shift_inv. intros ->. auto. Qed.

Lemma shift_inv_reset (cfg : config) (s : state) :
  sleep_interval_shift s = 0 -> shift_inv cfg s.
Proof. unfold shift_inv. intros ->. split; [lia | auto]. Qed.

Lemma pow2_lt_32 (n : Z) : 0 <= n -> 2 ^ n < 2 ^ 32 -> n < 32.
Proof.
  intros Hn H. apply (Z.pow_lt_mono_r_iff 2); [lia | lia | exact H].
Qed.

(** [backoff_sleep_interval] keeps the invariant: its guard and its
    overflow assertion are what the invariant asks of the next shift. *)
Lemma shift_inv_backoff (cfg : config) (s s' : state) :
  0 < DUTYCYCLE_SLEEP_INTERVAL_MIN cfg < 2 ^ 32 ->
  shift_inv cfg s ->
  shifted_interval cfg s < DUTYCYCLE_SLEEP_INTERVAL_MAX cfg ->
  u32 (Z.shiftl (shifted_interval cfg s) 1) >= shifted_interval cfg s ->
  sleep_interval_shift s' = u8 (sleep_interval_shift s + 1) ->
  shift_inv cfg s'.
Proof.
  unfold shift_inv, shifted_interval.
  set (mn := DUTYCYCLE_SLEEP_INTERVAL_MIN cfg).
  set (mx := DUTYCYCLE_SLEEP_INTERVAL_MAX cfg).
  set (n := sleep_interval_shift s).
  intros Hmin [Hn Hinv] Hlt Hge Hs'.
  rewrite (Z.shiftl_mul_pow2 mn n Hn) in Hlt, Hge.
  assert (Hx : mn * 2 ^ n < 2 ^ 32).
  { destruct Hinv as [-> | [_ H]]; [simpl; lia | exact H]. }
  assert (Hp : 0 < 2 ^ n) by (apply Z.pow_pos_nonneg; lia).
  assert (Hx0 : 0 < mn * 2 ^ n) by nia.
  rewrite (u32_small (mn * 2 ^ n)) in Hlt, Hge by lia.
  rewrite Z.shiftl_mul_pow2 in Hge by lia. change (2 ^ 1) with 2 in Hge.
  assert (H2x : mn * 2 ^ n * 2 < 2 ^ 32).
  { destruct (Z_lt_ge_dec (mn * 2 ^ n * 2) (2 ^ 32)) as [Hs | Hb]; [exact Hs |].
    exfalso.
    assert (Hw : u32 (mn * 2 ^ n * 2) = mn * 2 ^ n * 2 - 2 ^ 32).
    { unfold u32. symmetry. apply Z.mod_unique with (q := 1); lia. }
    rewrite Hw in Hge. lia. }
  assert (Hn32 : n < 32).
  { apply pow2_lt_32; [exact Hn |]. nia. }
  rewrite u8_small in Hs' by lia. rewrite Hs'.
  split; [lia |]. right.
  replace (n + 1 - 1) with n by lia.
  rewrite Z.pow_add_r by lia. change (2 ^ 1) with 2.
  split; lia.
Qed.

Lemma _event_cb_inv (cfg : config) (ev : netdev2_event_t) (o : cb_oracle)
    (s s' : state) :
  0 < DUTYCYCLE_SLEEP_INTERVAL_MIN cfg < 2 ^ 32 ->
  shift_inv cfg s ->
  _event_cb cfg ev o s = Ok s' ->
  shift_inv cfg s'.
Proof.
  intros Hmin Hinv H.
  destruct (_event_cb_shift cfg ev o s s' H) as [E | [E | (_ & _ & E3 & E4 & E5)]].
  - exact (shift_inv_same cfg s s' E Hinv).
  - exact (shift_inv_reset cfg s' E).
  - exact (shift_inv_backoff cfg s s' Hmin Hinv E3 E4 E5).
Qed.

Lemma driver_isr_inv (cfg : config) (evs : list (netdev2_event_t * cb_oracle)) :
  0 < DUTYCYCLE_SLEEP_INTERVAL_MIN cfg < 2 ^ 32 ->
  forall s s', shift_inv cfg s -> driver_isr cfg evs s = Ok s' -> shift_inv cfg s'.
Proof.
  intros Hmin. induction evs as [| [e o] evs IH]; intros s s' Hinv H; simpl in H.
  - injection H as <-. exact Hinv.
  - destruct (_event_cb cfg e o s) as [s1|] eqn:He; [| discriminate H].
    simpl in H. apply (IH s1 s'); [| exact H].
    exact (_event_cb_inv cfg e o s s1 Hmin Hinv He).
Qed.

Lemma step_inv (cfg : config) (i : input) (s s' : state) :
  0 < DUTYCYCLE_SLEEP_INTERVAL_MIN cfg < 2 ^ 32 ->
  shift_inv cfg s ->
  step cfg i s = Ok s' ->
  shift_inv cfg s'.
Proof.
  intros Hmin Hinv H. destruct i; cbn [step] in H.
  - destruct (timer s); injection H as <-; [| exact Hinv].
    apply (shift_inv_same cfg s); [| exact Hinv].
    rewrite dutycycle_cb_shift. reflexivity.
  - exact (_event_cb_inv cfg _ _ s s' Hmin Hinv H).
  - injection H as <-. exact Hinv.
  - injection H as <-. exact Hinv.
  - injection H as <-. exact Hinv.
  - injection H as <-. exact Hinv.
  - destruct (mbox s) as [| m rest]; [injection H as <-; exact Hinv |].
    assert (Hcase : m = M_NETDEV_EVENT \/ m <> M_NETDEV_EVENT)
      by (destruct m; (left; reflexivity) || (right; discriminate)).
    destruct Hcase as [-> | Hm].
    + cbn [thread_dispatch] in H.
      destruct (handle_NETDEV_EVENT_shift cfg o _ s' H) as (s1 & Hisr & Hs1).
      apply (shift_inv_same cfg s1); [exact Hs1 |].
      apply (driver_isr_inv cfg (isr_events o) Hmin
               (set_irq_pending false (set_mbox rest s)) s1); [| exact Hisr].
      exact Hinv.
    + apply (shift_inv_same cfg s); [| exact Hinv].
      exact (thread_dispatch_shift cfg m o _ s' Hm H).
Qed.

Lemma run_inv (cfg : config) (ins : list input) :
  0 < DUTYCYCLE_SLEEP_INTERVAL_MIN cfg < 2 ^ 32 ->
  forall s s', shift_inv cfg s -> run cfg ins s = Ok s' -> shift_inv cfg s'.
Proof.
  intros Hmin. induction ins as [| i ins IH]; intros s s' Hinv H; simpl in H.
  - injection H as <-. exact Hinv.
  - destruct (step cfg i s) as [s1|] eqn:Hs; [| discriminate H].
    simpl in H. apply (IH s1 s'); [| exact H].
    exact (step_inv cfg i s s1 Hmin Hinv Hs).
Qed.

(** C5 (amended). With [K] the exponent such that
    [(MIN << K) <= MAX < (MIN << (K+1))], every reachable state has
    [sleep_interval_shift] in [[0, K+1]], and in [[0, K]] when
    [MAX = MIN << K] exactly: [backoff_sleep_interval] stops at the first
    shift whose interval is not below the maximum. *)
Theorem sleep_interval_shift_bound (cfg : config) (K : Z) (s : state) :
  0 < DUTYCYCLE_SLEEP_INTERVAL_MIN cfg < 2 ^ 32 ->
  0 <= K ->
  Z.shiftl (DUTYCYCLE_SLEEP_INTERVAL_MIN cfg) K <= DUTYCYCLE_SLEEP_INTERVAL_MAX cfg ->
  DUTYCYCLE_SLEEP_INTERVAL_MAX cfg < Z.shiftl (DUTYCYCLE_SLEEP_INTERVAL_MIN cfg) (K + 1) ->
  reachable cfg s ->
  0 <= sleep_interval_shift s <= K + 1
  /\ (DUTYCYCLE_SLEEP_INTERVAL_MAX cfg = Z.shiftl (DUTYCYCLE_SLEEP_INTERVAL_MIN cfg) K ->
      sleep_interval_shift s <= K).
Proof.
  intros Hmin HK Hlo Hhi [ins Hrun].
  rewrite Z.shiftl_mul_pow2 in Hlo by lia.
  rewrite Z.shiftl_mul_pow2 in Hhi by lia.
  assert (Hinv : shift_inv cfg s).
  { apply (run_inv cfg ins Hmin init s); [| exact Hrun].
    apply shift_inv_reset. reflexivity. }
  destruct Hinv as [Hn [Hz | [Hprev _]]].
  - rewrite Hz. split; [lia |]. intros _. lia.
  - set (n := sleep_interval_shift s) in *.
    destruct (Z_lt_ge_dec (n - 1) 0) as [Hneg | Hn1];
      [split; [lia | intros _; lia] |].
    assert (Hmn : 0 < DUTYCYCLE_SLEEP_INTERVAL_MIN cfg) by lia.
    split.
    + split; [lia |].
      assert (H : 2 ^ (n - 1) < 2 ^ (K + 1)) by nia.
      apply Z.pow_lt_mono_r_iff in H; lia.
    + intros Heq. rewrite Z.shiftl_mul_pow2 in Heq by lia.
      assert (H : 2 ^ (n - 1) < 2 ^ K) by nia.
      apply Z.pow_lt_mono_r_iff in H; lia.
Qed.

(** ** C1: the submission policy *)

(** C1 (negative). In [DUTY_INIT] the SND case calls [msg_queue_send]
    without looking at [radio_busy]: two packets sent one after the other
    give two submissions, the second while [radio_busy] is true and with
    no TX event in between.  And the relaunch of a pending beacon after
    NETDEV2_MSG_TYPE_EVENT does not ask [is_receiving]: the beacon is
    submitted while the radio is receiving. *)
Theorem snd_in_init_submits_while_busy :
  (exists s1 s2,
     run cfg_3_10 [IN_SND 5 1001; IN_THREAD quiet] init = Ok s1
     /\ dutycycle_state s1 = DUTY_INIT
     /\ radio_busy s1 = true
     /\ out s1 = [A_send_with_retries 1001]
     /\ run cfg_3_10 [IN_SND 5 1002; IN_THREAD quiet] s1 = Ok s2
     /\ radio_busy s2 = true
     /\ out s2 = [A_send_with_retries 1001; A_send_with_retries 1001])
  /\ (exists s1 s2,
        run cfg_3_10 [IN_THREAD quiet; IN_THREAD quiet] drained_irq_pending = Ok s1
        /\ beacon_pending s1 = true
        /\ hd_error (mbox s1) = Some M_NETDEV_EVENT
        /\ rx receiving = true
        /\ step cfg_3_10 (IN_THREAD receiving) s1 = Ok s2
        /\ out s2 = out s1 ++ [A_send_with_retries NULL]).
Proof.
  split.
  - eexists. eexists.
    split; [vm_compute; reflexivity |].
    repeat split.
  - eexists. eexists.
    split; [vm_compute; reflexivity |].
    repeat split.
Qed.

(** ** C3: disabling duty-cycling *)

(** C3 (negative). After SET(DUTYCYCLE = disable) has been handled the
    state is [DUTY_INIT] and the timer is disarmed; an RX_COMPLETE raised
    by the driver then arms the timer and moves to [DUTY_TX_DATA] (to
    [DUTY_SLEEP] when the queue is empty): the RX_COMPLETE case has no
    [DUTY_INIT] guard. *)
Theorem rx_complete_leaves_init :
  reachable cfg_3_10 disabled_one_queued
  /\ dutycycling disabled_one_queued = NETOPT_DISABLE
  /\ dutycycle_state disabled_one_queued = DUTY_INIT
  /\ timer disabled_one_queued = None
  /\ (exists s',
        run cfg_3_10 [IN_IRQ; IN_THREAD (isr_raises NETDEV2_EVENT_RX_COMPLETE)]
          disabled_one_queued = Ok s'
        /\ dutycycle_state s' = DUTY_TX_DATA
        /\ timer s' = Some 3)
  /\ (exists s0 s',
        run cfg_3_10 [IN_SET 5 (SET_DUTYCYCLE NETOPT_DISABLE); IN_THREAD quiet]
          init = Ok s0
        /\ dutycycle_state s0 = DUTY_INIT
        /\ run cfg_3_10 [IN_IRQ; IN_THREAD (isr_raises NETDEV2_EVENT_RX_COMPLETE)]
             s0 = Ok s'
        /\ dutycycle_state s' = DUTY_SLEEP).
Proof.
  split.
  { exists [IN_SND 5 1001; IN_THREAD quiet;
            IN_SET 5 (SET_DUTYCYCLE NETOPT_DISABLE); IN_THREAD quiet].
    vm_compute. reflexivity. }
  split; [reflexivity |]. split; [reflexivity |]. split; [reflexivity |].
  split.
  - eexists. split; [vm_compute; reflexivity |]. split; reflexivity.
  - eexists. eexists. split; [vm_compute; reflexivity |].
    split; [reflexivity |]. split; [vm_compute; reflexivity | reflexivity].
Qed.

(** ** Counterexamples to the claims as stated *)

(** C2 as stated fails: a beacon is in flight in [DUTY_TX_BEACON] and a
    packet has been queued meanwhile; TX_COMPLETE increments
    [sleep_interval_shift] although the queue is not empty.  And with
    MIN = 3 and MAX = 10 two increments leave a shifted interval of 12,
    above the maximum. *)
Lemma backoff_with_nonempty_queue :
  reachable cfg_3_10 beacon_in_flight_one_queued
  /\ dutycycle_state beacon_in_flight_one_queued = DUTY_TX_BEACON
  /\ pending_num beacon_in_flight_one_queued = 1
  /\ sleep_interval_shift beacon_in_flight_one_queued = 0
  /\ (exists s',
        _event_cb cfg_3_10 NETDEV2_EVENT_TX_COMPLETE cb_final
          beacon_in_flight_one_queued = Ok s'
        /\ pending_num s' = 1
        /\ sleep_interval_shift s' = 1)
  /\ reachable cfg_3_10 backed_off_twice
  /\ shifted_interval cfg_3_10 backed_off_twice = 12
  /\ DUTYCYCLE_SLEEP_INTERVAL_MAX cfg_3_10 = 10.
Proof.
  split.
  { exists (enable_dutycycle ++
            [IN_TIMER; IN_THREAD quiet; IN_SND 5 1001; IN_THREAD quiet]).
    vm_compute. reflexivity. }
  split; [reflexivity |]. split; [reflexivity |]. split; [reflexivity |].
  split; [| split; [| split; reflexivity]].
  2: { exists (enable_dutycycle ++ beacon_cycle ++ beacon_cycle).
       vm_compute. reflexivity. }
  eexists. split; [vm_compute; reflexivity |]. split; reflexivity.
Qed.

(** C4 as stated fails: the 129th packet finds the queue full; it is not
    stored, and the thread makes no [msg_reply]: its only call is the
    DEBUG statement, and it posts no message. *)
Lemma snd_overflow_not_reported :
  reachable cfg_3_10 queue_full
  /\ pending_num queue_full = NETDEV2_PKT_QUEUE_SIZE
  /\ exists s',
       run cfg_3_10 [IN_SND 9 2002; IN_THREAD quiet] queue_full = Ok s'
       /\ pkt_queue s' = pkt_queue queue_full
       /\ out s' = out queue_full ++ [A_DEBUG DBG_QUEUE_LOSS]
       /\ existsb is_msg_reply [A_DEBUG DBG_QUEUE_LOSS] = false
       /\ mbox s' = [].
Proof.
  split.
  { exists (enable_dutycycle ++ flood 128). vm_compute. reflexivity. }
  split; [reflexivity |].
  eexists. split; [vm_compute; reflexivity |]. repeat split.
Qed.

(** C5 as stated fails: with MIN = 3 and MAX = 10 the exponent [K] is 1,
    and two beacon cycles without data bring [sleep_interval_shift] to 2. *)
Lemma shift_exceeds_K :
  Z.shiftl (DUTYCYCLE_SLEEP_INTERVAL_MIN cfg_3_10) 1
    <= DUTYCYCLE_SLEEP_INTERVAL_MAX cfg_3_10
    < Z.shiftl (DUTYCYCLE_SLEEP_INTERVAL_MIN cfg_3_10) (1 + 1)
  /\ reachable cfg_3_10 backed_off_twice
  /\ ~ (0 <= sleep_interval_shift backed_off_twice <= 1).
Proof.
  split; [vm_compute; split; [discriminate | reflexivity] |].
  split.
  { exists (enable_dutycycle ++ beacon_cycle ++ beacon_cycle).
    vm_compute. reflexivity. }
  vm_compute. intros [_ H]. apply H. reflexivity.
Qed.

(** C6 as stated fails: TX_MEDIUM_BUSY with [csma_send_failed] returning
    false is not yet final; [retry_send_failed] is asked next, and when it
    returns true [radio_busy] stays set and nothing is posted.  And a
    final TX_NOACK of a beacon leaves [sleep_interval_shift] at 0 where
    TX_COMPLETE increments it. *)
Lemma medium_busy_not_final_and_no_backoff :
  reachable cfg_3_10 two_queued
  /\ radio_busy two_queued = true
  /\ (exists s',
        _event_cb cfg_3_10 NETDEV2_EVENT_TX_MEDIUM_BUSY cb_retry_again two_queued
          = Ok s'
        /\ radio_busy s' = true
        /\ mbox s' = mbox two_queued)
  /\ (exists s1 s2,
        _event_cb cfg_3_10 NETDEV2_EVENT_TX_COMPLETE cb_final
          beacon_in_flight_one_queued = Ok s1
        /\ _event_cb cfg_3_10 NETDEV2_EVENT_TX_NOACK cb_final
             beacon_in_flight_one_queued = Ok s2
        /\ sleep_interval_shift s1 = 1
        /\ sleep_interval_shift s2 = 0).
Proof.
  split.
  { exists (enable_dutycycle ++
            [IN_SND 5 1001; IN_THREAD quiet; IN_SND 5 1002; IN_THREAD quiet]).
    vm_compute. reflexivity. }
  split; [reflexivity |]. split.
  - eexists. split; [vm_compute; reflexivity |]. split; reflexivity.
  - eexists. eexists. split; [vm_compute; reflexivity |].
    split; [vm_compute; reflexivity |]. split; reflexivity.
Qed.

(** C7 as stated fails: REMOVE_QUEUE empties the queue in
    [DUTY_TX_DATA_BEFORE_BEACON] while an interrupt is pending; the state
    becomes [DUTY_TX_BEACON] but no beacon is submitted, only
    [beacon_pending] is set. *)
Lemma remove_queue_defers_beacon :
  reachable cfg_3_10 drained_irq_pending
  /\ dutycycle_state drained_irq_pending = DUTY_TX_DATA_BEFORE_BEACON
  /\ pending_num drained_irq_pending = 1
  /\ hd_error (mbox drained_irq_pending) = Some M_REMOVE_QUEUE
  /\ exists s',
       step cfg_3_10 (IN_THREAD quiet) drained_irq_pending = Ok s'
       /\ pending_num s' = 0
       /\ dutycycle_state s' = DUTY_TX_BEACON
       /\ beacon_pending s' = true
       /\ radio_busy s' = false
       /\ out s' = out drained_irq_pending ++ [A_pktbuf_release 1001].
Proof.
  split.
  { exists (enable_dutycycle ++
            [IN_SND 5 1001; IN_THREAD quiet; IN_TIMER; IN_IRQ;
             IN_THREAD (isr_raises NETDEV2_EVENT_TX_COMPLETE); IN_IRQ]).
    vm_compute. reflexivity. }
  repeat split.
  eexists. split; [vm_compute; reflexivity |]. repeat split.
Qed.

(** ** The theorems at concrete states *)

(** [dutycycle_cb_sleep] on the sleeping node with an empty queue. *)
Lemma dutycycle_cb_sleep_witness :
  dutycycle_state asleep = DUTY_SLEEP
  /\ dutycycle_state (dutycycle_cb cfg_3_10 asleep) = DUTY_TX_BEACON
  /\ mbox (dutycycle_cb cfg_3_10 asleep) = [M_EVENT].
Proof.
  split; [reflexivity |].
  destruct (dutycycle_cb_sleep cfg_3_10 asleep eq_refl) as (H1 & H2 & _).
  split; [exact H1 | exact H2].
Defined.

(** [msg_queue_remove_head_empty_wraps] on the initial state. *)
Lemma msg_queue_remove_head_empty_wraps_witness :
  pending_num init = 0
  /\ pkt_queue init !! 0%nat = Some {| sender_pid := 0; type := 0; content_ptr := NULL |}
  /\ exists s', msg_queue_remove_head init = Ok s'
                /\ pending_num s' = 255
                /\ out s' = [A_pktbuf_release NULL].
Proof.
  split; [reflexivity |]. split; [reflexivity |].
  destruct (msg_queue_remove_head_empty_wraps init
              {| sender_pid := 0; type := 0; content_ptr := NULL |})
    as [(s' & H1 & H2 & H3) _].
  - reflexivity.
  - reflexivity.
  - exists 1%nat, {| sender_pid := 0; type := 0; content_ptr := NULL |}.
    split; [lia |]. split; reflexivity.
  - exists s'. split; [exact H1 |]. split; [exact H2 | exact H3].
Defined.

(** The queue of [two_queued_acked] holds its two packets. *)
Lemma two_queued_acked_holds : queue_holds two_queued_acked.
Proof.
  split; [reflexivity |]. split; [vm_compute; split; discriminate |].
  intros j m Hj Hm.
  change (Z.to_nat (pending_num two_queued_acked)) with 2%nat in Hj.
  assert (j = 1%nat) as -> by lia.
  vm_compute in Hm. injection Hm as <-. reflexivity.
Defined.

(** [handle_REMOVE_QUEUE_spec] with two packets queued: the second becomes
    the head. *)
Lemma handle_REMOVE_QUEUE_spec_witness :
  queue_holds two_queued_acked
  /\ pkt_queue two_queued_acked !! 0%nat
     = Some {| sender_pid := 5; type := 514; content_ptr := 1001 |}
  /\ exists s', handle_REMOVE_QUEUE quiet two_queued_acked = Ok s'
                /\ pending_num s' = 1
                /\ pkt_queue s' !! 0%nat
                   = Some {| sender_pid := 5; type := 514; content_ptr := 1002 |}.
Proof.
  split; [exact two_queued_acked_holds |]. split; [reflexivity |].
  destruct (handle_REMOVE_QUEUE_spec quiet two_queued_acked
              {| sender_pid := 5; type := 514; content_ptr := 1001 |}
              two_queued_acked_holds eq_refl)
    as (s' & H1 & H2 & _ & H4 & _).
  exists s'. split; [exact H1 |]. split; [exact H2 |].
  rewrite (H4 0%nat); [reflexivity |].
  change (Z.to_nat (pending_num two_queued_acked - 1)) with 1%nat. lia.
Defined.

(** [tx_failure_final_like_tx_complete] for a beacon that is not
    acknowledged. *)
Lemma tx_failure_final_like_tx_complete_witness :
  terminal_failure NETDEV2_EVENT_TX_NOACK cb_final
  /\ _event_cb cfg_3_10 NETDEV2_EVENT_TX_COMPLETE cb_final
       beacon_in_flight_one_queued = Ok beacon_acked
  /\ exists s2,
       _event_cb cfg_3_10 NETDEV2_EVENT_TX_NOACK cb_final
         beacon_in_flight_one_queued = Ok s2
       /\ radio_busy s2 = false
       /\ dutycycle_state s2 = dutycycle_state beacon_acked
       /\ sleep_interval_shift s2 = 0.
Proof.
  assert (Ht : terminal_failure NETDEV2_EVENT_TX_NOACK cb_final)
    by (split; [reflexivity | left; reflexivity]).
  split; [exact Ht |]. split; [reflexivity |].
  destruct (tx_failure_final_like_tx_complete cfg_3_10 NETDEV2_EVENT_TX_NOACK
              cb_final beacon_in_flight_one_queued beacon_acked Ht eq_refl)
    as (s2 & H1 & H2 & H3 & _ & _ & _ & _ & H8 & _).
  exists s2. split; [exact H1 |]. split; [exact H2 |]. split; [exact H3 | exact H8].
Defined.

(** [snd_enqueue_result_dropped] on the full queue. *)
Lemma snd_enqueue_result_dropped_witness :
  length (pkt_queue queue_full) = 128%nat
  /\ 0 <= pending_num queue_full <= 128
  /\ exists s',
       handle_SND cfg_3_10 9 2002 quiet queue_full = Ok s'
       /\ pending_num s' = 128
       /\ forall a, In a (out s') ->
                    In a (out queue_full) \/ a = A_DEBUG DBG_QUEUE_LOSS
                    \/ exists p, a = A_send_with_retries p.
Proof.
  assert (Hr : 0 <= pending_num queue_full <= 128)
    by (vm_compute; split; discriminate).
  split; [reflexivity |]. split; [exact Hr |].
  destruct (snd_enqueue_result_dropped cfg_3_10 9 2002 quiet queue_full eq_refl Hr)
    as [_ (s' & H1 & _ & H3 & H4)].
  exists s'. split; [exact H1 |]. split; [exact H3 | exact H4].
Defined.

(** [backoff_only_on_beacon_tx_complete] on an acknowledged beacon, on a
    CHECK_QUEUE message and on a NETDEV2_MSG_TYPE_EVENT message. *)
Lemma backoff_only_on_beacon_tx_complete_witness :
  _event_cb cfg_3_10 NETDEV2_EVENT_TX_COMPLETE cb_final
    beacon_in_flight_one_queued = Ok beacon_acked
  /\ (sleep_interval_shift beacon_acked
        = sleep_interval_shift beacon_in_flight_one_queued
      \/ sleep_interval_shift beacon_acked = 0
      \/ (NETDEV2_EVENT_TX_COMPLETE = NETDEV2_EVENT_TX_COMPLETE
          /\ dutycycle_state beacon_in_flight_one_queued = DUTY_TX_BEACON
          /\ shifted_interval cfg_3_10 beacon_in_flight_one_queued
               < DUTYCYCLE_SLEEP_INTERVAL_MAX cfg_3_10
          /\ sleep_interval_shift beacon_acked
               = u8 (sleep_interval_shift beacon_in_flight_one_queued + 1)))
  /\ M_CHECK_QUEUE <> M_NETDEV_EVENT
  /\ thread_dispatch cfg_3_10 M_CHECK_QUEUE quiet asleep = Ok asleep
  /\ sleep_interval_shift asleep = sleep_interval_shift asleep
  /\ exists s1,
       driver_isr cfg_3_10 (isr_events (isr_raises NETDEV2_EVENT_TX_COMPLETE))
         (set_irq_pending false beacon_in_flight_one_queued) = Ok s1
       /\ sleep_interval_shift
            (state_of (handle_NETDEV_EVENT cfg_3_10
                         (isr_raises NETDEV2_EVENT_TX_COMPLETE)
                         beacon_in_flight_one_queued))
          = sleep_interval_shift s1.
Proof.
  destruct (backoff_only_on_beacon_tx_complete cfg_3_10)
    as (Ha & _ & _ & Hd & He & _).
  split; [reflexivity |].
  split; [exact (Ha NETDEV2_EVENT_TX_COMPLETE cb_final
                    beacon_in_flight_one_queued beacon_acked eq_refl) |].
  assert (Hne : M_CHECK_QUEUE <> M_NETDEV_EVENT) by discriminate.
  split; [exact Hne |]. split; [reflexivity |].
  split; [exact (Hd M_CHECK_QUEUE quiet asleep asleep Hne eq_refl) |].
  exact (He (isr_raises NETDEV2_EVENT_TX_COMPLETE) beacon_in_flight_one_queued
            _ eq_refl).
Defined.

(** [sleep_interval_shift_bound] with MIN = 3, MAX = 10, K = 1. *)
Lemma sleep_interval_shift_bound_witness :
  0 < DUTYCYCLE_SLEEP_INTERVAL_MIN cfg_3_10 < 2 ^ 32
  /\ 0 <= 1
  /\ Z.shiftl (DUTYCYCLE_SLEEP_INTERVAL_MIN cfg_3_10) 1
       <= DUTYCYCLE_SLEEP_INTERVAL_MAX cfg_3_10
  /\ DUTYCYCLE_SLEEP_INTERVAL_MAX cfg_3_10
       < Z.shiftl (DUTYCYCLE_SLEEP_INTERVAL_MIN cfg_3_10) (1 + 1)
  /\ reachable cfg_3_10 backed_off_twice
  /\ 0 <= sleep_interval_shift backed_off_twice <= 1 + 1.
Proof.
  assert (H1 : 0 < DUTYCYCLE_SLEEP_INTERVAL_MIN cfg_3_10 < 2 ^ 32)
    by (vm_compute; split; reflexivity).
  assert (H2 : 0 <= 1) by discriminate.
  assert (H3 : Z.shiftl (DUTYCYCLE_SLEEP_INTERVAL_MIN cfg_3_10) 1
               <= DUTYCYCLE_SLEEP_INTERVAL_MAX cfg_3_10)
    by (vm_compute; discriminate).
  assert (H4 : DUTYCYCLE_SLEEP_INTERVAL_MAX cfg_3_10
               < Z.shiftl (DUTYCYCLE_SLEEP_INTERVAL_MIN cfg_3_10) (1 + 1))
    by (vm_compute; reflexivity).
  assert (H5 : reachable cfg_3_10 backed_off_twice).
  { exists (enable_dutycycle ++ beacon_cycle ++ beacon_cycle).
    vm_compute. reflexivity. }
  split; [exact H1 |]. split; [exact H2 |]. split; [exact H3 |].
  split; [exact H4 |]. split; [exact H5 |].
  exact (proj1 (sleep_interval_shift_bound cfg_3_10 1 backed_off_twice
                  H1 H2 H3 H4 H5)).
Defined.

(** * Further properties of the code *)

(** ** The sleep interval *)

Lemma reachable_shift_inv (cfg : config) (s : state) :
  0 < DUTYCYCLE_SLEEP_INTERVAL_MIN cfg < 2 ^ 32 ->
  reachable cfg s -> shift_inv cfg s.
Proof.
  intros Hmin [ins Hrun].
  apply (run_inv cfg ins Hmin init s); [| exact Hrun].
  apply shift_inv_reset. reflexivity.
Qed.

(** Under the invariant the shifted interval is the exact product: the
    32-bit shift does not wrap. *)
Lemma shifted_interval_exact (cfg : config) (s : state) :
  0 < DUTYCYCLE_SLEEP_INTERVAL_MIN cfg < 2 ^ 32 ->
  shift_inv cfg s ->
  shifted_interval cfg s
    = DUTYCYCLE_SLEEP_INTERVAL_MIN cfg * 2 ^ sleep_interval_shift s
  /\ 0 <= sleep_interval_shift s
  /\ DUTYCYCLE_SLEEP_INTERVAL_MIN cfg
       <= DUTYCYCLE_SLEEP_INTERVAL_MIN cfg * 2 ^ sleep_interval_shift s < 2 ^ 32.
Proof.
  intros Hmin [Hn Hinv]. unfold shifted_interval.
  rewrite Z.shiftl_mul_pow2 by exact Hn.
  assert (Hp : 0 < 2 ^ sleep_interval_shift s) by (apply Z.pow_pos_nonneg; lia).
  assert (Hx : DUTYCYCLE_SLEEP_INTERVAL_MIN cfg * 2 ^ sleep_interval_shift s < 2 ^ 32).
  { destruct Hinv as [-> | [_ H]]; [simpl; lia | exact H]. }
  split; [apply u32_small; nia |]. split; [exact Hn |]. split; [nia | exact Hx].
Qed.

Lemma get_sleep_interval_min (cfg : config) (s : state) :
  get_sleep_interval cfg s
    = Z.min (shifted_interval cfg s) (DUTYCYCLE_SLEEP_INTERVAL_MAX cfg).
Proof.
  unfold get_sleep_interval. cbv zeta.
  destruct (_ >? _) eqn:Hgt.
  - apply Z.gtb_lt in Hgt. lia.
  - rewrite Z.gtb_ltb in Hgt. apply Z.ltb_ge in Hgt. lia.
Qed.

(** X1. In every reachable state the interval [get_sleep_interval]
    returns is the minimum of [MIN * 2^shift] and [MAX], computed without
    32-bit wrap-around, and lies between [MIN] and [MAX]. *)
Theorem get_sleep_interval_reachable (cfg : config) (s : state) :
  0 < DUTYCYCLE_SLEEP_INTERVAL_MIN cfg < 2 ^ 32 ->
  DUTYCYCLE_SLEEP_INTERVAL_MIN cfg <= DUTYCYCLE_SLEEP_INTERVAL_MAX cfg ->
  reachable cfg s ->
  get_sleep_interval cfg s
    = Z.min (DUTYCYCLE_SLEEP_INTERVAL_MIN cfg * 2 ^ sleep_interval_shift s)
            (DUTYCYCLE_SLEEP_INTERVAL_MAX cfg)
  /\ DUTYCYCLE_SLEEP_INTERVAL_MIN cfg <= get_sleep_interval cfg s
       <= DUTYCYCLE_SLEEP_INTERVAL_MAX cfg.
Proof.
  intros Hmin Hmax Hr.
  destruct (shifted_interval_exact cfg s Hmin (reachable_shift_inv cfg s Hmin Hr))
    as (Hx & _ & Hlo & _).
  rewrite get_sleep_interval_min, Hx. split; lia.
Qed.

(** X2. From a reachable state, a back-off that returns never shortens
    the interval slept and at most doubles it; once the shifted interval
    has reached the maximum it changes nothing. *)
Theorem backoff_at_most_doubles (cfg : config) (s s' : state) :
  0 < DUTYCYCLE_SLEEP_INTERVAL_MIN cfg < 2 ^ 32 ->
  DUTYCYCLE_SLEEP_INTERVAL_MIN cfg <= DUTYCYCLE_SLEEP_INTERVAL_MAX cfg ->
  reachable cfg s ->
  backoff_sleep_interval cfg s = Ok s' ->
  get_sleep_interval cfg s <= get_sleep_interval cfg s'
    <= 2 * get_sleep_interval cfg s
  /\ (DUTYCYCLE_SLEEP_INTERVAL_MAX cfg <= shifted_interval cfg s -> s' = s).
Proof.
  intros Hmin Hmax Hr Hb.
  pose proof (reachable_shift_inv cfg s Hmin Hr) as Hinv.
  destruct (shifted_interval_exact cfg s Hmin Hinv) as (Hx & Hn & Hlo & Hhi).
  unfold backoff_sleep_interval in Hb. sstate.
  destruct (shifted_interval cfg s <? DUTYCYCLE_SLEEP_INTERVAL_MAX cfg) eqn:Hlt.
  - apply Z.ltb_lt in Hlt.
    destruct (u32 (Z.shiftl (shifted_interval cfg s) 1) >=? shifted_interval cfg s)
      eqn:Hge; sstate; [| discriminate Hb].
    injection Hb as <-. apply Z.geb_le in Hge.
    assert (Hinv' : shift_inv cfg
              (set_sleep_interval_shift (u8 (sleep_interval_shift s + 1)) s)).
    { apply (shift_inv_backoff cfg s); auto; lia. }
    destruct (shifted_interval_exact cfg _ Hmin Hinv') as (Hx' & _ & _ & _).
    sstate.
    assert (Hn32 : sleep_interval_shift s < 32).
    { apply pow2_lt_32; [exact Hn |].
      assert (0 < 2 ^ sleep_interval_shift s) by (apply Z.pow_pos_nonneg; lia). nia. }
    rewrite (u8_small (sleep_interval_shift s + 1)) in * by lia.
    rewrite Z.pow_add_r in Hx' by lia. change (2 ^ 1) with 2 in Hx'.
    split; [| lia].
    rewrite !get_sleep_interval_min, Hx', Hx. rewrite Hx in Hlt.
    set (x := DUTYCYCLE_SLEEP_INTERVAL_MIN cfg * 2 ^ sleep_interval_shift s) in *.
    lia.
  - injection Hb as <-. apply Z.ltb_ge in Hlt.
    split; [| reflexivity].
    rewrite get_sleep_interval_min. lia.
Qed.

(** ** The queue as a FIFO *)

Lemma shift_forward_length (n : nat) :
  forall (i : nat) (q q' : list msg_t),
    shift_forward n i q = Ok q' -> length q' = length q.
Proof.
  induction n as [|n IH]; intros i q q' H; simpl in H.
  - injection H as <-. reflexivity.
  - destruct (q !! S i) as [m|]; [| discriminate H].
    destruct ((sender_pid m =? 0) && (type m =? 0)).
    + injection H as <-. apply length_insert.
    + apply IH in H. rewrite H. apply length_insert.
Qed.

(** What [msg_queue_remove_head] changes: the queue array, the counter
    and the trace, and nothing else. *)
Lemma msg_queue_remove_head_frame (s s' : state) :
  msg_queue_remove_head s = Ok s' ->
  exists hd q',
    pkt_queue s !! 0%nat = Some hd
    /\ length q' = length (pkt_queue s)
    /\ s' = set_pkt_queue q'
              (set_pending_num (u8 (pending_num s - 1))
                 (emit (A_pktbuf_release (content_ptr hd)) s)).
Proof.
  unfold msg_queue_remove_head.
  destruct (pkt_queue s !! 0%nat) as [hd|]; [| intros H; discriminate H].
  sstate. rewrite u8_guard_never. sstate.
  destruct (negb (u8 (pending_num s - 1) =? 0)).
  - destruct (shift_forward _ _ _) as [q'|] eqn:Hsf; sstate;
      [| intros H; discriminate H].
    intros [= <-]. exists hd, q'. split; [reflexivity |].
    split; [exact (shift_forward_length _ _ _ _ Hsf) | reflexivity].
  - intros [= <-]. exists hd, (pkt_queue s). repeat split.
Qed.

(** What [msg_queue_send] changes: [radio_busy], [sending_beacon] and the
    trace. *)
Lemma msg_queue_send_frame (s s' : state) :
  msg_queue_send s = Ok s' ->
  exists hd,
    pkt_queue s !! 0%nat = Some hd
    /\ s' = emit (A_send_with_retries (content_ptr hd))
              (set_sending_beacon false (set_radio_busy true s)).
Proof.
  unfold msg_queue_send.
  destruct (pkt_queue s !! 0%nat) as [hd|]; [| intros H; discriminate H].
  sstate. intros [= <-]. exists hd. split; reflexivity.
Qed.

(** X3. [msg_queue_add] on a queue that is not full appends the message
    behind the packets already queued and returns 1; on a full queue it
    returns 0 and the queued packets are the same. *)
Theorem msg_queue_add_appends (msg : msg_t) (s : state) :
  length (pkt_queue s) = 128%nat ->
  0 <= pending_num s ->
  if pending_num s <? NETDEV2_PKT_QUEUE_SIZE then
    fst (msg_queue_add msg s) = 1
    /\ queue_contents (snd (msg_queue_add msg s)) = queue_contents s ++ [msg]
  else
    fst (msg_queue_add msg s) = 0
    /\ queue_contents (snd (msg_queue_add msg s)) = queue_contents s.
Proof.
  intros Hlen Hn. unfold msg_queue_add, NETDEV2_PKT_QUEUE_SIZE.
  destruct (pending_num s <? 128) eqn:Hlt; cbn [fst snd]; unfold queue_contents; sstate.
  - apply Z.ltb_lt in Hlt. split; [reflexivity |].
    rewrite u8_small by lia.
    replace (Z.to_nat (pending_num s + 1)) with (S (Z.to_nat (pending_num s))) by lia.
    destruct msg as [sp ty cp]. cbn [sender_pid type content_ptr].
    rewrite (take_S_r _ _ {| sender_pid := sp; type := ty; content_ptr := cp |}).
    + rewrite take_insert_ge by lia. reflexivity.
    + apply list_lookup_insert_eq. lia.
  - split; reflexivity.
Qed.

(** X4. [msg_queue_remove_head] on a queue that holds a packet removes
    exactly the head: the packets queued before are the head followed by
    the packets queued after, in the same order; the head's buffer is the
    one released. *)
Theorem msg_queue_remove_head_pops (s : state) :
  queue_holds s ->
  exists hd s',
    msg_queue_remove_head s = Ok s'
    /\ queue_contents s = hd :: queue_contents s'
    /\ pending_num s' = pending_num s - 1
    /\ out s' = out s ++ [A_pktbuf_release (content_ptr hd)].
Proof.
  intros Hq.
  destruct (lookup_lt_is_Some_2 (pkt_queue s) 0) as [hd Hhd].
  { destruct Hq as [Hlen _]. lia. }
  destruct (msg_queue_remove_head_fifo s hd Hq Hhd) as (q' & Hrm & Hl & Hfifo).
  destruct Hq as (Hlen & Hn & _).
  exists hd. eexists. split; [exact Hrm |].
  unfold queue_contents. sstate. split; [| split; reflexivity].
  apply list_eq. intros [|k].
  - rewrite lookup_take_lt by lia. exact Hhd.
  - cbn [lookup list_lookup].
    destruct (decide (S k < Z.to_nat (pending_num s))%nat) as [Hk | Hk].
    + assert (Hk' : (k < Z.to_nat (pending_num s - 1))%nat) by lia.
      rewrite (lookup_take_lt (pkt_queue s)) by exact Hk.
      rewrite (lookup_take_lt q') by exact Hk'.
      symmetry. apply Hfifo. exact Hk'.
    + assert (Hk' : (Z.to_nat (pending_num s - 1) <= k)%nat) by lia.
      rewrite (lookup_take_ge (pkt_queue s)) by lia.
      rewrite (lookup_take_ge q') by exact Hk'. reflexivity.
Qed.

(** X5. The shifting loop stops at a slot that looks unused: when the
    slot behind the head has [sender_pid = 0] and [type = 0],
    [msg_queue_remove_head] overwrites slot 0 with it and moves nothing
    else, although the counter still counts the slots behind. *)
Theorem msg_queue_remove_head_stops_at_unused (s : state) (hd z : msg_t) :
  2 <= pending_num s <= 255 ->
  pkt_queue s !! 0%nat = Some hd ->
  pkt_queue s !! 1%nat = Some z ->
  unused_slot z = true ->
  exists s',
    msg_queue_remove_head s = Ok s'
    /\ pkt_queue s' = <[0%nat := z]> (pkt_queue s)
    /\ pending_num s' = pending_num s - 1
    /\ forall k : nat, (1 <= k)%nat -> pkt_queue s' !! k = pkt_queue s !! k.
Proof.
  intros Hn Hhd Hz Hu.
  unfold msg_queue_remove_head. rewrite Hhd. sstate.
  rewrite u8_guard_never. sstate. rewrite u8_small by lia.
  assert (Hnz : (pending_num s - 1 =? 0) = false) by (apply Z.eqb_neq; lia).
  rewrite Hnz. cbn [negb].
  destruct (Z.to_nat (pending_num s - 1)) as [|n] eqn:Hnat; [lia |].
  cbn [shift_forward]. rewrite Hz. unfold unused_slot in Hu. rewrite Hu. sstate.
  eexists. split; [reflexivity |]. sstate. repeat split.
  intros k Hk. apply list_lookup_insert_ne. lia.
Qed.

(** ** What the driver callback touches *)

(** Closing a goal [out s' = out s ++ ?acts] or [mbox s' = mbox s ++ ?ms]
    once the state is explicit. *)
Ltac trace_eq :=
  first [ symmetry; apply app_nil_r
        | rewrite <- ?app_assoc; reflexivity ].

(** [_event_cb] leaves the queue, the duty-cycling switch and the beacon
    flags alone, never sets [radio_busy], makes only helper
    notifications, pass-on and DEBUG calls, and posts only EVENT,
    REMOVE_QUEUE, CHECK_QUEUE or NETDEV messages. *)
Lemma _event_cb_effects (cfg : config) (ev : netdev2_event_t) (o : cb_oracle)
    (s s' : state) :
  _event_cb cfg ev o s = Ok s' ->
  pkt_queue s' = pkt_queue s
  /\ pending_num s' = pending_num s
  /\ dutycycling s' = dutycycling s
  /\ beacon_pending s' = beacon_pending s
  /\ sending_beacon s' = sending_beacon s
  /\ retry_rexmit s' = retry_rexmit s
  /\ (radio_busy s' = true -> radio_busy s = true)
  /\ exists acts posted,
       out s' = out s ++ acts
       /\ mbox s' = mbox s ++ posted
       /\ forallb callback_action acts = true
       /\ existsb is_send_with_retries acts = false
       /\ forallb callback_posted posted = true.
Proof.
  intros H. destruct ev;
    unfold _event_cb, tx_noack_tail, tx_failed_final, _pass_on_packet,
      backoff_sleep_interval in H;
    run_cases;
    (repeat (split; [first [reflexivity | intros Hb; discriminate Hb
                           | intros Hb; exact Hb] |]);
     eexists; eexists; split; [trace_eq |]; split; [trace_eq |];
     repeat split).
Qed.

(** The same for all the events of one [isr] call. *)
Lemma driver_isr_effects (cfg : config) (evs : list (netdev2_event_t * cb_oracle)) :
  forall s s',
    driver_isr cfg evs s = Ok s' ->
    pkt_queue s' = pkt_queue s
    /\ pending_num s' = pending_num s
    /\ dutycycling s' = dutycycling s
    /\ beacon_pending s' = beacon_pending s
    /\ sending_beacon s' = sending_beacon s
    /\ retry_rexmit s' = retry_rexmit s
    /\ (radio_busy s' = true -> radio_busy s = true)
    /\ exists acts posted,
         out s' = out s ++ acts
         /\ mbox s' = mbox s ++ posted
         /\ forallb callback_action acts = true
         /\ existsb is_send_with_retries acts = false
         /\ forallb callback_posted posted = true.
Proof.
  induction evs as [| [e o] evs IH]; intros s s' H; simpl in H.
  - injection H as <-. repeat (split; [auto |]).
    exists [], []. rewrite !app_nil_r. repeat split.
  - destruct (_event_cb cfg e o s) as [s1|] eqn:He; [| discriminate H].
    simpl in H.
    destruct (_event_cb_effects cfg e o s s1 He)
      as (E1 & E2 & E3 & E4 & E5 & E6 & E7 & a1 & p1 & Ea & Ep & Fa & Fs & Fp).
    destruct (IH s1 s' H)
      as (I1 & I2 & I3 & I4 & I5 & I6 & I7 & a2 & p2 & Ia & Ip & Ga & Gs & Gp).
    repeat (split; [congruence || auto |]).
    exists (a1 ++ a2), (p1 ++ p2).
    rewrite Ia, Ea, Ip, Ep, <- !app_assoc.
    rewrite !forallb_app, existsb_app, Fa, Ga, Fs, Gs, Fp, Gp. repeat split.
Qed.

(** ** Submissions and [radio_busy] *)

(** Unfolding the handlers of the thread down to field updates. *)
Ltac unfold_handlers H :=
  unfold handle_EVENT, handle_REMOVE_QUEUE, handle_CHECK_QUEUE, handle_SND,
    handle_SET, handle_GET, handle_LINK_RETRANSMIT, send_beacon_safely,
    may_submit, msg_queue_send, msg_queue_add, _event_cb, tx_noack_tail,
    tx_failed_final in H.

(** X6. On every guarded path the submission policy is respected: while
    handling EVENT, REMOVE_QUEUE, CHECK_QUEUE, SET, GET, LINK_RETRANSMIT
    or, outside [DUTY_INIT], SND, the thread calls [send_with_retries]
    only if [radio_busy] and [irq_pending] are false and the radio is not
    receiving. *)
Theorem guarded_paths_respect_policy
    (cfg : config) (m : mac_msg) (o : oracle) (s s' : state) :
  m <> M_NETDEV_EVENT ->
  (forall sender pkt, m = M_SND sender pkt -> dutycycle_state s <> DUTY_INIT) ->
  thread_dispatch cfg m o s = Ok s' ->
  exists acts,
    out s' = out s ++ acts
    /\ (existsb is_send_with_retries acts = true -> may_submit o s = true).
Proof.
  intros Hm Hinit H. unfold may_submit.
  destruct m; cbn [thread_dispatch] in H; [| | | congruence | | | | |].
  - unfold_handlers H.
    destruct (radio_busy s) eqn:Hb, (irq_pending s) eqn:Hi, (rx o) eqn:Hr;
      run_cases; rewrite ?Hb, ?Hi in *; cbn [negb andb orb] in *; run_cases;
      (eexists; split; [trace_eq | simpl; intros; congruence]).
  - unfold handle_REMOVE_QUEUE in H.
    destruct (msg_queue_remove_head s) as [s1|] eqn:Hrm; [| discriminate H].
    destruct (msg_queue_remove_head_frame s s1 Hrm) as (hd & q' & _ & _ & ->).
    unfold_handlers H. sstate.
    destruct (radio_busy s) eqn:Hb, (irq_pending s) eqn:Hi, (rx o) eqn:Hr;
      cbn [negb andb orb] in *; run_cases;
      (eexists; split; [trace_eq | simpl; intros; congruence]).
  - unfold_handlers H.
    destruct (radio_busy s) eqn:Hb, (irq_pending s) eqn:Hi, (rx o) eqn:Hr;
      rewrite ?andb_false_r in H; cbn [negb andb orb] in *; run_cases;
      (eexists; split; [trace_eq | simpl; intros; congruence]).
  - specialize (Hinit sender pkt eq_refl).
    unfold_handlers H.
    destruct (pending_num s <? NETDEV2_PKT_QUEUE_SIZE); cbn [snd] in H; sstate;
      destruct (dutycycle_state s) eqn:Hst; try congruence;
      cbn [dutycycle_state_eqb] in H;
      destruct (radio_busy s) eqn:Hb, (irq_pending s) eqn:Hi, (rx o) eqn:Hr;
      rewrite ?orb_true_r, ?andb_false_r in H; cbn [negb andb orb] in *; run_cases;
      (eexists; split; [trace_eq | simpl; intros; congruence]).
  - unfold_handlers H. destruct req as [[] |]; run_cases;
      (eexists; split; [trace_eq | simpl; intros; congruence]).
  - unfold_handlers H. run_cases.
    eexists; split; [trace_eq | simpl; intros; congruence].
  - unfold_handlers H. run_cases;
      (eexists; split; [trace_eq | simpl; intros; congruence]).
  - injection H as <-. eexists; split; [trace_eq | simpl; intros; congruence].
Qed.

(** X7. [radio_busy] is set only by a submission: whenever handling a
    message turns [radio_busy] from false to true, the last call the
    thread made is [send_with_retries]. *)
Theorem radio_busy_set_by_submission
    (cfg : config) (m : mac_msg) (o : oracle) (s s' : state) :
  thread_dispatch cfg m o s = Ok s' ->
  radio_busy s = false ->
  radio_busy s' = true ->
  exists p, last (out s') = Some (A_send_with_retries p).
Proof.
  intros H Hb Hb'.
  destruct m; cbn [thread_dispatch] in H.
  - unfold_handlers H. run_cases; rewrite ?last_snoc; eauto; congruence.
  - unfold handle_REMOVE_QUEUE in H.
    destruct (msg_queue_remove_head s) as [s1|] eqn:Hrm; [| discriminate H].
    destruct (msg_queue_remove_head_frame s s1 Hrm) as (hd & q' & _ & _ & ->).
    unfold_handlers H. run_cases; rewrite ?last_snoc; eauto; congruence.
  - unfold_handlers H. run_cases; rewrite ?last_snoc; eauto; congruence.
  - unfold handle_NETDEV_EVENT in H. sstate.
    destruct (driver_isr cfg (isr_events o) (set_irq_pending false s))
      as [s1|] eqn:Hisr; [| discriminate H].
    destruct (driver_isr_effects cfg _ _ s1 Hisr) as (_ & _ & _ & _ & _ & _ & Hrb & _).
    sstate. injection H as <-.
    destruct (radio_busy s1) eqn:Hb1; [specialize (Hrb eq_refl); congruence |].
    destruct (beacon_pending s1); cbn [andb negb] in *; sstate.
    + rewrite last_snoc. eauto.
    + congruence.
  - unfold_handlers H.
    destruct (pending_num s <? NETDEV2_PKT_QUEUE_SIZE); cbn [snd] in H;
      run_cases; rewrite ?last_snoc; eauto; congruence.
  - unfold_handlers H. destruct req as [[] |]; run_cases; congruence.
  - unfold_handlers H. run_cases. congruence.
  - unfold_handlers H. run_cases; congruence.
  - injection H as <-. sstate. congruence.
Qed.

(** X8. [radio_busy] is cleared only by a terminal TX event: the handlers
    of all messages but NETDEV2_MSG_TYPE_EVENT and LINK_RETRANSMIT (the
    two that run [_event_cb]) never clear it, and [_event_cb] clears it
    only on TX_COMPLETE, on TX_COMPLETE_PENDING or on a final failure. *)
Theorem radio_busy_cleared_by_tx_event (cfg : config) :
  (forall m o s s',
      m <> M_NETDEV_EVENT ->
      (forall pkt, m <> M_LINK_RETRANSMIT pkt) ->
      thread_dispatch cfg m o s = Ok s' ->
      radio_busy s = true -> radio_busy s' = true)
  /\ (forall ev o s s',
         _event_cb cfg ev o s = Ok s' ->
         radio_busy s = true -> radio_busy s' = false ->
         ev = NETDEV2_EVENT_TX_COMPLETE
         \/ ev = NETDEV2_EVENT_TX_COMPLETE_PENDING
         \/ terminal_failure ev o).
Proof.
  split.
  - intros m o s s' Hm Hl H Hb.
    destruct m; cbn [thread_dispatch] in H;
      [| | | congruence | | | | exfalso; exact (Hl pkt eq_refl) |].
    + unfold_handlers H. run_cases; reflexivity || assumption.
    + unfold handle_REMOVE_QUEUE in H.
      destruct (msg_queue_remove_head s) as [s1|] eqn:Hrm; [| discriminate H].
      destruct (msg_queue_remove_head_frame s s1 Hrm) as (hd & q' & _ & _ & ->).
      unfold_handlers H. run_cases; reflexivity || assumption.
    + unfold_handlers H. run_cases; reflexivity || assumption.
    + unfold_handlers H.
      destruct (pending_num s <? NETDEV2_PKT_QUEUE_SIZE); cbn [snd] in H;
        run_cases; reflexivity || assumption.
    + unfold_handlers H. destruct req as [[] |]; run_cases; assumption.
    + unfold_handlers H. run_cases. assumption.
    + injection H as <-. sstate. assumption.
  - intros ev o s s' H Hb Hb'. unfold terminal_failure.
    destruct ev; unfold_handlers H; unfold _pass_on_packet in H;
      try (run_cases; congruence); auto.
    + destruct (csma_will_retry o) eqn:Hc; [run_cases; congruence |].
      destruct (retry_will_retry o) eqn:Hr; [run_cases; congruence |].
      right. right. auto.
    + destruct (retry_will_retry o) eqn:Hr; [run_cases; congruence |].
      right. right. auto.
Qed.

(** ** Duty-cycling switched off *)

(** Case analysis on a handler run from a state whose [dutycycle_state]
    is known. *)
Ltac run_cases_st :=
  repeat (sstate; cbn [dutycycle_state_eqb negb] in *;
          match goal with
          | H : false = true |- _ => discriminate H
          | H : true = false |- _ => discriminate H
          | H : Fault _ = Ok _ |- _ => discriminate H
          | H : context [bind ?r _] |- _ => destruct r eqn:?
          | H : context [match ?x with _ => _ end] |- _ => destruct x eqn:?
          | H : Ok _ = Ok _ |- _ => injection H as <-
          end);
  sstate.

Lemma callback_posted_no_set (ms : list mac_msg) :
  forallb callback_posted ms = true -> forallb no_set_msg ms = true.
Proof.
  induction ms as [| m ms IH]; simpl; [reflexivity |].
  intros H. apply andb_true_iff in H as [H1 H2].
  rewrite (IH H2). destruct m; simpl in *; congruence.
Qed.

(** In [DUTY_INIT] every event but RX_COMPLETE leaves the state and the
    timer as they are. *)
Lemma _event_cb_keeps_init (cfg : config) (ev : netdev2_event_t) (o : cb_oracle)
    (s s' : state) :
  ev <> NETDEV2_EVENT_RX_COMPLETE ->
  dutycycle_state s = DUTY_INIT ->
  _event_cb cfg ev o s = Ok s' ->
  dutycycle_state s' = DUTY_INIT /\ timer s' = timer s.
Proof.
  intros Hev Hst H. destruct s. cbn in Hst. subst.
  destruct ev; try congruence; unfold_handlers H; 
    run_cases_st; split; reflexivity.
Qed.

Lemma driver_isr_keeps_init (cfg : config) (evs : list (netdev2_event_t * cb_oracle)) :
  forallb not_rx_complete evs = true ->
  forall s s',
    dutycycle_state s = DUTY_INIT ->
    driver_isr cfg evs s = Ok s' ->
    dutycycle_state s' = DUTY_INIT /\ timer s' = timer s.
Proof.
  induction evs as [| [e o] evs IH]; intros Hevs s s' Hst H; simpl in H.
  - injection H as <-. auto.
  - simpl in Hevs. apply andb_true_iff in Hevs as [He Hevs].
    destruct (_event_cb cfg e o s) as [s1|] eqn:Hcb; [| discriminate H].
    simpl in H.
    assert (Hne : e <> NETDEV2_EVENT_RX_COMPLETE).
    { intros ->. discriminate He. }
    destruct (_event_cb_keeps_init cfg e o s s1 Hne Hst Hcb) as [Hst1 Ht1].
    destruct (IH Hevs s1 s' Hst1 H) as [Hst' Ht']. split; congruence.
Qed.

(** The handlers of all messages but SET and NETDEV2_MSG_TYPE_EVENT keep
    a switched-off node in [DUTY_INIT], leave the timer alone and post no
    SET message. *)
Lemma thread_dispatch_keeps_init (cfg : config) (m : mac_msg) (o : oracle)
    (s s' : state) :
  no_set_msg m = true ->
  m <> M_NETDEV_EVENT ->
  dutycycle_state s = DUTY_INIT ->
  dutycycling s = NETOPT_DISABLE ->
  thread_dispatch cfg m o s = Ok s' ->
  dutycycle_state s' = DUTY_INIT
  /\ dutycycling s' = NETOPT_DISABLE
  /\ timer s' = timer s
  /\ exists posted, mbox s' = mbox s ++ posted
                    /\ forallb no_set_msg posted = true.
Proof.
  intros Hns Hm Hst Hdc H.
  destruct m; cbn [thread_dispatch] in H; try discriminate Hns; try congruence.
  - destruct s. cbn in Hst, Hdc. subst. unfold_handlers H. run_cases_st.
    repeat (split; [reflexivity |]). eexists; split; [trace_eq | reflexivity].
  - unfold handle_REMOVE_QUEUE in H.
    destruct (msg_queue_remove_head s) as [s1|] eqn:Hrm; [| discriminate H].
    destruct (msg_queue_remove_head_frame s s1 Hrm) as (hd & q' & _ & _ & ->).
    destruct s. cbn in Hst, Hdc. subst. unfold_handlers H. run_cases_st;
      (repeat (split; [reflexivity |]); eexists; split; [trace_eq | reflexivity]).
  - destruct s. cbn in Hst, Hdc. subst. unfold_handlers H. run_cases_st;
      (repeat (split; [reflexivity |]); eexists; split; [trace_eq | reflexivity]).
  - destruct s. cbn in Hst, Hdc. subst. unfold_handlers H.
    sstate. destruct (_ <? NETDEV2_PKT_QUEUE_SIZE); simpl in H;
      run_cases_st;
      (repeat (split; [reflexivity |]); eexists; split; [trace_eq | reflexivity]).
  - destruct s. cbn in Hst, Hdc. subst. unfold_handlers H. run_cases_st.
    repeat (split; [reflexivity |]). eexists; split; [trace_eq | reflexivity].
  - destruct s. cbn in Hst, Hdc. subst. unfold_handlers H. run_cases_st;
      (repeat (split; [reflexivity |]); eexists; split; [trace_eq | reflexivity]).
  - injection H as <-. sstate.
    repeat (split; [congruence |]). eexists; split; [trace_eq | reflexivity].
Qed.

(** X9. Once duty-cycling is switched off and idle, it stays so under
    every input that is not a SET request and in which the driver raises
    no RX_COMPLETE: timer expiries, radio interrupts, packets to send,
    GET requests, retransmission requests and the thread's handling of
    whatever is in its mailbox leave [dutycycle_state] at [DUTY_INIT] and
    the timer disarmed. *)
Theorem disabled_stays_idle (cfg : config) (ins : list input) :
  forall s s',
    disabled_idle s ->
    forallb leaves_init_alone ins = true ->
    run cfg ins s = Ok s' ->
    disabled_idle s'.
Proof.
  induction ins as [| i ins IH]; intros s s' Hinv Hins H; simpl in H.
  - injection H as <-. exact Hinv.
  - simpl in Hins. apply andb_true_iff in Hins as [Hi Hins].
    destruct (step cfg i s) as [s1|] eqn:Hs; [| discriminate H]. simpl in H.
    apply (IH s1 s'); [| exact Hins | exact H]. clear IH H Hins s'.
    destruct Hinv as (Hst & Hdc & Ht & Hmb). unfold disabled_idle.
    destruct i; cbn [step] in Hs; try discriminate Hi.
    + rewrite Ht in Hs. injection Hs as <-. auto.
    + unfold _event_cb in Hs. sstate. injection Hs as <-. sstate.
      rewrite forallb_app, Hmb. auto.
    + injection Hs as <-. sstate. rewrite forallb_app, Hmb. auto.
    + injection Hs as <-. sstate. rewrite forallb_app, Hmb. auto.
    + injection Hs as <-. unfold send_packet. sstate.
      rewrite forallb_app, Hmb. auto.
    + destruct (mbox s) as [| m rest] eqn:Hbox; [injection Hs as <-; rewrite Hbox; auto |].
      simpl in Hmb. apply andb_true_iff in Hmb as [Hm Hrest].
      assert (Hcase : m = M_NETDEV_EVENT \/ m <> M_NETDEV_EVENT)
        by (destruct m; (left; reflexivity) || (right; discriminate)).
      destruct Hcase as [-> | Hne].
      * cbn [thread_dispatch] in Hs. unfold handle_NETDEV_EVENT in Hs. sstate.
        destruct (driver_isr cfg (isr_events o) (set_irq_pending false (set_mbox rest s)))
          as [s2|] eqn:Hisr; [| discriminate Hs].
        destruct (driver_isr_keeps_init cfg _ Hi
                    (set_irq_pending false (set_mbox rest s)) s2 Hst Hisr)
          as [Hst2 Ht2].
        sstate.
        destruct (driver_isr_effects cfg _ _ s2 Hisr)
          as (_ & _ & Hdc2 & _ & _ & _ & _ & acts & posted & _ & Hp & _ & _ & Hcp).
        sstate. injection Hs as <-.
        destruct (beacon_pending s2 && negb (radio_busy s2)); sstate;
          rewrite Hp, !forallb_app, Hrest, (callback_posted_no_set _ Hcp);
          repeat split; congruence.
      * destruct (thread_dispatch_keeps_init cfg m o (set_mbox rest s) s1 Hm Hne Hst Hdc Hs)
          as (Hst1 & Hdc1 & Ht1 & posted & Hp & Hnp).
        sstate. rewrite Hp, forallb_app, Hrest, Hnp. repeat split; congruence.
Qed.

(** ** The driver's send functions *)

Lemma callback_action_no_driver_tx (acts : list action) :
  forallb callback_action acts = true -> existsb is_driver_tx acts = false.
Proof.
  induction acts as [| a acts IH]; simpl; [reflexivity |].
  intros H. apply andb_true_iff in H as [H1 H2].
  rewrite (IH H2). destruct a; simpl in *; congruence.
Qed.

(** X10. The driver's [send_beacon], [send_without_release] and
    [resend_without_release] are called only while handling
    LINK_RETRANSMIT, and only when no interrupt is pending and the radio
    is not receiving. *)
Theorem driver_tx_only_when_idle
    (cfg : config) (m : mac_msg) (o : oracle) (s s' : state) :
  thread_dispatch cfg m o s = Ok s' ->
  exists acts,
    out s' = out s ++ acts
    /\ (existsb is_driver_tx acts = true ->
        irq_pending s = false /\ rx o = false
        /\ exists pkt, m = M_LINK_RETRANSMIT pkt).
Proof.
  intros H. destruct m; cbn [thread_dispatch] in H.
  - unfold_handlers H. run_cases;
      (eexists; split; [trace_eq | simpl; intros; congruence]).
  - unfold handle_REMOVE_QUEUE in H.
    destruct (msg_queue_remove_head s) as [s1|] eqn:Hrm; [| discriminate H].
    destruct (msg_queue_remove_head_frame s s1 Hrm) as (hd & q' & _ & _ & ->).
    unfold_handlers H. run_cases;
      (eexists; split; [trace_eq | simpl; intros; congruence]).
  - unfold_handlers H. run_cases;
      (eexists; split; [trace_eq | simpl; intros; congruence]).
  - unfold handle_NETDEV_EVENT in H. sstate.
    destruct (driver_isr cfg (isr_events o) (set_irq_pending false s))
      as [s1|] eqn:Hisr; [| discriminate H].
    destruct (driver_isr_effects cfg _ _ s1 Hisr)
      as (_ & _ & _ & _ & _ & _ & _ & acts & posted & Ha & _ & Hc & _ & _).
    sstate. injection H as <-.
    pose proof (callback_action_no_driver_tx acts Hc) as Hn.
    destruct (beacon_pending s1 && negb (radio_busy s1)); sstate.
    + exists (acts ++ [A_send_with_retries NULL]). rewrite Ha, <- app_assoc.
      split; [reflexivity |]. rewrite existsb_app, Hn. simpl. intros; congruence.
    + exists acts. split; [exact Ha |]. rewrite Hn. intros; congruence.
  - unfold_handlers H.
    destruct (pending_num s <? NETDEV2_PKT_QUEUE_SIZE); cbn [snd] in H;
      run_cases; (eexists; split; [trace_eq | simpl; intros; congruence]).
  - unfold_handlers H. destruct req as [[] |]; run_cases;
      (eexists; split; [trace_eq | simpl; intros; congruence]).
  - unfold_handlers H. run_cases.
    eexists; split; [trace_eq | simpl; intros; congruence].
  - unfold_handlers H.
    destruct (irq_pending s) eqn:Hi, (rx o) eqn:Hr; cbn [negb andb] in H;
      run_cases;
      (eexists; split; [trace_eq | simpl; intros; try congruence; eauto]).
  - injection H as <-. eexists; split; [trace_eq | simpl; intros; congruence].
Qed.

(** ** Who releases packet buffers *)

(** X11. Packet buffers are released only while handling REMOVE_QUEUE
    (the head of the queue) or NETDEV2_MSG_TYPE_EVENT (a received packet
    nobody takes): no other message, and in particular neither SND on a
    full queue nor a final TX failure reported through LINK_RETRANSMIT,
    releases anything. *)
Theorem release_only_on_remove_or_rx
    (cfg : config) (m : mac_msg) (o : oracle) (s s' : state) :
  m <> M_REMOVE_QUEUE ->
  m <> M_NETDEV_EVENT ->
  thread_dispatch cfg m o s = Ok s' ->
  exists acts,
    out s' = out s ++ acts /\ existsb is_pktbuf_release acts = false.
Proof.
  intros Hr Hn H. destruct m; cbn [thread_dispatch] in H; try congruence.
  - unfold_handlers H. run_cases; (eexists; split; [trace_eq | reflexivity]).
  - unfold_handlers H. run_cases; (eexists; split; [trace_eq | reflexivity]).
  - unfold_handlers H.
    destruct (pending_num s <? NETDEV2_PKT_QUEUE_SIZE); cbn [snd] in H;
      run_cases; (eexists; split; [trace_eq | reflexivity]).
  - unfold_handlers H. destruct req as [[] |]; run_cases;
      (eexists; split; [trace_eq | reflexivity]).
  - unfold_handlers H. run_cases. eexists; split; [trace_eq | reflexivity].
  - unfold_handlers H. run_cases; (eexists; split; [trace_eq | reflexivity]).
  - injection H as <-. eexists; split; [trace_eq | reflexivity].
Qed.

(** ** The queue array *)

Lemma thread_dispatch_queue_shape (cfg : config) (m : mac_msg) (o : oracle)
    (s s' : state) :
  thread_dispatch cfg m o s = Ok s' ->
  length (pkt_queue s') = length (pkt_queue s)
  /\ (pending_num s' = pending_num s
      \/ pending_num s' = u8 (pending_num s + 1)
      \/ pending_num s' = u8 (pending_num s - 1)).
Proof.
  intros H. destruct m; cbn [thread_dispatch] in H.
  - unfold_handlers H. run_cases; auto.
  - unfold handle_REMOVE_QUEUE in H.
    destruct (msg_queue_remove_head s) as [s1|] eqn:Hrm; [| discriminate H].
    destruct (msg_queue_remove_head_frame s s1 Hrm) as (hd & q' & _ & Hl & ->).
    unfold_handlers H. run_cases; auto.
  - unfold_handlers H. run_cases; auto.
  - unfold handle_NETDEV_EVENT in H. sstate.
    destruct (driver_isr cfg (isr_events o) (set_irq_pending false s))
      as [s1|] eqn:Hisr; [| discriminate H].
    destruct (driver_isr_effects cfg _ _ s1 Hisr) as (Hq & Hp & _).
    sstate. injection H as <-.
    destruct (beacon_pending s1 && negb (radio_busy s1)); sstate;
      rewrite Hq, Hp; auto.
  - unfold_handlers H.
    destruct (pending_num s <? NETDEV2_PKT_QUEUE_SIZE); cbn [snd] in H;
      run_cases; rewrite ?length_insert; auto.
  - unfold_handlers H. destruct req as [[] |]; run_cases; auto.
  - unfold_handlers H. run_cases. auto.
  - unfold_handlers H. run_cases; auto.
  - injection H as <-. auto.
Qed.

(** X12. In every reachable state [pkt_queue] has its 128 slots and
    [pending_num] is an 8-bit value: no handler resizes the array, and
    [msg_queue_send] always finds slot 0. *)
Theorem queue_array_invariant (cfg : config) (s : state) :
  reachable cfg s ->
  length (pkt_queue s) = 128%nat
  /\ 0 <= pending_num s < 256
  /\ exists hd, pkt_queue s !! 0%nat = Some hd.
Proof.
  intros [ins Hrun].
  assert (Hinv : length (pkt_queue s) = 128%nat /\ 0 <= pending_num s < 256).
  { revert Hrun.
    assert (Hinit : length (pkt_queue init) = 128%nat /\ 0 <= pending_num init < 256)
      by (split; [reflexivity | simpl; lia]).
    revert Hinit. generalize init as s0. revert s.
    induction ins as [| i ins IH]; intros s s0 Hs0 H; simpl in H.
    - injection H as <-. exact Hs0.
    - destruct (step cfg i s0) as [s1|] eqn:Hs; [| discriminate H]. simpl in H.
      apply (IH s s1); [| exact H]. clear IH H.
      destruct Hs0 as [Hl Hp].
      destruct i; cbn [step] in Hs.
      + destruct (timer s0); injection Hs as <-; [| auto].
        unfold dutycycle_cb. sstate.
        destruct (dutycycle_state s0); sstate; auto;
          match goal with |- context [if ?b then _ else _] => destruct b end;
          sstate; auto.
      + unfold _event_cb in Hs. sstate. injection Hs as <-. auto.
      + injection Hs as <-. auto.
      + injection Hs as <-. auto.
      + injection Hs as <-. auto.
      + injection Hs as <-. auto.
      + destruct (mbox s0) as [| m rest]; [injection Hs as <-; auto |].
        destruct (thread_dispatch_queue_shape cfg m o _ s1 Hs) as [Hl1 Hp1].
        sstate. split; [congruence |].
        destruct Hp1 as [-> | [-> | ->]]; [exact Hp | apply u8_range | apply u8_range]. }
  destruct Hinv as [Hl Hp]. split; [exact Hl |]. split; [exact Hp |].
  apply lookup_lt_is_Some_2. lia.
Qed.

(** ** Sending a packet *)

(** X13. Outside [DUTY_INIT], SND submits the packet at once exactly when
    the queue was empty, the node is in [DUTY_SLEEP] and the submission
    policy holds; the state then becomes [DUTY_TX_DATA] and the packet
    submitted is the one just queued.  In every other case the packet is
    only queued (or lost on a full queue): nothing is submitted and
    neither the state nor [radio_busy] changes. *)
Theorem handle_SND_immediate_or_queued
    (cfg : config) (sender pkt : Z) (o : oracle) (s : state) :
  length (pkt_queue s) = 128%nat ->
  0 <= pending_num s <= 128 ->
  dutycycle_state s <> DUTY_INIT ->
  exists s',
    handle_SND cfg sender pkt o s = Ok s'
    /\ if (pending_num s =? 0) && may_submit o s
          && dutycycle_state_eqb (dutycycle_state s) DUTY_SLEEP
       then
         dutycycle_state s' = DUTY_TX_DATA
         /\ radio_busy s' = true /\ sending_beacon s' = false
         /\ pending_num s' = 1
         /\ out s' = out s ++ [A_send_with_retries pkt]
       else
         dutycycle_state s' = dutycycle_state s
         /\ radio_busy s' = radio_busy s
         /\ out s' = out s ++ (if pending_num s <? NETDEV2_PKT_QUEUE_SIZE
                               then [] else [A_DEBUG DBG_QUEUE_LOSS]).
Proof.
  intros Hlen Hn Hinit.
  unfold handle_SND, msg_queue_add, msg_queue_send, may_submit, NETDEV2_PKT_QUEUE_SIZE.
  destruct (pending_num s <? 128) eqn:Hlt; cbn [snd]; sstate.
  - apply Z.ltb_lt in Hlt. rewrite u8_small by lia.
    destruct (pending_num s =? 0) eqn:Hz.
    + apply Z.eqb_eq in Hz. rewrite Hz. change (0 + 1 >? 1) with false.
      change (Z.to_nat 0) with 0%nat.
      rewrite list_lookup_insert_eq by lia. cbn [content_ptr].
      destruct (dutycycle_state s) eqn:Hst; try congruence;
        cbn [dutycycle_state_eqb];
        destruct (radio_busy s) eqn:Hb, (irq_pending s), (rx o);
        cbn [negb andb orb];
        eexists; (split; [reflexivity |]); sstate;
        rewrite ?Hst, ?Hb, ?app_nil_r; repeat split.
    + apply Z.eqb_neq in Hz.
      assert (Hgt : (pending_num s + 1 >? 1) = true) by (apply Z.gtb_lt; lia).
      rewrite Hgt. cbn [andb orb].
      destruct (dutycycle_state s) eqn:Hst; try congruence;
        cbn [dutycycle_state_eqb];
        eexists; (split; [reflexivity |]); sstate;
        rewrite ?Hst, ?app_nil_r; repeat split.
  - apply Z.ltb_ge in Hlt.
    assert (Hz : (pending_num s =? 0) = false) by (apply Z.eqb_neq; lia).
    assert (Hgt : (pending_num s >? 1) = true) by (apply Z.gtb_lt; lia).
    rewrite Hz, Hgt. cbn [andb orb].
    destruct (dutycycle_state s) eqn:Hst; try congruence;
      cbn [dutycycle_state_eqb];
      eexists; (split; [reflexivity |]); sstate; rewrite ?Hst; repeat split.
Qed.

(** ** Reception *)

(** X14. RX_COMPLETE always disarms the timer and posts exactly one
    message.  After an RX_PENDING hint it moves to [DUTY_LISTEN] and
    consumes the hint; without a hint it moves to [DUTY_SLEEP] when the
    queue is empty and otherwise to [DUTY_TX_DATA], re-arming the timer
    with the current sleep interval and posting CHECK_QUEUE.  The queue
    and [radio_busy] are not touched. *)
Theorem rx_complete_outcomes (cfg : config) (o : cb_oracle) (s : state) :
  (exists s1,
     driver_isr cfg [(NETDEV2_EVENT_RX_PENDING, o); (NETDEV2_EVENT_RX_COMPLETE, o)] s
       = Ok s1
     /\ dutycycle_state s1 = DUTY_LISTEN
     /\ additional_wakeup s1 = false
     /\ timer s1 = None
     /\ mbox s1 = mbox s ++ [M_EVENT])
  /\ exists s2,
       _event_cb cfg NETDEV2_EVENT_RX_COMPLETE o s = Ok s2
       /\ additional_wakeup s2 = false
       /\ pending_num s2 = pending_num s /\ pkt_queue s2 = pkt_queue s
       /\ radio_busy s2 = radio_busy s
       /\ (if additional_wakeup s then
             dutycycle_state s2 = DUTY_LISTEN /\ timer s2 = None
             /\ mbox s2 = mbox s ++ [M_EVENT]
           else if pending_num s =? 0 then
             dutycycle_state s2 = DUTY_SLEEP /\ timer s2 = None
             /\ mbox s2 = mbox s ++ [M_EVENT]
           else
             dutycycle_state s2 = DUTY_TX_DATA
             /\ timer s2 = Some (get_sleep_interval cfg s)
             /\ mbox s2 = mbox s ++ [M_CHECK_QUEUE])
       /\ out s2 = out s ++
            (if recv_pkt o =? NULL then []
             else if dispatch_ok o then [A_dispatch_receive (recv_pkt o)]
             else [A_dispatch_receive (recv_pkt o); A_pktbuf_release (recv_pkt o)]).
Proof.
  split.
  - unfold driver_isr, _event_cb, _pass_on_packet. sstate.
    destruct (negb (recv_pkt o =? NULL)), (negb (dispatch_ok o));
      eexists; (split; [reflexivity |]); repeat split.
  - unfold _event_cb, _pass_on_packet. sstate.
    destruct (additional_wakeup s) eqn:Hw;
      [| destruct (pending_num s =? 0) eqn:Hz];
      destruct (recv_pkt o =? NULL), (dispatch_ok o); cbn [negb];
      eexists; (split; [reflexivity |]); sstate;
      rewrite ?Hw, ?app_nil_r, <- ?app_assoc; repeat split.
Qed.

(** ** The timer callback outside DUTY_SLEEP *)

(** X15. The timer callback never touches the queue, [radio_busy] or the
    trace.  In [DUTY_LISTEN] it moves to [DUTY_TX_DATA], re-arms the timer
    with the current sleep interval and posts CHECK_QUEUE when packets are
    queued, and moves to [DUTY_SLEEP] with an EVENT message when not; in
    [DUTY_TX_DATA] it only changes the state to
    [DUTY_TX_DATA_BEFORE_BEACON]; in [DUTY_INIT], [DUTY_TX_BEACON] and
    [DUTY_TX_DATA_BEFORE_BEACON] it does nothing. *)
Theorem dutycycle_cb_other_states (cfg : config) (s : state) :
  let s' := dutycycle_cb cfg s in
  pkt_queue s' = pkt_queue s /\ pending_num s' = pending_num s
  /\ radio_busy s' = radio_busy s /\ out s' = out s
  /\ sleep_interval_shift s' = sleep_interval_shift s
  /\ match dutycycle_state s with
     | DUTY_LISTEN =>
         if pending_num s >? 0 then
           dutycycle_state s' = DUTY_TX_DATA
           /\ timer s' = Some (get_sleep_interval cfg s)
           /\ mbox s' = mbox s ++ [M_CHECK_QUEUE]
         else
           dutycycle_state s' = DUTY_SLEEP
           /\ timer s' = timer s
           /\ mbox s' = mbox s ++ [M_EVENT]
     | DUTY_TX_DATA =>
         dutycycle_state s' = DUTY_TX_DATA_BEFORE_BEACON
         /\ timer s' = timer s /\ mbox s' = mbox s
     | DUTY_SLEEP => mbox s' = mbox s ++ [M_EVENT]
     | _ => s' = s
     end.
Proof.
  unfold dutycycle_cb.
  destruct (dutycycle_state s) eqn:Hst; sstate; repeat split;
    try (destruct (negb (pending_num s =? 0)); reflexivity);
    destruct (pending_num s >? 0); repeat split.
Qed.

(** ** Draining the queue before the beacon *)

Lemma run_app (cfg : config) (a b : list input) (s : state) :
  run cfg (a ++ b) s = bind (run cfg a s) (run cfg b).
Proof.
  revert s. induction a as [| i a IH]; intros s; simpl; [reflexivity |].
  destruct (step cfg i s); simpl; [apply IH | reflexivity].
Qed.

Lemma forallb_lookup_used (ms : list msg_t) (j : nat) (m : msg_t) :
  forallb used_slot ms = true -> ms !! j = Some m -> unused_slot m = false.
Proof.
  revert j. induction ms as [| x ms IH]; intros j H Hj; [discriminate Hj |].
  simpl in H. apply andb_true_iff in H as [Hx Hms].
  destruct j as [| j]; simpl in Hj.
  - injection Hj as <-. unfold used_slot in Hx. destruct (unused_slot x); [discriminate Hx | reflexivity].
  - exact (IH j Hms Hj).
Qed.

(** [msg_queue_remove_head] on a queue whose contents are [m :: rest]. *)
Lemma remove_head_of_contents (s : state) (m : msg_t) (rest : list msg_t) :
  length (pkt_queue s) = 128%nat ->
  pending_num s = Z.of_nat (S (length rest)) ->
  (S (length rest) <= 128)%nat ->
  queue_contents s = m :: rest ->
  forallb used_slot rest = true ->
  exists q',
    msg_queue_remove_head s =
      Ok (set_pkt_queue q'
            (set_pending_num (Z.of_nat (length rest))
               (emit (A_pktbuf_release (content_ptr m)) s)))
    /\ length q' = 128%nat
    /\ take (length rest) q' = rest.
Proof.
  intros Hlen Hn Hle Hc Hu. unfold queue_contents in Hc.
  rewrite Hn, Nat2Z.id in Hc.
  assert (Hlk : forall j, (j < S (length rest))%nat ->
                          pkt_queue s !! j = (m :: rest) !! j).
  { intros j Hj. rewrite <- Hc. symmetry. apply lookup_take_lt. exact Hj. }
  assert (Hq : queue_holds s).
  { split; [exact Hlen |]. split; [lia |].
    intros j x Hj Hx. rewrite Hn, Nat2Z.id in Hj.
    rewrite Hlk in Hx by lia. destruct j as [| j]; [lia |]. simpl in Hx.
    exact (forallb_lookup_used rest j x Hu Hx). }
  destruct (msg_queue_remove_head_fifo s m Hq) as (q' & Hrm & Hl & Hfifo).
  { rewrite Hlk by lia. reflexivity. }
  exists q'. rewrite Hrm.
  replace (pending_num s - 1) with (Z.of_nat (length rest)) by lia.
  split; [reflexivity |]. split; [exact Hl |].
  apply list_eq. intros k.
  destruct (decide (k < length rest)%nat) as [Hk | Hk].
  - rewrite lookup_take_lt by exact Hk.
    rewrite Hfifo by lia. rewrite Hlk by lia. reflexivity.
  - rewrite lookup_take_ge by lia. symmetry. apply lookup_ge_None_2. lia.
Qed.

Lemma take_S_head (q : list msg_t) (k : nat) (m : msg_t) (r : list msg_t) :
  take (S k) q = m :: r -> q !! 0%nat = Some m.
Proof. destruct q; simpl; intros H; [discriminate H | injection H as -> _; reflexivity]. Qed.

(** The thread takes the first message of its mailbox. *)
Lemma step_thread (cfg : config) (o : oracle) (s : state) (m : mac_msg)
    (rest : list mac_msg) :
  mbox s = m :: rest ->
  step cfg (IN_THREAD o) s = thread_dispatch cfg m o (set_mbox rest s).
Proof. intros H. cbn [step]. rewrite H. reflexivity. Qed.

(** NETDEV2_MSG_TYPE_EVENT with the one event TX_COMPLETE, while a data
    frame of a non-empty queue is in flight before the beacon. *)
Lemma handle_NETDEV_EVENT_data_acked (cfg : config) (s : state) :
  dutycycle_state s = DUTY_TX_DATA_BEFORE_BEACON ->
  0 < pending_num s ->
  beacon_pending s = false ->
  handle_NETDEV_EVENT cfg (isr_raises NETDEV2_EVENT_TX_COMPLETE) s
  = Ok (msg_send M_CHECK_QUEUE
          (msg_send M_REMOVE_QUEUE
             (xtimer_remove
                (reset_sleep_interval
                   (set_radio_busy false
                      (emit A_retry_send_succeeded
                         (emit A_csma_send_succeeded
                            (set_irq_pending false s)))))))).
Proof.
  intros Hst Hn Hbp.
  unfold handle_NETDEV_EVENT, isr_raises. cbn [isr_events driver_isr].
  assert (Hgt : (pending_num s >? 0) = true) by (apply Z.gtb_lt; lia).
  unfold _event_cb. sstate. rewrite Hst, Hgt.
  cbn [dutycycle_state_eqb negb]. sstate. rewrite Hbp. cbn [andb]. reflexivity.
Qed.

(** CHECK_QUEUE while a frame is in flight does nothing. *)
Lemma handle_CHECK_QUEUE_busy (o : oracle) (s : state) :
  radio_busy s = true -> handle_CHECK_QUEUE o s = Ok s.
Proof.
  intros Hb. unfold handle_CHECK_QUEUE, may_submit. rewrite Hb.
  cbn [negb andb]. rewrite andb_false_r. reflexivity.
Qed.

Lemma set_dutycycle_state_same (d : dutycycle_state_t) (s : state) :
  dutycycle_state s = d -> set_dutycycle_state d s = s.
Proof. intros <-. destruct s. reflexivity. Qed.

(** REMOVE_QUEUE with the radio free and the queue contents [m :: rest]. *)
Lemma handle_REMOVE_QUEUE_drain (s : state) (m : msg_t) (rest : list msg_t) :
  dutycycle_state s = DUTY_TX_DATA_BEFORE_BEACON ->
  radio_busy s = false ->
  irq_pending s = false ->
  length (pkt_queue s) = 128%nat ->
  pending_num s = Z.of_nat (S (length rest)) ->
  (S (length rest) <= 128)%nat ->
  queue_contents s = m :: rest ->
  forallb used_slot rest = true ->
  exists q',
    length q' = 128%nat
    /\ take (length rest) q' = rest
    /\ handle_REMOVE_QUEUE quiet s
       = Ok (emit (A_send_with_retries
                     (match rest with [] => NULL | m' :: _ => content_ptr m' end))
               (set_sending_beacon (match rest with [] => true | _ => false end)
                  (set_radio_busy true
                     (set_dutycycle_state
                        (match rest with
                         | [] => DUTY_TX_BEACON
                         | _ => DUTY_TX_DATA_BEFORE_BEACON
                         end)
                        (set_pkt_queue q'
                           (set_pending_num (Z.of_nat (length rest))
                              (emit (A_pktbuf_release (content_ptr m)) s))))))).
Proof.
  intros Hst Hb Hi Hlen Hn Hle Hc Hu.
  destruct (remove_head_of_contents s m rest Hlen Hn Hle Hc Hu) as (q' & Hrm & Hl & Ht).
  exists q'. split; [exact Hl |]. split; [exact Ht |].
  unfold handle_REMOVE_QUEUE. rewrite Hrm. cbn [bind]. sstate.
  unfold may_submit, send_beacon_safely, msg_queue_send, quiet. sstate.
  rewrite Hb, Hi, Hst. cbn [rx negb andb orb dutycycle_state_eqb].
  destruct rest as [| m' rest'].
  - cbn [length Z.of_nat Z.eqb negb]. reflexivity.
  - rewrite (take_S_head q' _ _ _ Ht).
    change (Z.of_nat (length (m' :: rest')) =? 0) with false. cbn [negb].
    rewrite set_dutycycle_state_same by exact Hst. reflexivity.
Qed.

(** One acknowledged frame while draining. *)
Lemma drain_one_step (cfg : config) (m : msg_t) (rest : list msg_t) (s : state) :
  draining (m :: rest) s ->
  exists s1,
    run cfg drain_one s = Ok s1
    /\ out s1 = out s ++
         [A_csma_send_succeeded; A_retry_send_succeeded;
          A_pktbuf_release (content_ptr m);
          A_send_with_retries
            (match rest with [] => NULL | m' :: _ => content_ptr m' end)]
    /\ sleep_interval_shift s1 = 0
    /\ match rest with
       | [] =>
           dutycycle_state s1 = DUTY_TX_BEACON /\ pending_num s1 = 0
           /\ radio_busy s1 = true /\ sending_beacon s1 = true
           /\ mbox s1 = []
       | _ :: _ => draining rest s1
       end.
Proof.
  intros (Hst & Hb & Hi & Hbp & Hmb & Hlen & Hn & Hle & Hc & Hu).
  simpl in Hu. apply andb_true_iff in Hu as [_ Hu].
  cbn [length] in Hn, Hle.
  unfold drain_one. cbn [run].
  change (step cfg IN_IRQ s)
    with (Ok (msg_send M_NETDEV_EVENT (set_irq_pending true s))).
  cbn [bind].
  rewrite (step_thread cfg _ _ M_NETDEV_EVENT [])
    by (cbn [mbox msg_send set_mbox set_irq_pending]; rewrite Hmb; reflexivity).
  cbn [thread_dispatch].
  rewrite handle_NETDEV_EVENT_data_acked by (first [exact Hst | exact Hbp | cbn [pending_num set_mbox msg_send set_irq_pending]; lia]).
  cbn [bind].
  rewrite (step_thread cfg _ _ M_REMOVE_QUEUE [M_CHECK_QUEUE])
    by (cbn [mbox msg_send set_mbox]; reflexivity).
  cbn [thread_dispatch].
  match goal with
  | |- context [handle_REMOVE_QUEUE quiet ?st] =>
      destruct (handle_REMOVE_QUEUE_drain st m rest)
        as (q' & Hl & Ht & Hrq);
        [exact Hst | reflexivity | reflexivity | exact Hlen | exact Hn | lia
        | exact Hc | exact Hu |];
        rewrite Hrq; clear Hrq
  end.
  cbn [bind].
  rewrite (step_thread cfg _ _ M_CHECK_QUEUE [])
    by reflexivity.
  cbn [thread_dispatch].
  rewrite handle_CHECK_QUEUE_busy by reflexivity.
  eexists. split; [reflexivity |].
  split; [cbn [out emit set_out set_mbox set_sending_beacon set_radio_busy
               set_dutycycle_state set_pkt_queue set_pending_num msg_send
               xtimer_remove reset_sleep_interval set_irq_pending
               set_sleep_interval_shift set_timer];
          rewrite <- !app_assoc; reflexivity |].
  split; [reflexivity |].
  destruct rest as [| m' rest'].
  - repeat split.
  - unfold draining, queue_contents. sstate. rewrite Nat2Z.id.
    repeat split; try assumption; cbn [length] in *; lia.
Qed.

(** X16. Draining before the beacon: from a state that is draining the
    packets [ms], one acknowledged frame after the other empties the
    queue.  Each packet is released once and in queue order, each next
    packet is submitted right after the release of the one before, and
    after the last release the state is [DUTY_TX_BEACON] with the beacon
    submitted; [sleep_interval_shift] has been reset. *)
Theorem drain_before_beacon (cfg : config) (ms : list msg_t) :
  forall s,
    draining ms s ->
    exists s',
      run cfg (concat (replicate (length ms) drain_one)) s = Ok s'
      /\ out s' = out s ++ drain_trace ms
      /\ dutycycle_state s' = DUTY_TX_BEACON
      /\ pending_num s' = 0
      /\ radio_busy s' = true
      /\ sending_beacon s' = true
      /\ sleep_interval_shift s' = 0
      /\ mbox s' = [].
Proof.
  induction ms as [| m rest IH]; intros s Hd.
  - destruct Hd as (_ & _ & _ & _ & _ & _ & _ & Hle & _). simpl in Hle. lia.
  - destruct (drain_one_step cfg m rest s Hd) as (s1 & Hrun & Hout & Hsh & Hrest).
    cbn [length replicate concat]. rewrite run_app, Hrun. cbn [bind].
    destruct rest as [| m' rest'].
    + cbn [length replicate concat run]. exists s1.
      destruct Hrest as (H1 & H2 & H3 & H4 & H5).
      cbn [drain_trace]. rewrite app_nil_r.
      repeat split; assumption.
    + destruct (IH s1 Hrest) as (s' & Hrun' & Hout' & Hfin).
      exists s'. split; [exact Hrun' |]. split; [| exact Hfin].
      rewrite Hout', Hout, <- app_assoc. reflexivity.
Qed.

(** ** Wake-up cycles *)

(** Reading a field of an updated state, in the goal only. *)
Ltac sfield :=
  cbn [sleep_interval_shift dutycycling dutycycle_state timer pending_num
       radio_busy additional_wakeup retry_rexmit sending_beacon irq_pending
       beacon_pending pkt_queue mbox out
       set_sleep_interval_shift set_dutycycling set_dutycycle_state set_timer
       set_pending_num set_radio_busy set_additional_wakeup set_retry_rexmit
       set_sending_beacon set_irq_pending set_beacon_pending set_pkt_queue
       set_mbox set_out emit msg_send xtimer_set xtimer_remove
       reset_sleep_interval send_packet].

Lemma set_sleep_interval_shift_same (n : Z) (s : state) :
  sleep_interval_shift s = n -> set_sleep_interval_shift n s = s.
Proof. intros <-. destruct s. reflexivity. Qed.

(** [backoff_sleep_interval] reads and writes [sleep_interval_shift] only. *)
Lemma backoff_sleep_interval_shift_only (cfg : config) (s s1 sb : state) :
  sleep_interval_shift s1 = sleep_interval_shift s ->
  backoff_sleep_interval cfg s = Ok sb ->
  backoff_sleep_interval cfg s1
  = Ok (set_sleep_interval_shift (sleep_interval_shift sb) s1).
Proof.
  intros H. unfold backoff_sleep_interval, shifted_interval. cbv zeta.
  rewrite H.
  destruct (_ <? _).
  - destruct (_ >=? _); cbn [assert bind]; intros Hb; [| discriminate Hb].
    injection Hb as <-. reflexivity.
  - intros Hb. injection Hb as <-.
    rewrite set_sleep_interval_shift_same by exact H. reflexivity.
Qed.

Lemma get_sleep_interval_shift_only (cfg : config) (s s1 : state) :
  sleep_interval_shift s1 = sleep_interval_shift s ->
  get_sleep_interval cfg s1 = get_sleep_interval cfg s.
Proof.
  intros H. unfold get_sleep_interval, shifted_interval. cbv zeta.
  rewrite H. reflexivity.
Qed.

(** The timer expires on a sleeping node with an empty queue. *)
Lemma step_timer_sleep_empty (cfg : config) (s : state) (d : Z) :
  timer s = Some d ->
  dutycycle_state s = DUTY_SLEEP ->
  pending_num s = 0 ->
  step cfg IN_TIMER s
  = Ok (msg_send M_EVENT (set_dutycycle_state DUTY_TX_BEACON (set_timer None s))).
Proof.
  intros Ht Hst Hn. cbn [step]. rewrite Ht. unfold dutycycle_cb. sfield.
  rewrite Hst, Hn. reflexivity.
Qed.

(** The listen window runs out with an empty queue. *)
Lemma step_timer_listen_empty (cfg : config) (s : state) (d : Z) :
  timer s = Some d ->
  dutycycle_state s = DUTY_LISTEN ->
  pending_num s = 0 ->
  step cfg IN_TIMER s
  = Ok (msg_send M_EVENT (set_dutycycle_state DUTY_SLEEP (set_timer None s))).
Proof.
  intros Ht Hst Hn. cbn [step]. rewrite Ht. unfold dutycycle_cb. sfield.
  rewrite Hst, Hn. reflexivity.
Qed.

(** EVENT in [DUTY_TX_BEACON] with the radio free. *)
Lemma handle_EVENT_beacon (cfg : config) (s : state) :
  dutycycling s = NETOPT_ENABLE ->
  dutycycle_state s = DUTY_TX_BEACON ->
  radio_busy s = false ->
  irq_pending s = false ->
  handle_EVENT cfg quiet s
  = Ok (emit (A_send_with_retries NULL)
          (set_sending_beacon true (set_radio_busy true (xtimer_remove s)))).
Proof.
  intros Hdc Hst Hb Hi. unfold handle_EVENT. rewrite Hdc, Hst.
  unfold send_beacon_safely, quiet. cbv zeta. sfield. rewrite Hb, Hi.
  reflexivity.
Qed.

(** EVENT in [DUTY_SLEEP]. *)
Lemma handle_EVENT_sleep (cfg : config) (o : oracle) (s : state) :
  dutycycling s = NETOPT_ENABLE ->
  dutycycle_state s = DUTY_SLEEP ->
  handle_EVENT cfg o s
  = Ok (xtimer_set (get_sleep_interval cfg s)
          (emit (A_driver_set_state NETOPT_STATE_SLEEP) s)).
Proof.
  intros Hdc Hst. unfold handle_EVENT. rewrite Hdc, Hst. cbv zeta.
  rewrite (get_sleep_interval_shift_only cfg s) by reflexivity. reflexivity.
Qed.

(** EVENT in [DUTY_LISTEN]. *)
Lemma handle_EVENT_listen (cfg : config) (o : oracle) (s : state) :
  dutycycling s = NETOPT_ENABLE ->
  dutycycle_state s = DUTY_LISTEN ->
  handle_EVENT cfg o s
  = Ok (xtimer_set (DUTYCYCLE_WAKEUP_INTERVAL cfg)
          (emit (A_driver_set_state NETOPT_STATE_IDLE)
             (emit A_driver_get_state s))).
Proof.
  intros Hdc Hst. unfold handle_EVENT. rewrite Hdc, Hst. reflexivity.
Qed.

(** LINK_RETRANSMIT of a beacon with no interrupt pending. *)
Lemma handle_LINK_RETRANSMIT_beacon (cfg : config) (pkt : Z) (s : state) :
  irq_pending s = false ->
  sending_beacon s = true ->
  handle_LINK_RETRANSMIT cfg pkt quiet s
  = Ok (emit (A_DEBUG DBG_UNKNOWN_COMMAND) (emit A_driver_send_beacon s)).
Proof.
  intros Hi Hsb. unfold handle_LINK_RETRANSMIT, quiet. cbv zeta.
  cbn [rx drv_res]. rewrite Hi, Hsb. reflexivity.
Qed.

(** CHECK_QUEUE with an empty queue does nothing. *)
Lemma handle_CHECK_QUEUE_empty (o : oracle) (s : state) :
  pending_num s = 0 -> handle_CHECK_QUEUE o s = Ok s.
Proof.
  intros Hn. unfold handle_CHECK_QUEUE. rewrite Hn.
  cbn [Z.eqb negb]. rewrite andb_false_r. reflexivity.
Qed.

(** NETDEV2_MSG_TYPE_EVENT with the one event TX_COMPLETE while the
    beacon is in flight. *)
Lemma handle_NETDEV_EVENT_beacon_acked (cfg : config) (s sb : state) :
  dutycycle_state s = DUTY_TX_BEACON ->
  beacon_pending s = false ->
  backoff_sleep_interval cfg s = Ok sb ->
  handle_NETDEV_EVENT cfg (isr_raises NETDEV2_EVENT_TX_COMPLETE) s
  = Ok (msg_send M_CHECK_QUEUE
          (msg_send M_EVENT
             (set_dutycycle_state DUTY_SLEEP
                (set_sleep_interval_shift (sleep_interval_shift sb)
                   (xtimer_remove
                      (set_radio_busy false
                         (emit A_retry_send_succeeded
                            (emit A_csma_send_succeeded
                               (set_irq_pending false s))))))))).
Proof.
  intros Hst Hbp Hbo.
  unfold handle_NETDEV_EVENT, isr_raises. cbn [isr_events driver_isr].
  unfold _event_cb. cbv zeta. sfield. rewrite Hst.
  cbn [dutycycle_state_eqb negb].
  rewrite (backoff_sleep_interval_shift_only cfg s _ sb) by (reflexivity || exact Hbo).
  cbn [bind]. sfield. rewrite Hbp. reflexivity.
Qed.

(** The same with TX_COMPLETE_PENDING. *)
Lemma handle_NETDEV_EVENT_beacon_acked_pending (cfg : config) (s : state) :
  dutycycle_state s = DUTY_TX_BEACON ->
  beacon_pending s = false ->
  handle_NETDEV_EVENT cfg (isr_raises NETDEV2_EVENT_TX_COMPLETE_PENDING) s
  = Ok (msg_send M_CHECK_QUEUE
          (msg_send M_EVENT
             (set_dutycycle_state DUTY_LISTEN
                (xtimer_remove
                   (reset_sleep_interval
                      (set_radio_busy false
                         (emit A_retry_send_succeeded
                            (emit A_csma_send_succeeded
                               (set_irq_pending false s))))))))).
Proof.
  intros Hst Hbp.
  unfold handle_NETDEV_EVENT, isr_raises. cbn [isr_events driver_isr].
  unfold _event_cb. cbv zeta. sfield. rewrite Hst.
  cbn [dutycycle_state_eqb negb bind]. sfield. rewrite Hbp. reflexivity.
Qed.

(** X17. An idle wake-up: from a sleeping node with an empty queue, the
    timer expiry, the beacon and its TX_COMPLETE bring the node back to
    [DUTY_SLEEP] with the radio put to sleep, [sleep_interval_shift] as
    [backoff_sleep_interval] leaves it and the timer armed with the new
    sleep interval; the only frame handed to the driver is the beacon. *)
Theorem idle_beacon_cycle (cfg : config) (s sb : state) :
  sleeping_idle s ->
  backoff_sleep_interval cfg s = Ok sb ->
  exists s',
    run cfg beacon_cycle s = Ok s'
    /\ sleeping_idle s'
    /\ sleep_interval_shift s' = sleep_interval_shift sb
    /\ timer s' = Some (get_sleep_interval cfg sb)
    /\ pkt_queue s' = pkt_queue s
    /\ out s' = out s ++
         [A_send_with_retries NULL; A_driver_send_beacon;
          A_DEBUG DBG_UNKNOWN_COMMAND;
          A_csma_send_succeeded; A_retry_send_succeeded;
          A_driver_set_state NETOPT_STATE_SLEEP].
Proof.
  intros (Hdc & Hst & Hn & Hb & Hi & Hbp & Hmb & d & Ht) Hbo.
  unfold beacon_cycle. cbn [run].
  rewrite (step_timer_sleep_empty cfg s d Ht Hst Hn). cbn [bind].
  rewrite (step_thread cfg _ _ M_EVENT []) by (sfield; rewrite Hmb; reflexivity).
  cbn [thread_dispatch].
  rewrite handle_EVENT_beacon by (sfield; first [assumption | reflexivity]).
  cbn [bind].
  match goal with
  | |- context [step cfg (IN_SEND_PACKET ?p ?r) ?st] =>
      change (step cfg (IN_SEND_PACKET p r) st) with (Ok (send_packet p r st))
  end.
  cbn [bind].
  rewrite (step_thread cfg _ _ (M_LINK_RETRANSMIT NULL) []) by reflexivity.
  cbn [thread_dispatch].
  rewrite handle_LINK_RETRANSMIT_beacon by (sfield; first [assumption | reflexivity]).
  cbn [bind].
  match goal with
  | |- context [step cfg IN_IRQ ?st] =>
      change (step cfg IN_IRQ st)
        with (Ok (msg_send M_NETDEV_EVENT (set_irq_pending true st)))
  end.
  cbn [bind].
  rewrite (step_thread cfg _ _ M_NETDEV_EVENT []) by reflexivity.
  cbn [thread_dispatch].
  match goal with
  | |- context [handle_NETDEV_EVENT cfg _ ?st] =>
      rewrite (handle_NETDEV_EVENT_beacon_acked cfg st
                 (set_sleep_interval_shift (sleep_interval_shift sb) st));
        [| reflexivity | exact Hbp
         | exact (backoff_sleep_interval_shift_only cfg s st sb eq_refl Hbo)]
  end.
  cbn [bind].
  rewrite (step_thread cfg _ _ M_EVENT [M_CHECK_QUEUE]) by reflexivity.
  cbn [thread_dispatch].
  rewrite handle_EVENT_sleep by (sfield; first [assumption | reflexivity]).
  cbn [bind].
  rewrite (step_thread cfg _ _ M_CHECK_QUEUE []) by reflexivity.
  cbn [thread_dispatch].
  rewrite handle_CHECK_QUEUE_empty by exact Hn.
  eexists. split; [reflexivity |].
  split.
  { unfold sleeping_idle. sfield.
    repeat split; try assumption. eexists. reflexivity. }
  split; [reflexivity |].
  split; [sfield; f_equal; apply get_sleep_interval_shift_only; reflexivity |].
  split; [reflexivity |].
  sfield. rewrite <- !app_assoc. reflexivity.
Qed.

(** X18. A wake-up answered with frame pending: from a sleeping node, the
    beacon's TX_COMPLETE_PENDING opens a listen window ([DUTY_LISTEN],
    radio idle, timer armed with [DUTYCYCLE_WAKEUP_INTERVAL],
    [sleep_interval_shift] reset to 0); when the window runs out with
    nothing queued the node is asleep again, the radio put to sleep and
    the timer armed with the shortest sleep interval. *)
Theorem pending_beacon_listen_then_sleep (cfg : config) (s : state) :
  sleeping_idle s ->
  exists s1 s2,
    run cfg beacon_cycle_pending s = Ok s1
    /\ dutycycle_state s1 = DUTY_LISTEN
    /\ timer s1 = Some (DUTYCYCLE_WAKEUP_INTERVAL cfg)
    /\ sleep_interval_shift s1 = 0
    /\ radio_busy s1 = false
    /\ out s1 = out s ++
         [A_send_with_retries NULL; A_driver_send_beacon;
          A_DEBUG DBG_UNKNOWN_COMMAND;
          A_csma_send_succeeded; A_retry_send_succeeded;
          A_driver_get_state; A_driver_set_state NETOPT_STATE_IDLE]
    /\ run cfg listen_timeout s1 = Ok s2
    /\ sleeping_idle s2
    /\ sleep_interval_shift s2 = 0
    /\ timer s2 = Some (get_sleep_interval cfg s2)
    /\ out s2 = out s1 ++ [A_driver_set_state NETOPT_STATE_SLEEP].
Proof.
  intros (Hdc & Hst & Hn & Hb & Hi & Hbp & Hmb & d & Ht).
  unfold beacon_cycle_pending, listen_timeout. cbn [run].
  rewrite (step_timer_sleep_empty cfg s d Ht Hst Hn). cbn [bind].
  rewrite (step_thread cfg _ _ M_EVENT []) by (sfield; rewrite Hmb; reflexivity).
  cbn [thread_dispatch].
  rewrite handle_EVENT_beacon by (sfield; first [assumption | reflexivity]).
  cbn [bind].
  match goal with
  | |- context [step cfg (IN_SEND_PACKET ?p ?r) ?st] =>
      change (step cfg (IN_SEND_PACKET p r) st) with (Ok (send_packet p r st))
  end.
  cbn [bind].
  rewrite (step_thread cfg _ _ (M_LINK_RETRANSMIT NULL) []) by reflexivity.
  cbn [thread_dispatch].
  rewrite handle_LINK_RETRANSMIT_beacon by (sfield; first [assumption | reflexivity]).
  cbn [bind].
  match goal with
  | |- context [step cfg IN_IRQ ?st] =>
      change (step cfg IN_IRQ st)
        with (Ok (msg_send M_NETDEV_EVENT (set_irq_pending true st)))
  end.
  cbn [bind].
  rewrite (step_thread cfg _ _ M_NETDEV_EVENT []) by reflexivity.
  cbn [thread_dispatch].
  rewrite handle_NETDEV_EVENT_beacon_acked_pending by (sfield; first [assumption | reflexivity]).
  cbn [bind].
  rewrite (step_thread cfg _ _ M_EVENT [M_CHECK_QUEUE]) by reflexivity.
  cbn [thread_dispatch].
  rewrite handle_EVENT_listen by (sfield; first [assumption | reflexivity]).
  cbn [bind].
  rewrite (step_thread cfg _ _ M_CHECK_QUEUE []) by reflexivity.
  cbn [thread_dispatch].
  rewrite handle_CHECK_QUEUE_empty by exact Hn.
  eexists. eexists. split; [reflexivity |].
  split; [reflexivity |]. split; [reflexivity |]. split; [reflexivity |].
  split; [reflexivity |].
  split; [sfield; rewrite <- !app_assoc; reflexivity |].
  rewrite (step_timer_listen_empty cfg _ (DUTYCYCLE_WAKEUP_INTERVAL cfg))
    by (sfield; first [assumption | reflexivity]).
  cbn [bind].
  rewrite (step_thread cfg _ _ M_EVENT []) by reflexivity.
  cbn [thread_dispatch].
  rewrite handle_EVENT_sleep by (sfield; first [assumption | reflexivity]).
  split; [reflexivity |].
  split.
  { unfold sleeping_idle. sfield.
    repeat split; try assumption. eexists. reflexivity. }
  split; [reflexivity |].
  split; [sfield; f_equal; apply get_sleep_interval_shift_only; reflexivity |].
  sfield. rewrite <- !app_assoc. reflexivity.
Qed.

(** ** Setting and getting options *)

(** X19. SET(NETOPT_DUTYCYCLE) always succeeds, disarms the timer, and
    answers the sender with the driver's return value; enabling moves to
    [DUTY_SLEEP] with the timer armed at the random delay, disabling
    moves to [DUTY_INIT].  The driver is given the source-address length
    and the state SLEEP, never the option itself.  The last SET wins:
    after any earlier SET(NETOPT_DUTYCYCLE) the state is the one the last
    request alone would give, the trace apart. *)
Theorem set_dutycycle_last_wins
    (sender sender' : Z) (e e' : netopt_enable_t) (o o' : oracle) (s : state) :
  exists s1 s2 s2',
    handle_SET sender (SET_DUTYCYCLE e) o s = Ok s1
    /\ dutycycling s1 = e
    /\ dutycycle_state s1
       = match e with NETOPT_ENABLE => DUTY_SLEEP | NETOPT_DISABLE => DUTY_INIT end
    /\ timer s1
       = match e with NETOPT_ENABLE => Some (rnd o) | NETOPT_DISABLE => None end
    /\ out s1 = out s ++ [A_driver_set_src_len;
                          A_driver_set_state NETOPT_STATE_SLEEP;
                          A_msg_reply sender (drv_res o)]
    /\ handle_SET sender' (SET_DUTYCYCLE e') o' s1 = Ok s2
    /\ handle_SET sender' (SET_DUTYCYCLE e') o' s = Ok s2'
    /\ same_but_trace s2 s2'.
Proof.
  unfold handle_SET, same_but_trace. sstate.
  destruct e, e'; sstate;
    eexists; eexists; eexists; (split; [reflexivity |]); sstate;
    rewrite <- !app_assoc; repeat split.
Qed.

(** ** Initialisation *)

(** X20. [gnrc_netdev2_dutymac_init] returns a positive value, the pid of
    the new thread, exactly when the interface and its device are given
    and [thread_create] succeeded; otherwise it returns a negative errno.
    The thread is created only when both pointers are given, and the
    retry and CSMA layers are initialised in every case, before the
    pointers are looked at. *)
Theorem dutymac_init_result (ENODEV EINVAL : Z)
    (gnrc_netdev2 : option Z) (thread_create_res : Z) :
  0 < ENODEV -> 0 < EINVAL ->
  let r := gnrc_netdev2_dutymac_init ENODEV EINVAL gnrc_netdev2 thread_create_res in
  let given := match gnrc_netdev2 with
               | Some dev => negb (dev =? NULL)
               | None => false
               end in
  (0 < fst r <-> given = true /\ 0 < thread_create_res)
  /\ (0 < fst r -> fst r = thread_create_res)
  /\ (fst r <= 0 -> fst r = - ENODEV \/ fst r = - EINVAL)
  /\ (In CALL_thread_create (snd r) <-> given = true)
  /\ firstn 2 (snd r) = [CALL_retry_init; CALL_csma_init].
Proof.
  intros Hn Hi. unfold gnrc_netdev2_dutymac_init. cbv zeta.
  destruct gnrc_netdev2 as [dev |]; [destruct (dev =? NULL) |];
    [| destruct (thread_create_res <=? 0) eqn:Hle |]; cbn [fst snd negb];
    rewrite ?Z.leb_le, ?Z.leb_gt in *;
    repeat split; intros; simpl in *; try lia; try tauto; try discriminate; auto;
    intuition (try lia; try discriminate).
Qed.

(** ** A deferred beacon *)

(** X21. A deferred beacon is launched at the next radio event: if
    [beacon_pending] is set and the radio is free when
    NETDEV2_MSG_TYPE_EVENT is handled, then whatever events the driver
    raises the beacon is submitted and [beacon_pending] cleared; and in
    every case the handler ends by posting CHECK_QUEUE, and never leaves
    a beacon pending with the radio free. *)
Theorem pending_beacon_relaunched (cfg : config) (o : oracle) (s s' : state) :
  handle_NETDEV_EVENT cfg o s = Ok s' ->
  last (mbox s') = Some M_CHECK_QUEUE
  /\ (beacon_pending s' = true -> radio_busy s' = true)
  /\ (beacon_pending s = true -> radio_busy s = false ->
      beacon_pending s' = false
      /\ radio_busy s' = true
      /\ sending_beacon s' = true
      /\ last (out s') = Some (A_send_with_retries NULL)).
Proof.
  unfold handle_NETDEV_EVENT. intros H. sstate.
  destruct (driver_isr cfg (isr_events o) (set_irq_pending false s))
    as [s1|] eqn:Hisr; [| discriminate H].
  destruct (driver_isr_effects cfg _ _ s1 Hisr)
    as (_ & _ & _ & Hbp & _ & _ & Hrb & _).
  sstate. injection H as <-.
  destruct (beacon_pending s1) eqn:Hb1, (radio_busy s1) eqn:Hr1;
    cbn [andb negb]; sstate; rewrite ?last_snoc;
    (split; [reflexivity |]); (split; [congruence |]);
    intros Hb Hr; try (specialize (Hrb eq_refl)); try congruence;
    repeat split.
Qed.

(** ** The queue while duty-cycling is off *)

Lemma _event_cb_init_posts (cfg : config) (ev : netdev2_event_t) (o : cb_oracle)
    (s s' : state) :
  ev <> NETDEV2_EVENT_RX_COMPLETE ->
  dutycycle_state s = DUTY_INIT ->
  _event_cb cfg ev o s = Ok s' ->
  exists posted, mbox s' = mbox s ++ posted
                 /\ forallb no_set_no_remove posted = true.
Proof.
  intros Hev Hst H. destruct s. cbn in Hst. subst.
  destruct ev; try congruence; unfold_handlers H;
    run_cases_st; (eexists; split; [trace_eq | reflexivity]).
Qed.

Lemma driver_isr_init_posts (cfg : config) (evs : list (netdev2_event_t * cb_oracle)) :
  forallb not_rx_complete evs = true ->
  forall s s',
    dutycycle_state s = DUTY_INIT ->
    driver_isr cfg evs s = Ok s' ->
    exists posted, mbox s' = mbox s ++ posted
                   /\ forallb no_set_no_remove posted = true.
Proof.
  induction evs as [| [e o] evs IH]; intros Hevs s s' Hst H; simpl in H.
  - injection H as <-. exists []. rewrite app_nil_r. auto.
  - simpl in Hevs. apply andb_true_iff in Hevs as [He Hevs].
    destruct (_event_cb cfg e o s) as [s1|] eqn:Hcb; [| discriminate H].
    simpl in H.
    assert (Hne : e <> NETDEV2_EVENT_RX_COMPLETE).
    { intros ->. discriminate He. }
    destruct (_event_cb_keeps_init cfg e o s s1 Hne Hst Hcb) as [Hst1 _].
    destruct (_event_cb_init_posts cfg e o s s1 Hne Hst Hcb) as (p1 & Hp1 & Hf1).
    destruct (IH Hevs s1 s' Hst1 H) as (p2 & Hp2 & Hf2).
    exists (p1 ++ p2). rewrite Hp2, Hp1, <- app_assoc, forallb_app, Hf1, Hf2. auto.
Qed.

Lemma thread_dispatch_init_queue (cfg : config) (m : mac_msg) (o : oracle)
    (s s' : state) :
  no_set_no_remove m = true ->
  m <> M_NETDEV_EVENT ->
  dutycycle_state s = DUTY_INIT ->
  0 <= pending_num s <= 128 ->
  thread_dispatch cfg m o s = Ok s' ->
  pending_num s <= pending_num s' <= 128
  /\ exists posted, mbox s' = mbox s ++ posted
                    /\ forallb no_set_no_remove posted = true.
Proof.
  intros Hns Hm Hst Hn H.
  destruct m; cbn [thread_dispatch] in H; try discriminate Hns; try congruence.
  - destruct s. cbn in Hst, Hn. subst. unfold_handlers H. run_cases_st;
      (split; [lia |]; eexists; split; [trace_eq | reflexivity]).
  - destruct s. cbn in Hst, Hn. subst. unfold_handlers H. run_cases_st;
      (split; [lia |]; eexists; split; [trace_eq | reflexivity]).
  - destruct s as [sh dc st tm pn rb aw rr sbn ip bp pq mb ou].
    cbn in Hst, Hn. subst. unfold_handlers H. sstate.
    unfold NETDEV2_PKT_QUEUE_SIZE in H.
    destruct (pn <? 128) eqn:Hlt; simpl in H; run_cases_st;
      rewrite ?Z.ltb_lt, ?Z.ltb_ge in Hlt; rewrite ?u8_small by lia;
      (split; [lia |]; eexists; split; [trace_eq | reflexivity]).
  - destruct s. cbn in Hst, Hn. subst. unfold_handlers H. run_cases_st.
    split; [lia |]. eexists; split; [trace_eq | reflexivity].
  - destruct s. cbn in Hst, Hn. subst. unfold_handlers H. run_cases_st;
      (split; [lia |]; eexists; split; [trace_eq | reflexivity]).
  - injection H as <-. sstate.
    split; [lia |]. eexists; split; [trace_eq | reflexivity].
Qed.

(** X22. While duty-cycling is off the queue is never drained: under
    every input that is not a SET request and in which the driver raises
    no RX_COMPLETE, no REMOVE_QUEUE message is ever posted, so
    [pending_num] never decreases (TX_COMPLETE in [DUTY_INIT] does not
    remove the frame that was sent). *)
Theorem disabled_queue_never_drains (cfg : config) (ins : list input) :
  forall s s',
    disabled_queueing s ->
    forallb leaves_init_alone ins = true ->
    run cfg ins s = Ok s' ->
    disabled_queueing s' /\ pending_num s <= pending_num s'.
Proof.
  induction ins as [| i ins IH]; intros s s' Hinv Hins H; simpl in H.
  - injection H as <-. split; [exact Hinv | lia].
  - simpl in Hins. apply andb_true_iff in Hins as [Hi Hins].
    destruct (step cfg i s) as [s1|] eqn:Hs; [| discriminate H]. simpl in H.
    assert (Hstep : disabled_queueing s1 /\ pending_num s <= pending_num s1).
    { clear IH H Hins s'.
      destruct Hinv as (Hst & Hdc & Hmb & Hn). unfold disabled_queueing.
      destruct i; cbn [step] in Hs; try discriminate Hi.
      - destruct (timer s); injection Hs as <-; [| repeat split; auto; lia].
        unfold dutycycle_cb. sstate. rewrite Hst. sstate.
        repeat split; auto; lia.
      - unfold _event_cb in Hs. sstate. injection Hs as <-. sstate.
        rewrite forallb_app, Hmb. repeat split; auto; lia.
      - injection Hs as <-. sstate. rewrite forallb_app, Hmb. repeat split; auto; lia.
      - injection Hs as <-. sstate. rewrite forallb_app, Hmb. repeat split; auto; lia.
      - injection Hs as <-. unfold send_packet. sstate.
        rewrite forallb_app, Hmb. repeat split; auto; lia.
      - destruct (mbox s) as [| m rest] eqn:Hbox;
          [injection Hs as <-; rewrite Hbox; repeat split; auto; lia |].
        simpl in Hmb. apply andb_true_iff in Hmb as [Hm Hrest].
        assert (Hcase : m = M_NETDEV_EVENT \/ m <> M_NETDEV_EVENT)
          by (destruct m; (left; reflexivity) || (right; discriminate)).
        destruct Hcase as [-> | Hne].
        + cbn [thread_dispatch] in Hs. unfold handle_NETDEV_EVENT in Hs. sstate.
          destruct (driver_isr cfg (isr_events o) (set_irq_pending false (set_mbox rest s)))
            as [s2|] eqn:Hisr; [| discriminate Hs].
          destruct (driver_isr_keeps_init cfg _ Hi
                      (set_irq_pending false (set_mbox rest s)) s2 Hst Hisr)
            as [Hst2 _].
          destruct (driver_isr_init_posts cfg _ Hi
                      (set_irq_pending false (set_mbox rest s)) s2 Hst Hisr)
            as (posted & Hp & Hf).
          destruct (driver_isr_effects cfg _ _ s2 Hisr) as (_ & Hpn & Hdc2 & _).
          sstate. injection Hs as <-.
          destruct (beacon_pending s2 && negb (radio_busy s2)); sstate;
            rewrite Hp, !forallb_app, Hrest, Hf, Hpn;
            repeat split; try congruence; lia.
        + destruct (thread_dispatch_init_queue cfg m o (set_mbox rest s) s1
                      Hm Hne Hst Hn Hs)
            as (Hn1 & posted & Hp & Hnp).
          assert (Hm' : no_set_msg m = true)
            by (destruct m; simpl in Hm |- *; congruence).
          destruct (thread_dispatch_keeps_init cfg m o (set_mbox rest s) s1
                      Hm' Hne Hst Hdc Hs)
            as (Hst1 & Hdc1 & _).
          sstate. rewrite Hp, forallb_app, Hrest, Hnp.
          repeat split; try congruence; lia. }
    destruct Hstep as [Hinv1 Hle1].
    destruct (IH s1 s' Hinv1 Hins H) as [Hinv' Hle']. split; [exact Hinv' | lia].
Qed.

(** ** The further properties at concrete states *)

(** [get_sleep_interval_reachable] after two idle wake-ups (MIN = 3,
    MAX = 10): the interval is 10. *)
Lemma get_sleep_interval_reachable_witness :
  0 < DUTYCYCLE_SLEEP_INTERVAL_MIN cfg_3_10 < 2 ^ 32
  /\ DUTYCYCLE_SLEEP_INTERVAL_MIN cfg_3_10 <= DUTYCYCLE_SLEEP_INTERVAL_MAX cfg_3_10
  /\ reachable cfg_3_10 backed_off_twice
  /\ get_sleep_interval cfg_3_10 backed_off_twice = Z.min (3 * 2 ^ 2) 10.
Proof.
  assert (H1 : 0 < DUTYCYCLE_SLEEP_INTERVAL_MIN cfg_3_10 < 2 ^ 32)
    by (vm_compute; split; reflexivity).
  assert (H2 : DUTYCYCLE_SLEEP_INTERVAL_MIN cfg_3_10
               <= DUTYCYCLE_SLEEP_INTERVAL_MAX cfg_3_10)
    by (vm_compute; discriminate).
  assert (H3 : reachable cfg_3_10 backed_off_twice).
  { exists (enable_dutycycle ++ beacon_cycle ++ beacon_cycle).
    vm_compute. reflexivity. }
  split; [exact H1 |]. split; [exact H2 |]. split; [exact H3 |].
  exact (proj1 (get_sleep_interval_reachable cfg_3_10 backed_off_twice H1 H2 H3)).
Defined.

(** [backoff_at_most_doubles] on the sleeping node: 3 becomes 6. *)
Lemma backoff_at_most_doubles_witness :
  0 < DUTYCYCLE_SLEEP_INTERVAL_MIN cfg_3_10 < 2 ^ 32
  /\ DUTYCYCLE_SLEEP_INTERVAL_MIN cfg_3_10 <= DUTYCYCLE_SLEEP_INTERVAL_MAX cfg_3_10
  /\ reachable cfg_3_10 asleep
  /\ backoff_sleep_interval cfg_3_10 asleep = Ok (set_sleep_interval_shift 1 asleep)
  /\ get_sleep_interval cfg_3_10 asleep
       <= get_sleep_interval cfg_3_10 (set_sleep_interval_shift 1 asleep)
       <= 2 * get_sleep_interval cfg_3_10 asleep.
Proof.
  assert (H1 : 0 < DUTYCYCLE_SLEEP_INTERVAL_MIN cfg_3_10 < 2 ^ 32)
    by (vm_compute; split; reflexivity).
  assert (H2 : DUTYCYCLE_SLEEP_INTERVAL_MIN cfg_3_10
               <= DUTYCYCLE_SLEEP_INTERVAL_MAX cfg_3_10)
    by (vm_compute; discriminate).
  assert (H3 : reachable cfg_3_10 asleep).
  { exists enable_dutycycle. vm_compute. reflexivity. }
  split; [exact H1 |]. split; [exact H2 |]. split; [exact H3 |].
  split; [reflexivity |].
  exact (proj1 (backoff_at_most_doubles cfg_3_10 asleep
                  (set_sleep_interval_shift 1 asleep) H1 H2 H3 eq_refl)).
Defined.

(** [msg_queue_add_appends] on the empty queue of the sleeping node. *)
Lemma msg_queue_add_appends_witness :
  length (pkt_queue asleep) = 128%nat
  /\ 0 <= pending_num asleep
  /\ queue_contents
       (snd (msg_queue_add {| sender_pid := 5; type := 514; content_ptr := 1001 |}
               asleep))
     = queue_contents asleep
       ++ [{| sender_pid := 5; type := 514; content_ptr := 1001 |}].
Proof.
  assert (H2 : 0 <= pending_num asleep) by (vm_compute; discriminate).
  split; [reflexivity |]. split; [exact H2 |].
  exact (proj2 (msg_queue_add_appends
                  {| sender_pid := 5; type := 514; content_ptr := 1001 |}
                  asleep eq_refl H2)).
Defined.

(** [msg_queue_remove_head_pops] with two packets queued. *)
Lemma msg_queue_remove_head_pops_witness :
  queue_holds two_queued_acked
  /\ exists hd s',
       msg_queue_remove_head two_queued_acked = Ok s'
       /\ queue_contents two_queued_acked = hd :: queue_contents s'
       /\ pending_num s' = pending_num two_queued_acked - 1.
Proof.
  split; [exact two_queued_acked_holds |].
  destruct (msg_queue_remove_head_pops two_queued_acked two_queued_acked_holds)
    as (hd & s' & H1 & H2 & H3 & _).
  exists hd, s'. split; [exact H1 |]. split; [exact H2 | exact H3].
Defined.

(** [msg_queue_remove_head_stops_at_unused] once the counter has wrapped
    to 255: slot 1 is unused. *)
Lemma msg_queue_remove_head_stops_at_unused_witness :
  2 <= pending_num wrapped_counter <= 255
  /\ pkt_queue wrapped_counter !! 0%nat
     = Some {| sender_pid := 0; type := 0; content_ptr := NULL |}
  /\ pkt_queue wrapped_counter !! 1%nat
     = Some {| sender_pid := 0; type := 0; content_ptr := NULL |}
  /\ unused_slot {| sender_pid := 0; type := 0; content_ptr := NULL |} = true
  /\ exists s',
       msg_queue_remove_head wrapped_counter = Ok s'
       /\ pending_num s' = pending_num wrapped_counter - 1.
Proof.
  assert (H1 : 2 <= pending_num wrapped_counter <= 255)
    by (vm_compute; split; discriminate).
  split; [exact H1 |]. split; [reflexivity |]. split; [reflexivity |].
  split; [reflexivity |].
  destruct (msg_queue_remove_head_stops_at_unused wrapped_counter
              {| sender_pid := 0; type := 0; content_ptr := NULL |}
              {| sender_pid := 0; type := 0; content_ptr := NULL |}
              H1 eq_refl eq_refl eq_refl)
    as (s' & Hrm & _ & Hn & _).
  exists s'. split; [exact Hrm | exact Hn].
Defined.

(** [guarded_paths_respect_policy] on CHECK_QUEUE with two packets queued
    and the radio free: the head is submitted, and the policy holds. *)
Lemma guarded_paths_respect_policy_witness :
  M_CHECK_QUEUE <> M_NETDEV_EVENT
  /\ (forall sender pkt, M_CHECK_QUEUE = M_SND sender pkt ->
                         dutycycle_state two_queued_acked <> DUTY_INIT)
  /\ thread_dispatch cfg_3_10 M_CHECK_QUEUE quiet two_queued_acked
     = Ok (state_of (thread_dispatch cfg_3_10 M_CHECK_QUEUE quiet two_queued_acked))
  /\ exists acts,
       out (state_of (thread_dispatch cfg_3_10 M_CHECK_QUEUE quiet two_queued_acked))
         = out two_queued_acked ++ acts
       /\ (existsb is_send_with_retries acts = true ->
           may_submit quiet two_queued_acked = true).
Proof.
  assert (H1 : M_CHECK_QUEUE <> M_NETDEV_EVENT) by discriminate.
  assert (H2 : forall sender pkt, M_CHECK_QUEUE = M_SND sender pkt ->
                                  dutycycle_state two_queued_acked <> DUTY_INIT)
    by (intros sender pkt H; discriminate H).
  split; [exact H1 |]. split; [exact H2 |]. split; [reflexivity |].
  exact (guarded_paths_respect_policy cfg_3_10 M_CHECK_QUEUE quiet
           two_queued_acked _ H1 H2 eq_refl).
Defined.

(** [radio_busy_set_by_submission] on the same CHECK_QUEUE. *)
Lemma radio_busy_set_by_submission_witness :
  thread_dispatch cfg_3_10 M_CHECK_QUEUE quiet two_queued_acked
    = Ok (state_of (thread_dispatch cfg_3_10 M_CHECK_QUEUE quiet two_queued_acked))
  /\ radio_busy two_queued_acked = false
  /\ radio_busy (state_of (thread_dispatch cfg_3_10 M_CHECK_QUEUE quiet
                             two_queued_acked)) = true
  /\ exists p,
       last (out (state_of (thread_dispatch cfg_3_10 M_CHECK_QUEUE quiet
                              two_queued_acked)))
       = Some (A_send_with_retries p).
Proof.
  split; [reflexivity |]. split; [reflexivity |]. split; [reflexivity |].
  exact (radio_busy_set_by_submission cfg_3_10 M_CHECK_QUEUE quiet
           two_queued_acked _ eq_refl eq_refl eq_refl).
Defined.

(** [radio_busy_cleared_by_tx_event]: CHECK_QUEUE with a frame in flight
    keeps [radio_busy]; TX_COMPLETE clears it. *)
Lemma radio_busy_cleared_by_tx_event_witness :
  (M_CHECK_QUEUE <> M_NETDEV_EVENT
   /\ (forall pkt, M_CHECK_QUEUE <> M_LINK_RETRANSMIT pkt)
   /\ thread_dispatch cfg_3_10 M_CHECK_QUEUE quiet two_queued = Ok two_queued
   /\ radio_busy two_queued = true)
  /\ (_event_cb cfg_3_10 NETDEV2_EVENT_TX_COMPLETE cb_final two_queued
        = Ok (state_of (_event_cb cfg_3_10 NETDEV2_EVENT_TX_COMPLETE cb_final
                          two_queued))
      /\ radio_busy (state_of (_event_cb cfg_3_10 NETDEV2_EVENT_TX_COMPLETE
                                 cb_final two_queued)) = false
      /\ (NETDEV2_EVENT_TX_COMPLETE = NETDEV2_EVENT_TX_COMPLETE
          \/ NETDEV2_EVENT_TX_COMPLETE = NETDEV2_EVENT_TX_COMPLETE_PENDING
          \/ terminal_failure NETDEV2_EVENT_TX_COMPLETE cb_final)).
Proof.
  destruct (radio_busy_cleared_by_tx_event cfg_3_10) as [Hkeep Hclear].
  assert (H1 : M_CHECK_QUEUE <> M_NETDEV_EVENT) by discriminate.
  assert (H2 : forall pkt, M_CHECK_QUEUE <> M_LINK_RETRANSMIT pkt)
    by (intros pkt H; discriminate H).
  split.
  - split; [exact H1 |]. split; [exact H2 |]. split; [reflexivity |].
    exact (Hkeep M_CHECK_QUEUE quiet two_queued two_queued H1 H2 eq_refl eq_refl).
  - split; [reflexivity |]. split; [reflexivity |].
    exact (Hclear NETDEV2_EVENT_TX_COMPLETE cb_final two_queued _
             eq_refl eq_refl eq_refl).
Defined.

(** [disabled_stays_idle] on a switched-off node that sends a packet. *)
Lemma disabled_stays_idle_witness :
  disabled_idle switched_off
  /\ forallb leaves_init_alone off_traffic = true
  /\ run cfg_3_10 off_traffic switched_off
     = Ok (state_of (run cfg_3_10 off_traffic switched_off))
  /\ disabled_idle (state_of (run cfg_3_10 off_traffic switched_off)).
Proof.
  assert (H1 : disabled_idle switched_off) by (repeat split).
  assert (H2 : forallb leaves_init_alone off_traffic = true) by reflexivity.
  assert (H3 : run cfg_3_10 off_traffic switched_off
               = Ok (state_of (run cfg_3_10 off_traffic switched_off)))
    by (vm_compute; reflexivity).
  split; [exact H1 |]. split; [exact H2 |]. split; [exact H3 |].
  exact (disabled_stays_idle cfg_3_10 off_traffic switched_off _ H1 H2 H3).
Defined.

(** [driver_tx_only_when_idle] on the LINK_RETRANSMIT of a beacon. *)
Lemma driver_tx_only_when_idle_witness :
  thread_dispatch cfg_3_10 (M_LINK_RETRANSMIT NULL) quiet beacon_submitted
    = Ok (state_of (thread_dispatch cfg_3_10 (M_LINK_RETRANSMIT NULL) quiet
                      beacon_submitted))
  /\ exists acts,
       out (state_of (thread_dispatch cfg_3_10 (M_LINK_RETRANSMIT NULL) quiet
                        beacon_submitted))
         = out beacon_submitted ++ acts
       /\ (existsb is_driver_tx acts = true ->
           irq_pending beacon_submitted = false /\ rx quiet = false
           /\ exists pkt, M_LINK_RETRANSMIT NULL = M_LINK_RETRANSMIT pkt).
Proof.
  split; [reflexivity |].
  exact (driver_tx_only_when_idle cfg_3_10 (M_LINK_RETRANSMIT NULL) quiet
           beacon_submitted _ eq_refl).
Defined.

(** [release_only_on_remove_or_rx] on SND with the queue full. *)
Lemma release_only_on_remove_or_rx_witness :
  M_SND 9 2002 <> M_REMOVE_QUEUE
  /\ M_SND 9 2002 <> M_NETDEV_EVENT
  /\ thread_dispatch cfg_3_10 (M_SND 9 2002) quiet queue_full
     = Ok (state_of (thread_dispatch cfg_3_10 (M_SND 9 2002) quiet queue_full))
  /\ exists acts,
       out (state_of (thread_dispatch cfg_3_10 (M_SND 9 2002) quiet queue_full))
         = out queue_full ++ acts
       /\ existsb is_pktbuf_release acts = false.
Proof.
  assert (H1 : M_SND 9 2002 <> M_REMOVE_QUEUE) by discriminate.
  assert (H2 : M_SND 9 2002 <> M_NETDEV_EVENT) by discriminate.
  split; [exact H1 |]. split; [exact H2 |]. split; [reflexivity |].
  exact (release_only_on_remove_or_rx cfg_3_10 (M_SND 9 2002) quiet queue_full _
           H1 H2 eq_refl).
Defined.

(** [queue_array_invariant] on the full queue. *)
Lemma queue_array_invariant_witness :
  reachable cfg_3_10 queue_full
  /\ length (pkt_queue queue_full) = 128%nat
  /\ 0 <= pending_num queue_full < 256.
Proof.
  assert (H : reachable cfg_3_10 queue_full).
  { exists (enable_dutycycle ++ flood 128). vm_compute. reflexivity. }
  split; [exact H |].
  destruct (queue_array_invariant cfg_3_10 queue_full H) as (H1 & H2 & _).
  split; [exact H1 | exact H2].
Defined.

(** [handle_SND_immediate_or_queued] on the sleeping node: the packet is
    submitted at once. *)
Lemma handle_SND_immediate_or_queued_witness :
  length (pkt_queue asleep) = 128%nat
  /\ 0 <= pending_num asleep <= 128
  /\ dutycycle_state asleep <> DUTY_INIT
  /\ exists s',
       handle_SND cfg_3_10 5 1001 quiet asleep = Ok s'
       /\ dutycycle_state s' = DUTY_TX_DATA
       /\ out s' = out asleep ++ [A_send_with_retries 1001].
Proof.
  assert (H2 : 0 <= pending_num asleep <= 128) by (vm_compute; split; discriminate).
  assert (H3 : dutycycle_state asleep <> DUTY_INIT) by discriminate.
  split; [reflexivity |]. split; [exact H2 |]. split; [exact H3 |].
  destruct (handle_SND_immediate_or_queued cfg_3_10 5 1001 quiet asleep eq_refl H2 H3)
    as (s' & Hs & Hst & _ & _ & _ & Hout).
  exists s'. split; [exact Hs |]. split; [exact Hst | exact Hout].
Defined.

(** The state [draining_two] is draining its two packets. *)
Lemma draining_two_draining :
  draining [{| sender_pid := 5; type := 514; content_ptr := 1001 |};
            {| sender_pid := 5; type := 514; content_ptr := 1002 |}]
    draining_two.
Proof.
  unfold draining. repeat split; try reflexivity; simpl; lia.
Defined.

(** [drain_before_beacon] with two packets queued: 1001 then 1002 are
    released, 1002 then the beacon are submitted. *)
Lemma drain_before_beacon_witness :
  draining [{| sender_pid := 5; type := 514; content_ptr := 1001 |};
            {| sender_pid := 5; type := 514; content_ptr := 1002 |}]
    draining_two
  /\ exists s',
       run cfg_3_10 (drain_one ++ drain_one) draining_two = Ok s'
       /\ out s' = out draining_two ++
            [A_csma_send_succeeded; A_retry_send_succeeded;
             A_pktbuf_release 1001; A_send_with_retries 1002;
             A_csma_send_succeeded; A_retry_send_succeeded;
             A_pktbuf_release 1002; A_send_with_retries NULL]
       /\ dutycycle_state s' = DUTY_TX_BEACON
       /\ pending_num s' = 0.
Proof.
  split; [exact draining_two_draining |].
  destruct (drain_before_beacon cfg_3_10 _ draining_two draining_two_draining)
    as (s' & H1 & H2 & H3 & H4 & _).
  exists s'. split; [exact H1 |]. split; [exact H2 |]. split; [exact H3 | exact H4].
Defined.

(** The sleeping node is idle. *)
Lemma asleep_sleeping_idle : sleeping_idle asleep.
Proof. unfold sleeping_idle. repeat split. exists 7. reflexivity. Defined.

(** [idle_beacon_cycle] on the sleeping node: the shift goes from 0 to 1
    and the timer is armed with 6. *)
Lemma idle_beacon_cycle_witness :
  sleeping_idle asleep
  /\ backoff_sleep_interval cfg_3_10 asleep = Ok (set_sleep_interval_shift 1 asleep)
  /\ exists s',
       run cfg_3_10 beacon_cycle asleep = Ok s'
       /\ sleeping_idle s'
       /\ sleep_interval_shift s' = 1
       /\ timer s' = Some 6.
Proof.
  split; [exact asleep_sleeping_idle |]. split; [reflexivity |].
  destruct (idle_beacon_cycle cfg_3_10 asleep (set_sleep_interval_shift 1 asleep)
              asleep_sleeping_idle eq_refl)
    as (s' & H1 & H2 & H3 & H4 & _).
  exists s'. split; [exact H1 |]. split; [exact H2 |]. split; [exact H3 | exact H4].
Defined.

(** [pending_beacon_listen_then_sleep] on the sleeping node. *)
Lemma pending_beacon_listen_then_sleep_witness :
  sleeping_idle asleep
  /\ exists s1 s2,
       run cfg_3_10 beacon_cycle_pending asleep = Ok s1
       /\ dutycycle_state s1 = DUTY_LISTEN
       /\ timer s1 = Some 1
       /\ run cfg_3_10 listen_timeout s1 = Ok s2
       /\ sleeping_idle s2.
Proof.
  split; [exact asleep_sleeping_idle |].
  destruct (pending_beacon_listen_then_sleep cfg_3_10 asleep asleep_sleeping_idle)
    as (s1 & s2 & H1 & H2 & H3 & _ & _ & _ & H7 & H8 & _).
  exists s1, s2. split; [exact H1 |]. split; [exact H2 |]. split; [exact H3 |].
  split; [exact H7 | exact H8].
Defined.

(** [dutymac_init_result] with ENODEV = 19, EINVAL = 22, a device given
    and [thread_create] returning pid 7. *)
Lemma dutymac_init_result_witness :
  0 < 19 /\ 0 < 22
  /\ (0 < fst (gnrc_netdev2_dutymac_init 19 22 (Some 4096) 7)
      <-> negb (4096 =? NULL) = true /\ 0 < 7)
  /\ fst (gnrc_netdev2_dutymac_init 19 22 None 7) = -19.
Proof.
  assert (H1 : 0 < 19) by reflexivity. assert (H2 : 0 < 22) by reflexivity.
  split; [exact H1 |]. split; [exact H2 |].
  split; [exact (proj1 (dutymac_init_result 19 22 (Some 4096) 7 H1 H2)) | reflexivity].
Defined.

(** [pending_beacon_relaunched] on the deferred beacon. *)
Lemma pending_beacon_relaunched_witness :
  handle_NETDEV_EVENT cfg_3_10 quiet beacon_deferred
    = Ok (state_of (handle_NETDEV_EVENT cfg_3_10 quiet beacon_deferred))
  /\ beacon_pending beacon_deferred = true
  /\ radio_busy beacon_deferred = false
  /\ beacon_pending (state_of (handle_NETDEV_EVENT cfg_3_10 quiet beacon_deferred))
     = false
  /\ last (out (state_of (handle_NETDEV_EVENT cfg_3_10 quiet beacon_deferred)))
     = Some (A_send_with_retries NULL).
Proof.
  split; [reflexivity |]. split; [reflexivity |]. split; [reflexivity |].
  destruct (pending_beacon_relaunched cfg_3_10 quiet beacon_deferred _ eq_refl)
    as (_ & _ & H).
  destruct (H eq_refl eq_refl) as (H1 & _ & _ & H4).
  split; [exact H1 | exact H4].
Defined.

(** [disabled_queue_never_drains] on a switched-off node that sends a
    packet: the packet is still queued after its TX_COMPLETE. *)
Lemma disabled_queue_never_drains_witness :
  disabled_queueing switched_off
  /\ forallb leaves_init_alone off_traffic = true
  /\ run cfg_3_10 off_traffic switched_off
     = Ok (state_of (run cfg_3_10 off_traffic switched_off))
  /\ pending_num switched_off
     <= pending_num (state_of (run cfg_3_10 off_traffic switched_off)).
Proof.
  assert (H1 : disabled_queueing switched_off).
  { unfold disabled_queueing. repeat split; try reflexivity; vm_compute; discriminate. }
  assert (H2 : forallb leaves_init_alone off_traffic = true) by reflexivity.
  assert (H3 : run cfg_3_10 off_traffic switched_off
               = Ok (state_of (run cfg_3_10 off_traffic switched_off)))
    by (vm_compute; reflexivity).
  split; [exact H1 |]. split; [exact H2 |]. split; [exact H3 |].
  exact (proj2 (disabled_queue_never_drains cfg_3_10 off_traffic switched_off _
                  H1 H2 H3)).
Defined.
